(** * BankingNewsletter: the four downloaders and their orchestrator

    A shallow embedding of [ABS_downloader.py], [RBA_downloader.py],
    [APRA_downloader.py], [NSW_Revenue_downloader.py] and
    [run-all-script.py], followed by the properties of the fetcher, the
    link resolvers and the retrieval sink.

    Conventions of the embedding.
    - A Python [str] or [bytes] value is a [string]: the sequence of the
      bytes of its UTF-8 encoding.  Every string operation the scripts use
      compares against ASCII text only, for which searching bytes and
      searching code points agree.
    - A Python [int] is a [Z]; the iteration count of [range(retries)] is
      a [nat].
    - [None] is [None]; a function that may receive [None] where it
      expects a [str] takes an [option string].
    - The network, the HTML parser, the ZIP reader and the willingness of
      the file system to accept a write are gathered in an environment
      [Env]; the mutable world (requests issued, sleeps, files on disk) is
      threaded explicitly through the monad [M], which also carries the
      exceptions.
    - Paths follow the POSIX rules of [os.path].  The folders that the
      scripts create when they are loaded are taken to exist.
    - [print] calls are left out: they do not influence control flow. *)

From stdpp Require Import base option list gmap strings.
From Stdlib Require Import ZArith Ascii.

Local Open Scope Z_scope.

(** ** Python built-ins on strings *)

Module Py.

(** [s.startswith(p)] *)
Fixpoint startswith (s p : string) {struct p} : bool :=
  match p with
  | EmptyString => true
  | String a p' =>
      match s with
      | EmptyString => false
      | String b s' => if Ascii.eqb a b then startswith s' p' else false
      end
  end.

(** [s.endswith(suffix)] *)
Fixpoint endswith (s suffix : string) : bool :=
  if String.eqb s suffix then true
  else match s with
       | EmptyString => false
       | String _ s' => endswith s' suffix
       end.

(** [sub in s] *)
Fixpoint contains (sub s : string) : bool :=
  if startswith s sub then true
  else match s with
       | EmptyString => false
       | String _ s' => contains sub s'
       end.

(** [s.split(sep)] for a one-character separator; the result is never
    empty. *)
Fixpoint split (sep : ascii) (s : string) : list string :=
  match s with
  | EmptyString => [EmptyString]
  | String c s' =>
      if Ascii.eqb c sep then EmptyString :: split sep s'
      else match split sep s' with
           | piece :: pieces => String c piece :: pieces
           | [] => [String c EmptyString]
           end
  end.

(** [l[0]] and [l[-1]] on the result of a [split]; the default is never
    reached there. *)
Definition first (l : list string) : string := List.hd EmptyString l.
Definition last (l : list string) : string := List.last l EmptyString.

(** [sep.join(l)] *)
Fixpoint join (sep : string) (l : list string) : string :=
  match l with
  | [] => EmptyString
  | [x] => x
  | x :: rest => x +:+ sep +:+ join sep rest
  end.

Definition lower_ascii (c : ascii) : ascii :=
  let n := N_of_ascii c in
  if ((65 <=? n) && (n <=? 90))%N then ascii_of_N (n + 32) else c.

(** [s.lower()]: only the letters A-Z change among ASCII characters. *)
Fixpoint lower (s : string) : string :=
  match s with
  | EmptyString => EmptyString
  | String c s' => String (lower_ascii c) (lower s')
  end.

(** ASCII white space as [str.strip] sees it. *)
Definition isspace (c : ascii) : bool :=
  let n := N_of_ascii c in
  (((9 <=? n) && (n <=? 13)) || ((28 <=? n) && (n <=? 32)))%N.

Fixpoint lstrip (s : string) : string :=
  match s with
  | EmptyString => EmptyString
  | String c s' => if isspace c then lstrip s' else s
  end.

Fixpoint rstrip (s : string) : string :=
  match s with
  | EmptyString => EmptyString
  | String c s' =>
      match rstrip s' with
      | EmptyString => if isspace c then EmptyString else String c EmptyString
      | t => String c t
      end
  end.

(** [s.strip()] *)
Definition strip (s : string) : string := rstrip (lstrip s).

Definition hex_digit (c : ascii) : option N :=
  let n := N_of_ascii c in
  if ((48 <=? n) && (n <=? 57))%N then Some (n - 48)%N
  else if ((65 <=? n) && (n <=? 70))%N then Some (n - 55)%N
  else if ((97 <=? n) && (n <=? 102))%N then Some (n - 87)%N
  else None.

(** [urllib.parse.unquote(s)]: every [%XY] with two hexadecimal digits
    becomes the byte [0xXY]; a [%] not followed by two hexadecimal digits
    stays.  The final UTF-8 decoding with replacement of ill-formed
    sequences is the identity on well-formed results and is not
    modelled. *)
Fixpoint unquote (s : string) : string :=
  match s with
  | EmptyString => EmptyString
  | String c s' =>
      let keep := String c (unquote s') in
      if Ascii.eqb c "%" then
        match s' with
        | String h (String l s'') =>
            match hex_digit h, hex_digit l with
            | Some x, Some y => String (ascii_of_N (16 * x + y)) (unquote s'')
            | _, _ => keep
            end
        | _ => keep
        end
      else keep
  end.

(** [os.path.join(a, b)] with the POSIX separator. *)
Definition os_path_join (a b : string) : string :=
  if startswith b "/" then b
  else if String.eqb a "" || endswith a "/" then a +:+ b
  else a +:+ "/" +:+ b.

(** A [dict] with [str] keys, in insertion order. *)
Definition dict (V : Type) : Type := list (string * V).

Fixpoint dict_get {V} (d : dict V) (k : string) : option V :=
  match d with
  | [] => None
  | (k', v) :: d' => if String.eqb k' k then Some v else dict_get d' k
  end.

(** [k in d] *)
Definition dict_has {V} (d : dict V) (k : string) : bool :=
  match dict_get d k with Some _ => true | None => false end.

(** [d[k] = v]: an existing key keeps its position. *)
Fixpoint dict_set {V} (d : dict V) (k : string) (v : V) : dict V :=
  match d with
  | [] => [(k, v)]
  | (k', v') :: d' =>
      if String.eqb k' k then (k', v) :: d' else (k', v') :: dict_set d' k v
  end.

(** [d.values()] *)
Definition dict_values {V} (d : dict V) : list V := map snd d.

End Py.

(** ** BeautifulSoup trees *)

Module Bs4.

(** A parsed page: text nodes and tags, a tag with its attribute
    dictionary and its children in document order. *)
Inductive node : Type :=
| NavigableString (s : string)
| Tag (name : string) (attrs : gmap string string) (contents : list node).

(** [x == y] on page elements: same name, same attributes and equal
    contents, recursively. *)
Fixpoint node_eqb (x y : node) : bool :=
  match x, y with
  | NavigableString s, NavigableString t => String.eqb s t
  | Tag n a cs, Tag m b ds =>
      String.eqb n m && bool_decide (a = b) &&
      (fix all2 (l1 l2 : list node) : bool :=
         match l1, l2 with
         | [], [] => true
         | c :: l1', d :: l2' => node_eqb c d && all2 l1' l2'
         | _, _ => false
         end) cs ds
  | _, _ => false
  end.

(** [tag.string]: the single text below a chain of only children. *)
Fixpoint tag_string (n : node) : option string :=
  match n with
  | NavigableString s => Some s
  | Tag _ _ [child] => tag_string child
  | Tag _ _ _ => None
  end.

(** [tag.text]: all the text below the tag, concatenated. *)
Fixpoint get_text (n : node) : string :=
  match n with
  | NavigableString s => s
  | Tag _ _ cs => fold_right (λ c acc, get_text c +:+ acc) EmptyString cs
  end.

(** An element met by a search together with [find_parents()], the
    chain of its ancestors from the nearest up to the document root. *)
Record Found : Type := { element : node; find_parents : list node }.

(** [n] and everything below it, in document order. *)
Fixpoint descendants (ancestors : list node) (n : node) : list Found :=
  {| element := n; find_parents := ancestors |} ::
  match n with
  | NavigableString _ => []
  | Tag _ _ cs => flat_map (descendants (n :: ancestors)) cs
  end.

Definition name_of (n : node) : option string :=
  match n with Tag name _ _ => Some name | NavigableString _ => None end.

Definition get (n : node) (key : string) : option string :=
  match n with Tag _ attrs _ => attrs !! key | NavigableString _ => None end.

(** [link[key]]; only used on elements selected for having the key. *)
Definition subscript (link : Found) (key : string) : string :=
  default EmptyString (get (element link) key).

Definition is_tag (name : string) (n : node) : bool :=
  match name_of n with Some m => String.eqb m name | None => false end.

(** The test of [find_all("a", href=True)] on one element. *)
Definition a_href (n : node) : bool :=
  is_tag "a" n && match get n "href" with Some _ => true | None => false end.

(** [soup.find_all("a", href=True)] *)
Definition find_all_a_href (soup : node) : list Found :=
  List.filter (λ f, a_href (element f)) (tail (descendants [] soup)).

(** [soup.find("p", string=pred)]: the filter receives [tag.string],
    which may be [None]. *)
Definition find_p (pred : option string → bool) (soup : node) : option Found :=
  head (List.filter (λ f, is_tag "p" (element f) && pred (tag_string (element f)))
                    (tail (descendants [] soup))).

(** [link.find_parent()] *)
Definition find_parent (link : Found) : option node := head (find_parents link).

(** [x in l] for a list of page elements. *)
Definition elem_in (x : node) (l : list node) : bool := existsb (node_eqb x) l.

End Bs4.

(** ** The environment and the world *)

Record Response : Type := {
  status_code : Z;
  text : string;      (* the decoded body *)
  content : string;   (* the raw body *)
}.

(** [bool(response)] is [response.ok]: no 4xx or 5xx status. *)
Definition ok (r : Response) : bool :=
  negb ((400 <=? status_code r) && (status_code r <? 600)).

Inductive Outcome : Type :=
| Responded (r : Response)
| Failed.            (* a [requests.exceptions.RequestException] *)

Record ZipInfo : Type := { filename : string; data : string }.

Record Env : Type := {
  (** [os.path.expanduser("~")] *)
  home : string;
  (** what the [n]-th GET of the run answers when sent to a URL *)
  network : nat → string → Outcome;
  (** the children of the root that [html.parser] builds from a text *)
  html_parser : string → list Bs4.node;
  (** the members of a file that [zipfile] accepts, in archive order;
      [None] when [zipfile.is_zipfile] is false *)
  zip_reader : string → option (list ZipInfo);
  (** whether the file system lets a regular file be opened for writing
      at a path *)
  writable : string → bool;
}.

Record World : Type := {
  requests : list string;       (* URLs fetched so far, oldest first *)
  slept : list Z;               (* arguments of [time.sleep], oldest first *)
  disk : gmap string string;    (* regular files by path *)
}.

Inductive Exn : Type :=
| RequestException | AttributeError | ValueError | KeyError | OSError.

Inductive Result (A : Type) : Type :=
| Ok (a : A)
| Raise (e : Exn).
Arguments Ok {A} a.
Arguments Raise {A} e.

Definition M (A : Type) : Type := World → Result A * World.

#[global] Instance M_ret : MRet M := λ A a w, (Ok a, w).
#[global] Instance M_bind : MBind M := λ A B f m w,
  match m w with
  | (Ok a, w') => f a w'
  | (Raise e, w') => (Raise e, w')
  end.

Definition raise {A} (e : Exn) : M A := λ w, (Raise e, w).

(** [try: body / except RequestException: handler] *)
Definition try_except_RequestException {A} (body handler : M A) : M A := λ w,
  match body w with
  | (Raise RequestException, w') => handler w'
  | r => r
  end.

(** [requests.get(url, ...)] *)
Definition requests_get (env : Env) (url : string) : M Response := λ w,
  let w' := {| requests := requests w ++ [url]; slept := slept w; disk := disk w |} in
  match network env (length (requests w)) url with
  | Responded r => (Ok r, w')
  | Failed => (Raise RequestException, w')
  end.

(** [time.sleep(secs)] *)
Definition time_sleep (secs : Z) : M unit := λ w,
  if secs <? 0 then (Raise ValueError, w)
  else (Ok tt, {| requests := requests w; slept := slept w ++ [secs]; disk := disk w |}).

(** [open(path, "wb")] followed by writing the whole body. *)
Definition write_file (env : Env) (path bytes : string) : M unit := λ w,
  if writable env path
  then (Ok tt, {| requests := requests w; slept := slept w;
                  disk := <[path := bytes]> (disk w) |})
  else (Raise OSError, w).

Definition read_file (path : string) : M (option string) := λ w, (Ok (disk w !! path), w).

(** [BeautifulSoup(text, "html.parser")] *)
Definition BeautifulSoup (env : Env) (text : string) : Bs4.node :=
  Bs4.Tag "[document]" ∅ (html_parser env text).

(** Truth value of a [str] or [None]. *)
Definition truthy (s : option string) : bool :=
  match s with
  | Some s => negb (String.eqb s "")
  | None => false
  end.

(** ** zipfile *)

Module Zip.

(** [zip_ref.namelist()] *)
Definition namelist (zip_ref : list ZipInfo) : list string := filename <$> zip_ref.

(** [zip_ref.getinfo(name)]: the last member recorded under the name. *)
Definition getinfo (zip_ref : list ZipInfo) (name : string) : option ZipInfo :=
  last (filter (λ info, filename info = name) zip_ref).

(** The path of a member below the extraction folder: empty, [.] and
    [..] components are dropped. *)
Definition arcname (name : string) : string :=
  Py.join "/"
    (List.filter (λ x, negb (String.eqb x "" || String.eqb x "." || String.eqb x ".."))
                 (Py.split "/" name)).

(** [zip_ref.extract(member, path)] on a POSIX system.  A directory
    member creates no file.  The target is [os.path.join(path, arcname)];
    [os.path.normpath], which only respells a location, is left out. *)
Definition extract (env : Env) (zip_ref : list ZipInfo) (member path : string)
  : M unit :=
  match getinfo zip_ref member with
  | None => raise KeyError
  | Some info =>
      if Py.endswith member "/" then mret tt
      else write_file env (Py.os_path_join path (arcname member)) (data info)
  end.

End Zip.

(** What one pass through the body of the retry loop decides. *)
Inductive Flow : Type :=
| Return (response : Response)
| Continue (wait_time : Z).

(** [x in l] for a list of integers. *)
Definition Z_in (x : Z) (l : list Z) : bool := existsb (Z.eqb x) l.

(** ** ABS_downloader.py *)

Module ABS.

Definition DESKTOP_PATH (env : Env) : string := Py.os_path_join (home env) "Desktop".
Definition MAIN_FOLDER (env : Env) : string :=
  Py.os_path_join (DESKTOP_PATH env) "Banking Statistics Update".
Definition ABS_FOLDER (env : Env) : string := Py.os_path_join (MAIN_FOLDER env) "ABS Data".

Definition ABS_LENDING_URL : string :=
  "https://www.abs.gov.au/statistics/economy/finance/lending-indicators/latest-release#data-downloads".
Definition ABS_CPI_MONTHLY_URL : string :=
  "https://www.abs.gov.au/statistics/economy/price-indexes-and-inflation/monthly-consumer-price-index-indicator/latest-release".
Definition ABS_CPI_QUARTERLY_URL : string :=
  "https://www.abs.gov.au/statistics/economy/price-indexes-and-inflation/consumer-price-index-australia/latest-release".
Definition ABS_LABOUR_FORCE_URL : string :=
  "https://www.abs.gov.au/statistics/labour/employment-and-unemployment/labour-force-australia/latest-release#data-downloads".
Definition ABS_RETAIL_TRADE_URL : string :=
  "https://www.abs.gov.au/statistics/industry/retail-and-wholesale-trade/retail-trade-australia/latest-release#data-downloads".

Definition TARGET_ABS_FILES : Py.dict string :=
  [ ("Housing-Finance-Total.zip", "Housing Finance Total");
    ("Housing-Finance-Owner-occupiers.zip", "Housing Finance Owner-occupiers");
    ("Housing-Finance-Investors.zip", "Housing Finance Investors");
    ("Business-Finance.zip", "Business Finance");
    ("Housing-Finance-First-home-buyers.zip", "Housing Finance First-home buyers") ].

Definition CPI_FILES : Py.dict string :=
  [ ("Time-Series-Spreadsheets.zip", "Monthly Consumer Price Index");
    ("All-Time-Series-Spreadsheets.zip", "Quarterly Consumer Price Index") ].

Definition LABOUR_FORCE_FILE_PREFIX : string := "6202001".

Definition RETAIL_TRADE_FILE : string := "All-Time-Series-Spreadsheets.zip".

(** The [for attempt in range(retries)] loop of [fetch_url], by the
    number of attempts left. *)
Fixpoint fetch_url_loop (env : Env) (url : string) (attempts : nat) (wait_time : Z)
  : M (option Response) :=
  match attempts with
  | O => mret None
  | S attempts' =>
      flow ← try_except_RequestException
        (response ← requests_get env url;
         if Z_in (status_code response) [403; 429; 503]
            || Py.contains "captcha" (Py.lower (text response))
         then time_sleep wait_time;; mret (Continue (wait_time * 2))
         else mret (Return response))
        (time_sleep wait_time;; mret (Continue wait_time));
      match flow with
      | Return response => mret (Some response)
      | Continue wait_time' => fetch_url_loop env url attempts' wait_time'
      end
  end.

Definition fetch_url (env : Env) (url : string) (retries : nat) (wait_time : Z)
  : M (option Response) :=
  fetch_url_loop env url retries wait_time.

Definition download_file (env : Env) (file_url : option string) (save_folder : string)
  : M (option string) :=
  match file_url with
  | None => raise AttributeError
  | Some file_url =>
      let file_name :=
        Py.unquote (Py.first (Py.split "?" (Py.last (Py.split "/" file_url)))) in
      let file_path := Py.os_path_join save_folder file_name in
      response ← requests_get env file_url;
      if status_code response =? 200
      then write_file env file_path (content response);; mret (Some file_path)
      else mret None
  end.

Fixpoint extract_zip_loop (env : Env) (zip_ref : list ZipInfo) (names : list string)
    (extract_folder : string) : M unit :=
  match names with
  | [] => mret tt
  | file :: names' =>
      (if Py.endswith file ".xlsx" || Py.endswith file ".xls"
       then Zip.extract env zip_ref file extract_folder
       else mret tt);;
      extract_zip_loop env zip_ref names' extract_folder
  end.

Definition extract_zip (env : Env) (zip_path : option string) (extract_folder : string)
  : M unit :=
  match zip_path with
  | None => mret tt
  | Some path =>
      if String.eqb path "" then mret tt
      else
        bytes ← read_file path;
        match bytes ≫= zip_reader env with
        | None => mret tt
        | Some zip_ref =>
            extract_zip_loop env zip_ref (Zip.namelist zip_ref) extract_folder
        end
  end.

Fixpoint get_abs_lending_files_loop (links : list Bs4.Found) (valid_files : Py.dict string)
  : Py.dict string :=
  match links with
  | [] => valid_files
  | link :: links' =>
      let href := Bs4.subscript link "href" in
      let file_name := Py.first (Py.split "?" (Py.last (Py.split "/" href))) in
      get_abs_lending_files_loop links'
        (if Py.dict_has TARGET_ABS_FILES file_name
         then Py.dict_set valid_files file_name
                (if Py.startswith href "http" then href
                 else "https://www.abs.gov.au" +:+ href)
         else valid_files)
  end.

Definition get_abs_lending_files (env : Env) : M (Py.dict string) :=
  response ← fetch_url env ABS_LENDING_URL 3 5;
  match response with
  | None => mret []
  | Some response =>
      if negb (ok response) then mret []
      else
        let soup := BeautifulSoup env (text response) in
        mret (get_abs_lending_files_loop (Bs4.find_all_a_href soup) [])
  end.

Fixpoint get_abs_cpi_monthly_file_loop (links : list Bs4.Found) : option string :=
  match links with
  | [] => None
  | link :: links' =>
      let href := Bs4.subscript link "href" in
      if Py.contains "Time-Series-Spreadsheets.zip" href
      then Some (if Py.startswith href "http" then href
                 else "https://www.abs.gov.au" +:+ href)
      else get_abs_cpi_monthly_file_loop links'
  end.

Definition get_abs_cpi_monthly_file (env : Env) : M (option string) :=
  response ← fetch_url env ABS_CPI_MONTHLY_URL 3 5;
  match response with
  | None => mret None
  | Some response =>
      if negb (ok response) then mret None
      else
        let soup := BeautifulSoup env (text response) in
        mret (get_abs_cpi_monthly_file_loop (Bs4.find_all_a_href soup))
  end.

Fixpoint get_abs_cpi_quarterly_file_loop (links : list Bs4.Found) : option string :=
  match links with
  | [] => None
  | link :: links' =>
      let href := Bs4.subscript link "href" in
      if Py.contains "All-Time-Series-Spreadsheets.zip" href
         || Py.contains "Time-series-spreadsheets-all.zip" href
      then Some (if Py.startswith href "http" then href
                 else "https://www.abs.gov.au" +:+ href)
      else get_abs_cpi_quarterly_file_loop links'
  end.

Definition get_abs_cpi_quarterly_file (env : Env) : M (option string) :=
  response ← fetch_url env ABS_CPI_QUARTERLY_URL 3 5;
  match response with
  | None => mret None
  | Some response =>
      if negb (ok response) then mret None
      else
        let soup := BeautifulSoup env (text response) in
        mret (get_abs_cpi_quarterly_file_loop (Bs4.find_all_a_href soup))
  end.

Fixpoint get_abs_labour_force_file_loop (links : list Bs4.Found) : option string :=
  match links with
  | [] => None
  | link :: links' =>
      let href := Bs4.subscript link "href" in
      if Py.contains LABOUR_FORCE_FILE_PREFIX href && Py.endswith href ".xlsx"
      then Some (if Py.startswith href "http" then href
                 else "https://www.abs.gov.au" +:+ href)
      else get_abs_labour_force_file_loop links'
  end.

Definition get_abs_labour_force_file (env : Env) : M (option string) :=
  response ← fetch_url env ABS_LABOUR_FORCE_URL 3 5;
  match response with
  | None => mret None
  | Some response =>
      if negb (ok response) then mret None
      else
        let soup := BeautifulSoup env (text response) in
        mret (get_abs_labour_force_file_loop (Bs4.find_all_a_href soup))
  end.

Fixpoint get_abs_retail_trade_file_loop (links : list Bs4.Found) : option string :=
  match links with
  | [] => None
  | link :: links' =>
      let href := Bs4.subscript link "href" in
      if Py.contains RETAIL_TRADE_FILE href
      then Some (if Py.startswith href "http" then href
                 else "https://www.abs.gov.au" +:+ href)
      else get_abs_retail_trade_file_loop links'
  end.

Definition get_abs_retail_trade_file (env : Env) : M (option string) :=
  response ← fetch_url env ABS_RETAIL_TRADE_URL 3 5;
  match response with
  | None => mret None
  | Some response =>
      if negb (ok response) then mret None
      else
        let soup := BeautifulSoup env (text response) in
        mret (get_abs_retail_trade_file_loop (Bs4.find_all_a_href soup))
  end.

(** [for file_url in abs_lending_files.values(): ...] *)
Fixpoint main_lending_loop (env : Env) (file_urls : list string) : M unit :=
  match file_urls with
  | [] => mret tt
  | file_url :: file_urls' =>
      zip_path ← download_file env (Some file_url) (ABS_FOLDER env);
      (if truthy zip_path then extract_zip env zip_path (ABS_FOLDER env) else mret tt);;
      main_lending_loop env file_urls'
  end.

(** The body of [if __name__ == "__main__":]. *)
Definition main (env : Env) : M unit :=
  abs_lending_files ← get_abs_lending_files env;
  main_lending_loop env (Py.dict_values abs_lending_files);;
  (file_url ← get_abs_cpi_monthly_file env; download_file env file_url (ABS_FOLDER env));;
  (file_url ← get_abs_cpi_quarterly_file env; download_file env file_url (ABS_FOLDER env));;
  (file_url ← get_abs_labour_force_file env; download_file env file_url (ABS_FOLDER env));;
  retail_trade_file ← get_abs_retail_trade_file env;
  if truthy retail_trade_file then
    zip_path ← download_file env retail_trade_file (ABS_FOLDER env);
    if truthy zip_path then extract_zip env zip_path (ABS_FOLDER env) else mret tt
  else mret tt.

End ABS.

(** ** RBA_downloader.py *)

Module RBA.

Definition DESKTOP_PATH (env : Env) : string := Py.os_path_join (home env) "Desktop".
Definition MAIN_FOLDER (env : Env) : string :=
  Py.os_path_join (DESKTOP_PATH env) "Banking Statistics Update".
Definition RBA_FOLDER (env : Env) : string := Py.os_path_join (MAIN_FOLDER env) "RBA Data".

Definition RBA_PAYMENTS_URL : string :=
  "https://www.rba.gov.au/payments-and-infrastructure/resources/payments-data.html".
Definition RBA_INTEREST_URL : string := "https://www.rba.gov.au/statistics/tables/".

Definition TARGET_INTEREST_FILES : Py.dict string :=
  [ ("f01d.xlsx", "Interest Rates and Yields – Money Market – Daily – F1");
    ("f01hist.xlsx", "Interest Rates and Yields – Money Market – Monthly – F1.1");
    ("f06hist.xlsx", "Housing Lending Rates – F6") ].

Definition is_blocked (response : Response) : bool :=
  Z_in (status_code response) [403; 429; 503]
  || Py.contains "captcha" (Py.lower (text response)).

Fixpoint fetch_url_loop (env : Env) (url : string) (attempts : nat) (wait_time : Z)
  : M (option Response) :=
  match attempts with
  | O => mret None
  | S attempts' =>
      flow ← try_except_RequestException
        (response ← requests_get env url;
         if is_blocked response
         then time_sleep wait_time;; mret (Continue (wait_time * 2))
         else mret (Return response))
        (time_sleep wait_time;; mret (Continue wait_time));
      match flow with
      | Return response => mret (Some response)
      | Continue wait_time' => fetch_url_loop env url attempts' wait_time'
      end
  end.

Definition fetch_url (env : Env) (url : string) (retries : nat) (wait_time : Z)
  : M (option Response) :=
  fetch_url_loop env url retries wait_time.

(** This copy of [download_file] returns nothing. *)
Definition download_file (env : Env) (file_url : option string) (save_folder : string)
  : M unit :=
  match file_url with
  | None => raise AttributeError
  | Some file_url =>
      let file_name :=
        Py.unquote (Py.first (Py.split "?" (Py.last (Py.split "/" file_url)))) in
      let file_path := Py.os_path_join save_folder file_name in
      response ← requests_get env file_url;
      if status_code response =? 200
      then write_file env file_path (content response)
      else mret tt
  end.

(** [lambda text: text and "Discontinued payments statistical tables" in text] *)
Definition discontinued_heading (text : option string) : bool :=
  truthy text
  && match text with
     | Some text => Py.contains "Discontinued payments statistical tables" text
     | None => false
     end.

Fixpoint get_rba_payments_files_loop (discontinued_section : option Bs4.Found)
    (links : list Bs4.Found) (valid_files : list string) : list string :=
  match links with
  | [] => valid_files
  | link :: links' =>
      let href := Bs4.subscript link "href" in
      if match discontinued_section with
         | Some section =>
             match Bs4.find_parent link with
             | Some _ => Bs4.elem_in (Bs4.element section) (Bs4.find_parents link)
             | None => false
             end
         | None => false
         end
      then valid_files
      else if Py.contains "/xls-disc/" href
      then get_rba_payments_files_loop discontinued_section links' valid_files
      else if Py.endswith href ".xls" || Py.endswith href ".xlsx"
      then
        let file_url :=
          if Py.startswith href "http" then href else "https://www.rba.gov.au" +:+ href in
        get_rba_payments_files_loop discontinued_section links' (valid_files ++ [file_url])
      else get_rba_payments_files_loop discontinued_section links' valid_files
  end.

Definition get_rba_payments_files (env : Env) : M (list string) :=
  response ← fetch_url env RBA_PAYMENTS_URL 3 5;
  match response with
  | None => mret []
  | Some response =>
      if negb (ok response) then mret []
      else
        let soup := BeautifulSoup env (text response) in
        let discontinued_section := Bs4.find_p discontinued_heading soup in
        let links := Bs4.find_all_a_href soup in
        mret (get_rba_payments_files_loop discontinued_section links [])
  end.

Fixpoint get_rba_interest_files_loop (links : list Bs4.Found) (valid_files : Py.dict string)
  : Py.dict string :=
  match links with
  | [] => valid_files
  | link :: links' =>
      let href := Bs4.subscript link "href" in
      let file_name := Py.first (Py.split "?" (Py.last (Py.split "/" href))) in
      get_rba_interest_files_loop links'
        (if Py.dict_has TARGET_INTEREST_FILES file_name
         then
           let file_url :=
             if Py.startswith href "http" then href else "https://www.rba.gov.au" +:+ href in
           Py.dict_set valid_files file_name file_url
         else valid_files)
  end.

Definition get_rba_interest_files (env : Env) : M (Py.dict string) :=
  response ← fetch_url env RBA_INTEREST_URL 3 5;
  match response with
  | None => mret []
  | Some response =>
      if negb (ok response) then mret []
      else
        let soup := BeautifulSoup env (text response) in
        let links := Bs4.find_all_a_href soup in
        mret (get_rba_interest_files_loop links [])
  end.

Fixpoint main_download_loop (env : Env) (file_urls : list string) : M unit :=
  match file_urls with
  | [] => mret tt
  | file_url :: file_urls' =>
      download_file env (Some file_url) (RBA_FOLDER env);;
      main_download_loop env file_urls'
  end.

Definition main (env : Env) : M unit :=
  rba_payments_files ← get_rba_payments_files env;
  (match rba_payments_files with
   | [] => mret tt
   | _ => main_download_loop env rba_payments_files
   end);;
  rba_interest_files ← get_rba_interest_files env;
  match rba_interest_files with
  | [] => mret tt
  | _ => main_download_loop env (Py.dict_values rba_interest_files)
  end.

End RBA.

(** ** APRA_downloader.py *)

Module APRA.

Definition DESKTOP_PATH (env : Env) : string := Py.os_path_join (home env) "Desktop".
Definition MAIN_FOLDER (env : Env) : string :=
  Py.os_path_join (DESKTOP_PATH env) "Banking Statistics Update".
Definition APRA_FOLDER (env : Env) : string := Py.os_path_join (MAIN_FOLDER env) "APRA Data".

Definition APRA_URL : string :=
  "https://www.apra.gov.au/monthly-authorised-deposit-taking-institution-statistics".

Fixpoint fetch_url_loop (env : Env) (url : string) (attempts : nat) (wait_time : Z)
  : M (option Response) :=
  match attempts with
  | O => mret None
  | S attempts' =>
      flow ← try_except_RequestException
        (response ← requests_get env url;
         if Z_in (status_code response) [403; 429; 503]
            || Py.contains "captcha" (Py.lower (text response))
         then time_sleep wait_time;; mret (Continue (wait_time * 2))
         else mret (Return response))
        (time_sleep wait_time;; mret (Continue wait_time));
      match flow with
      | Return response => mret (Some response)
      | Continue wait_time' => fetch_url_loop env url attempts' wait_time'
      end
  end.

Definition fetch_url (env : Env) (url : string) (retries : nat) (wait_time : Z)
  : M (option Response) :=
  fetch_url_loop env url retries wait_time.

Definition download_file (env : Env) (file_url : option string) (save_folder : string)
  : M (option string) :=
  match file_url with
  | None => raise AttributeError
  | Some file_url =>
      let file_name :=
        Py.unquote (Py.first (Py.split "?" (Py.last (Py.split "/" file_url)))) in
      let file_path := Py.os_path_join save_folder file_name in
      response ← requests_get env file_url;
      if status_code response =? 200
      then write_file env file_path (content response);; mret (Some file_path)
      else mret None
  end.

Fixpoint get_apra_file_loop (links : list Bs4.Found) : option string :=
  match links with
  | [] => None
  | link :: links' =>
      let href := Bs4.subscript link "href" in
      let text := Py.lower (Py.strip (Bs4.get_text (Bs4.element link))) in
      if Py.endswith href ".xlsx" && Py.contains "back-series" text
      then Some (if Py.startswith href "http" then href
                 else "https://www.apra.gov.au" +:+ href)
      else get_apra_file_loop links'
  end.

Definition get_apra_file (env : Env) : M (option string) :=
  response ← fetch_url env APRA_URL 3 5;
  match response with
  | None => mret None
  | Some response =>
      if negb (ok response) then mret None
      else
        let soup := BeautifulSoup env (text response) in
        mret (get_apra_file_loop (Bs4.find_all_a_href soup))
  end.

Definition main (env : Env) : M unit :=
  apra_file_url ← get_apra_file env;
  if truthy apra_file_url
  then download_file env apra_file_url (APRA_FOLDER env);; mret tt
  else mret tt.

End APRA.

(** ** NSW_Revenue_downloader.py *)

Module NSW.

Definition DESKTOP_PATH (env : Env) : string := Py.os_path_join (home env) "Desktop".
Definition MAIN_FOLDER (env : Env) : string :=
  Py.os_path_join (DESKTOP_PATH env) "Banking Statistics Update".
Definition NSW_REVENUE_FOLDER (env : Env) : string :=
  Py.os_path_join (MAIN_FOLDER env) "NSW Revenue Data".

Definition NSW_REVENUE_URL : string :=
  "https://www.revenue.nsw.gov.au/help-centre/resources-library/statistics".

Definition TARGET_NSW_REVENUE_FILE : string := "transfer-duty-land-related-dsd-001.xlsx".

Fixpoint fetch_url_loop (env : Env) (url : string) (attempts : nat) (wait_time : Z)
  : M (option Response) :=
  match attempts with
  | O => mret None
  | S attempts' =>
      flow ← try_except_RequestException
        (response ← requests_get env url;
         if Z_in (status_code response) [403; 429; 503]
            || Py.contains "captcha" (Py.lower (text response))
         then time_sleep wait_time;; mret (Continue (wait_time * 2))
         else mret (Return response))
        (time_sleep wait_time;; mret (Continue wait_time));
      match flow with
      | Return response => mret (Some response)
      | Continue wait_time' => fetch_url_loop env url attempts' wait_time'
      end
  end.

Definition fetch_url (env : Env) (url : string) (retries : nat) (wait_time : Z)
  : M (option Response) :=
  fetch_url_loop env url retries wait_time.

Definition download_file (env : Env) (file_url : option string) (save_folder : string)
  : M (option string) :=
  match file_url with
  | None => raise AttributeError
  | Some file_url =>
      let file_name :=
        Py.unquote (Py.first (Py.split "?" (Py.last (Py.split "/" file_url)))) in
      let file_path := Py.os_path_join save_folder file_name in
      response ← requests_get env file_url;
      if status_code response =? 200
      then write_file env file_path (content response);; mret (Some file_path)
      else mret None
  end.

Fixpoint get_nsw_revenue_file_loop (links : list Bs4.Found) : option string :=
  match links with
  | [] => None
  | link :: links' =>
      let href := Bs4.subscript link "href" in
      if Py.contains TARGET_NSW_REVENUE_FILE href
      then Some (if Py.startswith href "http" then href
                 else "https://www.revenue.nsw.gov.au" +:+ href)
      else get_nsw_revenue_file_loop links'
  end.

Definition get_nsw_revenue_file (env : Env) : M (option string) :=
  response ← fetch_url env NSW_REVENUE_URL 3 5;
  match response with
  | None => mret None
  | Some response =>
      if negb (ok response) then mret None
      else
        let soup := BeautifulSoup env (text response) in
        mret (get_nsw_revenue_file_loop (Bs4.find_all_a_href soup))
  end.

Definition main (env : Env) : M unit :=
  nsw_revenue_file ← get_nsw_revenue_file env;
  if truthy nsw_revenue_file
  then download_file env nsw_revenue_file (NSW_REVENUE_FOLDER env);; mret tt
  else mret tt.

End NSW.

(** ** run-all-script.py *)

Module RunAll.

(** The interpreter started on a script file: the script's main block,
    or a failure for any other file. *)
Definition python (env : Env) (script_path : string) : M unit :=
  if String.eqb script_path "ABS_downloader.py" then ABS.main env
  else if String.eqb script_path "APRA_downloader.py" then APRA.main env
  else if String.eqb script_path "NSW_Revenue_downloader.py" then NSW.main env
  else if String.eqb script_path "RBA_downloader.py" then RBA.main env
  else raise KeyError.

(** [subprocess.run(..., check=True)] inside [try]/[except Exception]:
    a script that dies is reported and the caller goes on. *)
Definition run_script (env : Env) (script_name : string) : M unit := λ w,
  match python env script_name w with
  | (_, w') => (Ok tt, w')
  end.

Fixpoint main_loop (env : Env) (scripts : list string) : M unit :=
  match scripts with
  | [] => mret tt
  | script :: scripts' => run_script env script;; main_loop env scripts'
  end.

Definition main (env : Env) : M unit :=
  main_loop env
    ["ABS_downloader.py"; "APRA_downloader.py"; "NSW_Revenue_downloader.py";
     "RBA_downloader.py"];;
  time_sleep 2.

End RunAll.

(** ** Vocabulary of the statements *)

(** What the [k]-th GET issued from world [w] to [url] answers. *)
Definition attempt (env : Env) (url : string) (w : World) (k : nat) : Outcome :=
  network env (length (requests w) + k)%nat url.

(** An attempt that ends in a blocked response. *)
Definition blocked_outcome (o : Outcome) : bool :=
  match o with
  | Responded r => RBA.is_blocked r
  | Failed => false
  end.

(** An attempt that does not produce a usable response: blocked, or a
    transport error. *)
Definition rejected (o : Outcome) : bool :=
  match o with
  | Responded r => RBA.is_blocked r
  | Failed => true
  end.

Definition count_blocked (outs : list Outcome) : nat :=
  length (List.filter blocked_outcome outs).

(** How many of the first [k] attempts from [w] are blocked responses. *)
Definition blocked_before (env : Env) (url : string) (w : World) (k : nat) : nat :=
  count_blocked (attempt env url w <$> seq 0 k).

(** The retry loop replayed on a given list of answers: the result, the
    sleeps and the number of GETs. *)
Fixpoint fetch_trace (outs : list Outcome) (wait_time : Z)
  : option Response * list Z * nat :=
  match outs with
  | [] => (None, [], 0%nat)
  | Responded r :: outs' =>
      if RBA.is_blocked r
      then let '(res, sl, g) := fetch_trace outs' (wait_time * 2) in
           (res, wait_time :: sl, S g)
      else (Some r, [], 1%nat)
  | Failed :: outs' =>
      let '(res, sl, g) := fetch_trace outs' wait_time in
      (res, wait_time :: sl, S g)
  end.

(** The world after [g] more GETs to [url] and the sleeps [sl]. *)
Definition after_fetch (w : World) (url : string) (g : nat) (sl : list Z) : World :=
  {| requests := requests w ++ replicate g url;
     slept := slept w ++ sl;
     disk := disk w |}.

(** The hrefs of the anchors of a page, in document order. *)
Definition hrefs (soup : Bs4.node) : list string :=
  (λ link, Bs4.subscript link "href") <$> Bs4.find_all_a_href soup.

(** [href.split("/")[-1].split("?")[0]] *)
Definition stripped_segment (href : string) : string :=
  Py.first (Py.split "?" (Py.last (Py.split "/" href))).

(** [href if href.startswith("http") else f"{origin}{href}"] *)
Definition absolute (origin href : string) : string :=
  if Py.startswith href "http" then href else origin +:+ href.

(** The exact-set loop over the hrefs alone, for any table of targets and
    any site origin. *)
Fixpoint exact_set_loop (targets : Py.dict string) (origin : string)
    (hs : list string) (valid_files : Py.dict string) : Py.dict string :=
  match hs with
  | [] => valid_files
  | href :: hs' =>
      exact_set_loop targets origin hs'
        (if Py.dict_has targets (stripped_segment href)
         then Py.dict_set valid_files (stripped_segment href) (absolute origin href)
         else valid_files)
  end.

(** What an exact-set resolver owes for the anchors [hs]: an entry under a
    file name exactly when the name is a target and the stripped final
    segment of some href; the entry holds the absolute URL of the last
    such href; no name is listed twice. *)
Definition exact_set_result (targets : Py.dict string) (origin : string)
    (hs : list string) (valid_files : Py.dict string) : Prop :=
  NoDup (fst <$> valid_files)
  ∧ ∀ file_name,
      (Py.dict_has valid_files file_name = true
       ↔ Py.dict_has targets file_name = true
         ∧ ∃ href, href ∈ hs ∧ stripped_segment href = file_name)
      ∧ ∀ url, Py.dict_get valid_files file_name = Some url →
          ∃ before href after,
            hs = before ++ href :: after
            ∧ stripped_segment href = file_name
            ∧ (∀ h, h ∈ after → stripped_segment h ≠ file_name)
            ∧ url = absolute origin href.

(** The first-hit loop over the hrefs alone, for any acceptance test and
    any site origin. *)
Fixpoint first_match (accept : string → bool) (origin : string) (hs : list string)
  : option string :=
  match hs with
  | [] => None
  | href :: hs' =>
      if accept href then Some (absolute origin href)
      else first_match accept origin hs'
  end.

(** The extension test of [extract_zip]. *)
Definition is_spreadsheet (name : string) : bool :=
  Py.endswith name ".xlsx" || Py.endswith name ".xls".

(** Where [zip_ref.extract(name, folder)] writes. *)
Definition extract_target (folder name : string) : string :=
  Py.os_path_join folder (Zip.arcname name).

(** The disk after the extraction loop has gone through [names]. *)
Fixpoint extracted (zip_ref : list ZipInfo) (names : list string) (folder : string)
    (d : gmap string string) : gmap string string :=
  match names with
  | [] => d
  | name :: names' =>
      extracted zip_ref names' folder
        (if is_spreadsheet name
         then match Zip.getinfo zip_ref name with
              | Some info => <[extract_target folder name := data info]> d
              | None => d
              end
         else d)
  end.

(** A spreadsheet extension written with at least one capital letter. *)
Definition odd_case_extension (ext : string) : Prop :=
  (Py.lower ext = ".xlsx" ∨ Py.lower ext = ".xls") ∧ ext ≠ Py.lower ext.

(** Two responses that carry the same page. *)
Definition same_page (r1 r2 : Response) : Prop :=
  text r1 = text r2 ∧ ok r1 = ok r2.

(** A resolver whose result is decided by the page it fetched: two runs,
    from any two worlds, that fetch the same page return the same links. *)
Definition page_determined {A} (fetch : Env → M (option Response))
    (resolver : Env → M A) : Prop :=
  ∀ env w1 w2 r1 r2 w1' w2',
    fetch env w1 = (Ok (Some r1), w1') →
    fetch env w2 = (Ok (Some r2), w2') →
    same_page r1 r2 →
    (resolver env w1).1 = (resolver env w2).1.

(** The two href tests of the payments loop. *)
Definition payments_accepts (href : string) : bool :=
  negb (Py.contains "/xls-disc/" href)
  && (Py.endswith href ".xls" || Py.endswith href ".xlsx").

(** ** Concrete environments used by the examples *)

Definition world0 : World := {| requests := []; slept := []; disk := ∅ |}.

(** A response whose raw and decoded bodies coincide. *)
Definition page (status : Z) (body : string) : Response :=
  {| status_code := status; text := body; content := body |}.

(** No request gets through. *)
Definition env_offline : Env :=
  {| home := "/home/user";
     network := λ _ _, Failed;
     html_parser := λ _, [];
     zip_reader := λ _, None;
     writable := λ _, true |}.

(** The first two requests are answered 503 and 429, the third by a page. *)
Definition env_busy : Env :=
  {| home := "/home/user";
     network := λ n _,
       match n with
       | O => Responded (page 503 "Service Unavailable")
       | S O => Responded (page 429 "Too Many Requests")
       | _ => Responded (page 200 "<html></html>")
       end;
     html_parser := λ _, [];
     zip_reader := λ _, None;
     writable := λ _, true |}.

(** Every download is answered 200 with the body ["data"]. *)
Definition env_files : Env :=
  {| home := "/home/user";
     network := λ _ _, Responded (page 200 "data");
     html_parser := λ _, [];
     zip_reader := λ _, None;
     writable := λ _, true |}.

(** A site that answers every request with the same page, parsed into
    the given tree. *)
Definition env_page (body : string) (tree : list Bs4.node) : Env :=
  {| home := "/home/user";
     network := λ _ _, Responded (page 200 body);
     html_parser := λ t, if String.eqb t body then tree else [];
     zip_reader := λ _, None;
     writable := λ _, true |}.

Definition anchor (href label : string) : Bs4.node :=
  Bs4.Tag "a" {["href" := href]} [Bs4.NavigableString label].

(** A release page that lists the quarterly archive before the monthly
    one. *)
Definition cpi_page_text : string :=
  "<a href='/cpi/All-Time-Series-Spreadsheets.zip'>Quarterly</a><a href='/cpi/Time-Series-Spreadsheets.zip'>Monthly</a>".

Definition cpi_page_tree : list Bs4.node :=
  [ anchor "/cpi/All-Time-Series-Spreadsheets.zip" "Quarterly";
    anchor "/cpi/Time-Series-Spreadsheets.zip" "Monthly" ].

(** An archive with two spreadsheets and a readme, one with a spreadsheet
    in a subfolder, and an environment whose ZIP reader knows both. *)
Definition archive_flat : list ZipInfo :=
  [ {| filename := "data.xlsx"; data := "new figures" |};
    {| filename := "readme.txt"; data := "about" |};
    {| filename := "data_old.xls"; data := "old figures" |} ].

Definition archive_nested : list ZipInfo :=
  [ {| filename := "tables/data.xlsx"; data := "figures" |} ].

Definition env_zip : Env :=
  {| home := "/home/user";
     network := λ _ _, Failed;
     html_parser := λ _, [];
     zip_reader := λ bytes,
       if String.eqb bytes "PK flat" then Some archive_flat
       else if String.eqb bytes "PK nested" then Some archive_nested
       else None;
     writable := λ _, true |}.

Definition world_zip (bytes : string) : World :=
  {| requests := []; slept := []; disk := {["out/archive.zip" := bytes]} |}.

(** A world in which earlier work has left its traces. *)
Definition world_used : World :=
  {| requests := ["https://www.apra.gov.au/"]; slept := [5; 10];
     disk := {["out/old.xlsx" := "old"]} |}.

(** A page without any anchor. *)
Definition empty_page_text : string := "<html><body><p>Maintenance</p></body></html>".

Definition empty_page_tree : list Bs4.node :=
  [ Bs4.Tag "html" ∅
      [ Bs4.Tag "body" ∅ [ Bs4.Tag "p" ∅ [Bs4.NavigableString "Maintenance"] ] ] ].

(** A payments page: one current table, the heading of the discontinued
    section, then a list with one discontinued table. *)
Definition payments_page_text : string :=
  "<p>Payments data</p><a href='/statistics/tables/xls/c01hist.xlsx'>C1</a><p>Discontinued payments statistical tables</p><ul><li><a href='/statistics/tables/xls/c08hist.xls'>C8</a></li></ul>".

Definition payments_heading : Bs4.node :=
  Bs4.Tag "p" ∅ [Bs4.NavigableString "Discontinued payments statistical tables"].

Definition payments_page_tree : list Bs4.node :=
  [ Bs4.Tag "p" ∅ [Bs4.NavigableString "Payments data"];
    anchor "/statistics/tables/xls/c01hist.xlsx" "C1";
    payments_heading;
    Bs4.Tag "ul" ∅
      [ Bs4.Tag "li" ∅ [ anchor "/statistics/tables/xls/c08hist.xls" "C8" ] ] ].

(** ** Vocabulary of the further properties *)

(** [w'] keeps everything [w] has: the requests and the sleeps of [w]
    open those of [w'], and every file of [w] still exists in [w']. *)
Definition extends (w w' : World) : Prop :=
  requests w `prefix_of` requests w'
  ∧ slept w `prefix_of` slept w'
  ∧ ∀ path, is_Some (disk w !! path) → is_Some (disk w' !! path).

(** A computation that only adds to the world, however it ends. *)
Definition grows {A} (m : M A) : Prop :=
  ∀ w r w', m w = (r, w') → extends w w'.

(** The time spent in a list of sleeps. *)
Definition total_sleep (waits : list Z) : Z := foldr Z.add 0 waits.


(** The path [download_file] saves a URL under. *)
Definition file_path_of (save_folder file_url : string) : string :=
  Py.os_path_join save_folder (Py.unquote (stripped_segment file_url)).

(** The world once one more request has been sent. *)
Definition asked (w : World) (url : string) : World :=
  {| requests := requests w ++ [url]; slept := slept w; disk := disk w |}.

(** A URL whose last segment hides a slash. *)
Definition escaping_url : string := "https://www.abs.gov.au/%2Ftmp%2FBusiness-Finance.zip".

(** The first request is answered by the quarterly CPI archive, every
    later one by the retail trade archive. *)
Definition env_two_archives : Env :=
  {| home := "/home/user";
     network := λ n _,
       match n with
       | O => Responded (page 200 "quarterly CPI")
       | _ => Responded (page 200 "retail trade")
       end;
     html_parser := λ _, [];
     zip_reader := λ _, None;
     writable := λ _, true |}.

(** The stop test of the payments loop:
    [discontinued_section and link.find_parent()
     and discontinued_section in link.find_parents()]. *)
Definition in_section (discontinued_section : option Bs4.Found) (link : Bs4.Found) : bool :=
  match discontinued_section with
  | Some section =>
      match Bs4.find_parent link with
      | Some _ => Bs4.elem_in (Bs4.element section) (Bs4.find_parents link)
      | None => false
      end
  | None => false
  end.

(** A payments page whose heading paragraph is itself a link. *)
Definition linked_heading_text : string :=
  "<a href='/xls/c01hist.xlsx'>C1</a><p><a href='/discontinued.html'>Discontinued payments statistical tables</a></p><a href='/xls/c08hist.xls'>C8</a>".

Definition linked_heading_tree : list Bs4.node :=
  [ anchor "/xls/c01hist.xlsx" "C1";
    Bs4.Tag "p" ∅ [ anchor "/discontinued.html" "Discontinued payments statistical tables" ];
    anchor "/xls/c08hist.xls" "C8" ].

(** What a first-hit resolver owes for the anchors [hs]: the absolute URL
    of the first href that passes the test, or [None] when none does. *)
Definition first_hit_result (accept : string → bool) (origin : string)
    (hs : list string) (file_url : option string) : Prop :=
  match file_url with
  | Some url =>
      ∃ before href after,
        hs = before ++ href :: after
        ∧ (∀ h, h ∈ before → accept h = false)
        ∧ accept href = true
        ∧ url = absolute origin href
  | None => ∀ h, h ∈ hs → accept h = false
  end.

(** A resolver that fetches [url] and answers with the first hit among
    the anchors of the page; without a usable page it answers [None]. *)
Definition first_hit_resolver (fetch : Env → string → nat → Z → M (option Response))
    (url : string) (resolver : Env → M (option string))
    (accept : string → bool) (origin : string) : Prop :=
  ∀ env w, ∃ res w' file_url,
    fetch env url 3%nat 5 w = (Ok res, w')
    ∧ resolver env w = (Ok file_url, w')
    ∧ match res with
      | Some response =>
          if ok response
          then first_hit_result accept origin (hrefs (BeautifulSoup env (text response)))
                 file_url
          else file_url = None
      | None => file_url = None
      end.

(** The test of the APRA loop on one anchor:
    [href.endswith(".xlsx") and "back-series" in link.text.strip().lower()]. *)
Definition apra_accepts (link : Bs4.Found) : bool :=
  Py.endswith (Bs4.subscript link "href") ".xlsx"
  && Py.contains "back-series" (Py.lower (Py.strip (Bs4.get_text (Bs4.element link)))).

(** What the APRA loop owes for the anchors [links]. *)
Definition apra_result (links : list Bs4.Found) (file_url : option string) : Prop :=
  match file_url with
  | Some url =>
      ∃ before link after,
        links = before ++ link :: after
        ∧ (∀ l, l ∈ before → apra_accepts l = false)
        ∧ apra_accepts link = true
        ∧ url = absolute "https://www.apra.gov.au" (Bs4.subscript link "href")
  | None => ∀ l, l ∈ links → apra_accepts l = false
  end.

(** An APRA page whose link text is padded and capitalised. *)
Definition apra_page_text : string :=
  "<a href='/sites/default/files/madis.xlsx'>Current</a><a href='/sites/default/files/madis-back.xlsx'>  Monthly statistics Back-Series </a>".

Definition apra_page_tree : list Bs4.node :=
  [ anchor "/sites/default/files/madis.xlsx" "Current";
    anchor "/sites/default/files/madis-back.xlsx" "  Monthly statistics Back-Series " ].

(** A resolver that never raises, sends at most three requests, all to
    its own page, leaves the disk alone and returns only URLs that start
    with [http]. *)
Definition resolves {A} (resolver : Env → M A) (url : string)
    (urls_of : A → list string) : Prop :=
  ∀ env w, ∃ out gets waits,
    resolver env w = (Ok out, after_fetch w url gets waits)
    ∧ (gets ≤ 3)%nat
    ∧ ∀ u, u ∈ urls_of out → Py.startswith u "http" = true.

(** A lending page with one target archive listed twice and one other
    archive. *)
Definition lending_page_text : string :=
  "<a href='/lending/Business-Finance.zip?v=1'>Business</a><a href='/lending/Other.zip'>Other</a><a href='https://www.abs.gov.au/lending/latest/Business-Finance.zip'>Business</a>".

Definition lending_page_tree : list Bs4.node :=
  [ anchor "/lending/Business-Finance.zip?v=1" "Business";
    anchor "/lending/Other.zip" "Other";
    anchor "https://www.abs.gov.au/lending/latest/Business-Finance.zip" "Business" ].

(** How a download loop over [file_urls] may end from [w]: it never
    sleeps; it has requested the URLs in order up to some point; it ends
    normally only after the last URL, and otherwise dies of a transport
    error or a refused write at the last URL it requested. *)
Definition in_order (file_urls : list string) (w : World) (r : Result unit) (w' : World)
  : Prop :=
  slept w' = slept w
  ∧ ∃ fetched rest,
      file_urls = fetched ++ rest
      ∧ requests w' = requests w ++ fetched
      ∧ (r = Ok tt ∧ rest = []
         ∨ (r = Raise RequestException ∨ r = Raise OSError) ∧ fetched ≠ []).

(** The second request fails in transport; the others are answered. *)
Definition env_second_fails : Env :=
  {| home := "/home/user";
     network := λ n _,
       match n with
       | S O => Failed
       | _ => Responded (page 200 "data")
       end;
     html_parser := λ _, [];
     zip_reader := λ _, None;
     writable := λ _, true |}.

(** A computation that lets through only the exceptions in [allowed]. *)
Definition raises_only {A} (allowed : list Exn) (m : M A) : Prop :=
  ∀ w e w', m w = (Raise e, w') → e ∈ allowed.

(** A computation that sends at most [n] requests and sleeps at most [s]
    seconds in all, however it ends. *)
Definition budget {A} (n : nat) (s : Z) (m : M A) : Prop :=
  ∀ w r w', m w = (r, w') →
    ∃ sent waits,
      requests w' = requests w ++ sent ∧ slept w' = slept w ++ waits
      ∧ (length sent ≤ n)%nat ∧ 0 ≤ total_sleep waits ≤ s.

(** A step of the ABS script that resolves one link and downloads it,
    without extraction: [download_file(resolver(), ABS_FOLDER)]. *)
Definition download_step (env : Env) (resolver : Env → M (option string))
  : M (option string) :=
  file_url ← resolver env; ABS.download_file env file_url (ABS.ABS_FOLDER env).

(** Every request is answered 200 with the bytes of the flat archive. *)
Definition env_archive : Env :=
  {| home := "/home/user";
     network := λ _ _, Responded (page 200 "PK flat");
     html_parser := λ _, [];
     zip_reader := λ bytes, if String.eqb bytes "PK flat" then Some archive_flat else None;
     writable := λ _, true |}.

(** * Properties *)

(** ** Strings *)

Lemma str_app_cons c s t : String c s +:+ t = String c (s +:+ t).
Proof. reflexivity. Qed.

Lemma str_app_nil_r s : s +:+ "" = s.
Proof. induction s as [|c s IH]; [done|]. by rewrite str_app_cons, IH. Qed.

Lemma str_app_assoc s t u : (s +:+ t) +:+ u = s +:+ t +:+ u.
Proof. induction s as [|c s IH]; [done|]. by rewrite !str_app_cons, IH. Qed.

Lemma str_length_app s t : String.length (s +:+ t) = (String.length s + String.length t)%nat.
Proof. induction s as [|c s IH]; [done|]. rewrite str_app_cons. simpl. by rewrite IH. Qed.

Lemma str_eqb_true s t : String.eqb s t = true ↔ s = t.
Proof. apply String.eqb_eq. Qed.

Lemma str_startswith_spec s p : Py.startswith s p = true ↔ ∃ r, s = p +:+ r.
Proof.
  revert s. induction p as [|a p IH]; intros s; simpl.
  - split; [intros _; by exists s | done].
  - destruct s as [|b s].
    + split; [done | intros [r Hr]; discriminate Hr].
    + destruct (Ascii.eqb_spec a b) as [->|Hab].
      * rewrite IH. split; intros [r Hr]; exists r.
        -- by rewrite str_app_cons, Hr.
        -- rewrite str_app_cons in Hr. by injection Hr.
      * split; [done|]. intros [r Hr]. rewrite str_app_cons in Hr.
        injection Hr as Hc _. by destruct Hab.
Qed.

Lemma str_endswith_unfold s suffix :
  Py.endswith s suffix =
  if String.eqb s suffix then true
  else match s with EmptyString => false | String _ s' => Py.endswith s' suffix end.
Proof. by destruct s. Qed.

Lemma str_endswith_spec s suffix : Py.endswith s suffix = true ↔ ∃ p, s = p +:+ suffix.
Proof.
  induction s as [|c s IH]; rewrite str_endswith_unfold.
  - destruct (String.eqb_spec "" suffix) as [<-|Hne].
    + split; [intros _; by exists "" | done].
    + split; [done|]. intros [[|c p] Hp]; [by destruct Hne | discriminate Hp].
  - destruct (String.eqb_spec (String c s) suffix) as [<-|Hne].
    + split; [intros _; by exists "" | done].
    + rewrite IH. split.
      * intros [p ->]. by exists (String c p).
      * intros [[|c' p] Hp]; [by destruct Hne|].
        rewrite str_app_cons in Hp. injection Hp as _ ->. by exists p.
Qed.

Lemma str_contains_unfold sub s :
  Py.contains sub s =
  if Py.startswith s sub then true
  else match s with EmptyString => false | String _ s' => Py.contains sub s' end.
Proof. by destruct s. Qed.

Lemma str_contains_spec sub s : Py.contains sub s = true ↔ ∃ l r, s = l +:+ sub +:+ r.
Proof.
  induction s as [|c s IH]; rewrite str_contains_unfold.
  - destruct (Py.startswith "" sub) eqn:Hst.
    + apply str_startswith_spec in Hst as [r Hr]. split; [|done].
      intros _. by exists "", r.
    + split; [done|]. intros [[|c l] [r Hr]]; [|discriminate Hr].
      assert (Py.startswith "" sub = true) as Ht
        by (apply str_startswith_spec; by exists r).
      congruence.
  - destruct (Py.startswith (String c s) sub) eqn:Hst.
    + apply str_startswith_spec in Hst as [r Hr]. split; [|done].
      intros _. by exists "", r.
    + rewrite IH. split.
      * intros (l & r & ->). by exists (String c l), r.
      * intros ([|c' l] & r & Hr).
        -- assert (Py.startswith (String c s) sub = true) as Ht
             by (apply str_startswith_spec; by exists r).
           congruence.
        -- rewrite str_app_cons in Hr. injection Hr as _ ->. by exists l, r.
Qed.

(** ** The retry loop *)

Lemma fetch_url_copies :
  ABS.fetch_url = RBA.fetch_url ∧ APRA.fetch_url = RBA.fetch_url
  ∧ NSW.fetch_url = RBA.fetch_url.
Proof. repeat split; reflexivity. Qed.

Lemma attempt_shift env url w k :
  attempt env url
    {| requests := requests w ++ [url]; slept := slept w; disk := disk w |} k
  = attempt env url w (S k).
Proof.
  unfold attempt. simpl. rewrite length_app. simpl. f_equal. lia.
Qed.

Lemma attempts_shift env url w n :
  attempt env url w <$> seq 1 n
  = attempt env url
      {| requests := requests w ++ [url]; slept := slept w; disk := disk w |}
    <$> seq 0 n.
Proof.
  rewrite <- (fmap_S_seq 0 n), <- list_fmap_compose.
  apply list_fmap_ext. intros _ k _. simpl. by rewrite attempt_shift.
Qed.

Lemma after_fetch_step w url g sl wait :
  after_fetch {| requests := requests w ++ [url]; slept := slept w ++ [wait];
                 disk := disk w |} url g sl
  = after_fetch w url (S g) (wait :: sl).
Proof.
  unfold after_fetch. simpl. f_equal; by rewrite <- app_assoc.
Qed.

Lemma fetch_url_loop_trace env url n : ∀ wait w res sl g,
  0 ≤ wait →
  fetch_trace (attempt env url w <$> seq 0 n) wait = (res, sl, g) →
  RBA.fetch_url_loop env url n wait w = (Ok res, after_fetch w url g sl).
Proof.
  induction n as [|n IH]; intros wait w res sl g Hwait Htrace.
  - simpl in Htrace. injection Htrace as <- <- <-.
    unfold after_fetch. simpl. rewrite !app_nil_r. by destruct w.
  - assert ((wait <? 0) = false) as Hsleep by lia.
    change (seq 0 (S n)) with (0%nat :: seq 1 n) in Htrace.
    rewrite fmap_cons, attempts_shift in Htrace. simpl in Htrace.
    unfold attempt at 1 in Htrace. rewrite Nat.add_0_r in Htrace.
    simpl. unfold mbind, M_bind, try_except_RequestException, requests_get,
      time_sleep, mret, M_ret. simpl.
    destruct (network env (length (requests w)) url) as [r|].
    + destruct (RBA.is_blocked r) eqn:Hb.
      * rewrite Hsleep.
        destruct (fetch_trace _ (wait * 2)) as [[res' sl'] g'] eqn:Ht.
        injection Htrace as <- <- <-.
        erewrite IH; [|lia|exact Ht]. by rewrite <- after_fetch_step.
      * injection Htrace as <- <- <-. unfold after_fetch. simpl.
        by rewrite app_nil_r.
    + rewrite Hsleep.
      destruct (fetch_trace _ wait) as [[res' sl'] g'] eqn:Ht.
      injection Htrace as <- <- <-.
      erewrite IH; [|lia|exact Ht]. by rewrite <- after_fetch_step.
Qed.

Lemma count_blocked_cons o outs :
  count_blocked (o :: outs)
  = if blocked_outcome o then S (count_blocked outs) else count_blocked outs.
Proof. unfold count_blocked. simpl. by destruct (blocked_outcome o). Qed.

Lemma fetch_trace_facts outs : ∀ wait res sl g,
  fetch_trace outs wait = (res, sl, g) →
  (g ≤ length outs)%nat
  ∧ (∀ k v, sl !! k = Some v →
       v = wait * 2 ^ Z.of_nat (count_blocked (take k outs))
       ∧ ∃ o, outs !! k = Some o ∧ rejected o = true)
  ∧ match res with
    | Some r =>
        ∃ k, outs !! k = Some (Responded r) ∧ RBA.is_blocked r = false
             ∧ length sl = k ∧ g = S k
             ∧ ∀ j o, (j < k)%nat → outs !! j = Some o → rejected o = true
    | None =>
        Forall (λ o, rejected o = true) outs
        ∧ length sl = length outs ∧ g = length outs
    end.
Proof.
  induction outs as [|o outs IH]; intros wait res sl g Htrace.
  - injection Htrace as <- <- <-. split; [done|]. split.
    + intros k v Hk. by rewrite lookup_nil in Hk.
    + split; [constructor | done].
  - simpl in Htrace.
    assert (∀ wait' res' sl' g',
      fetch_trace outs wait' = (res', sl', g') →
      rejected o = true →
      wait' = (if blocked_outcome o then wait * 2 else wait) →
      (S g' ≤ length (o :: outs))%nat
      ∧ (∀ k v, (wait :: sl') !! k = Some v →
           v = wait * 2 ^ Z.of_nat (count_blocked (take k (o :: outs)))
           ∧ ∃ o', (o :: outs) !! k = Some o' ∧ rejected o' = true)
      ∧ match res' with
        | Some r =>
            ∃ k, (o :: outs) !! k = Some (Responded r) ∧ RBA.is_blocked r = false
                 ∧ length (wait :: sl') = k ∧ S g' = S k
                 ∧ ∀ j o', (j < k)%nat → (o :: outs) !! j = Some o' →
                           rejected o' = true
        | None =>
            Forall (λ o, rejected o = true) (o :: outs)
            ∧ length (wait :: sl') = length (o :: outs)
            ∧ S g' = length (o :: outs)
        end) as Hstep.
    { intros wait' res' sl' g' Ht Hrej Hwait'.
      destruct (IH _ _ _ _ Ht) as (Hg & Hsl & Hres). split; [simpl; lia|]. split.
      - intros [|k] v Hk; simpl in Hk.
        + injection Hk as <-. split; [|by exists o].
          unfold count_blocked. simpl. lia.
        + destruct (Hsl k v Hk) as (-> & o' & Ho' & Hrej'). split; [|by exists o'].
          rewrite Hwait'. simpl take. rewrite count_blocked_cons.
          destruct (blocked_outcome o); [|done].
          rewrite Nat2Z.inj_succ, Z.pow_succ_r; lia.
      - destruct res' as [r|].
        + destruct Hres as (k & Hk & Hb & Hlen & -> & Hbefore).
          exists (S k). repeat split; simpl; [done..|by rewrite Hlen| ].
          intros [|j] o' Hj Ho'; simpl in Ho'; [by injection Ho' as <-|].
          apply (Hbefore j); [lia|done].
        + destruct Hres as (Hall & Hlen & ->).
          repeat split; simpl; [by constructor | by rewrite Hlen]. }
    destruct o as [r|].
    + destruct (RBA.is_blocked r) eqn:Hb.
      * destruct (fetch_trace outs (wait * 2)) as [[res' sl'] g'] eqn:Ht.
        injection Htrace as <- <- <-. apply (Hstep _ _ _ _ Ht); [done|]. simpl. by rewrite Hb.
      * injection Htrace as <- <- <-. split; [simpl; lia|]. split.
        { intros k v Hk. by rewrite lookup_nil in Hk. }
        exists 0%nat. repeat split; [done..|]. intros j o' Hj. lia.
    + destruct (fetch_trace outs wait) as [[res' sl'] g'] eqn:Ht.
      injection Htrace as <- <- <-. by apply (Hstep _ _ _ _ Ht).
Qed.

Lemma attempts_lookup env url w n k o :
  (attempt env url w <$> seq 0 n) !! k = Some o
  ↔ (k < n)%nat ∧ o = attempt env url w k.
Proof.
  rewrite list_lookup_fmap. split.
  - destruct (seq 0 n !! k) as [k'|] eqn:Hk; [|done].
    apply lookup_seq in Hk as [-> Hlt]. simpl. intros [= <-]. done.
  - intros [Hlt ->]. by rewrite lookup_seq_lt.
Qed.

Lemma attempts_take env url w n k :
  (k ≤ n)%nat →
  take k (attempt env url w <$> seq 0 n) = attempt env url w <$> seq 0 k.
Proof.
  intros Hk. rewrite <- fmap_take, take_seq. by rewrite Nat.min_l.
Qed.

Lemma count_blocked_app outs1 outs2 :
  count_blocked (outs1 ++ outs2) = (count_blocked outs1 + count_blocked outs2)%nat.
Proof. unfold count_blocked. by rewrite List.filter_app, length_app. Qed.

Lemma blocked_before_S env url w k :
  blocked_before env url w (S k)
  = (blocked_before env url w k
     + if blocked_outcome (attempt env url w k) then 1 else 0)%nat.
Proof.
  unfold blocked_before. rewrite seq_S, fmap_app, count_blocked_app. simpl.
  rewrite count_blocked_cons. by destruct (blocked_outcome _).
Qed.

Lemma blocked_before_all env url w n :
  (∀ k, (k < n)%nat → blocked_outcome (attempt env url w k) = true) →
  ∀ k, (k ≤ n)%nat → blocked_before env url w k = k.
Proof.
  intros Hall. induction k as [|k IH]; intros Hk; [done|].
  rewrite blocked_before_S, IH, Hall; lia.
Qed.

Lemma blocked_before_none env url w n :
  (∀ k, (k < n)%nat → attempt env url w k = Failed) →
  ∀ k, (k ≤ n)%nat → blocked_before env url w k = 0%nat.
Proof.
  intros Hall. induction k as [|k IH]; intros Hk; [done|].
  rewrite blocked_before_S, IH, Hall; [done | lia..].
Qed.

(** What a run of [fetch_url] does, in terms of the answers it sees. *)
Lemma fetch_url_run env url retries wait w :
  0 ≤ wait →
  ∃ res waits gets,
    RBA.fetch_url env url retries wait w = (Ok res, after_fetch w url gets waits)
    ∧ (gets ≤ retries)%nat
    ∧ (∀ k v, waits !! k = Some v →
         (k < retries)%nat ∧ rejected (attempt env url w k) = true
         ∧ v = wait * 2 ^ Z.of_nat (blocked_before env url w k))
    ∧ match res with
      | Some r =>
          ∃ k, (k < retries)%nat ∧ attempt env url w k = Responded r
               ∧ RBA.is_blocked r = false ∧ length waits = k ∧ gets = S k
               ∧ ∀ j, (j < k)%nat → rejected (attempt env url w j) = true
      | None =>
          (∀ k, (k < retries)%nat → rejected (attempt env url w k) = true)
          ∧ length waits = retries ∧ gets = retries
      end.
Proof.
  intros Hwait.
  destruct (fetch_trace (attempt env url w <$> seq 0 retries) wait)
    as [[res waits] gets] eqn:Ht.
  exists res, waits, gets. split.
  { unfold RBA.fetch_url. by apply fetch_url_loop_trace. }
  destruct (fetch_trace_facts _ _ _ _ _ Ht) as (Hg & Hsl & Hres).
  rewrite length_fmap, length_seq in Hg. split; [done|]. split.
  - intros k v Hk. destruct (Hsl k v Hk) as (-> & o & Ho & Hrej).
    apply attempts_lookup in Ho as [Hlt ->]. repeat split; [done..|].
    unfold blocked_before. rewrite attempts_take; [done|lia].
  - destruct res as [r|].
    + destruct Hres as (k & Hk & Hb & Hlen & -> & Hbefore).
      apply attempts_lookup in Hk as [Hlt Hk]. exists k. repeat split; [done..|].
      intros j Hj. apply (Hbefore j); [done|]. apply attempts_lookup. split; [lia|done].
    + destruct Hres as (Hall & Hlen & ->).
      rewrite length_fmap, length_seq in Hlen |- *. repeat split; [|done..].
      intros k Hk. rewrite Forall_forall in Hall. apply Hall.
      apply list_elem_of_lookup. exists k. apply attempts_lookup. done.
Qed.

Lemma str_lower_app s t : Py.lower (s +:+ t) = Py.lower s +:+ Py.lower t.
Proof.
  induction s as [|c s IH]; [done|]. rewrite str_app_cons. simpl.
  by rewrite IH, str_app_cons.
Qed.

Lemma str_lower_split s : ∀ a b,
  Py.lower s = a +:+ b → ∃ s1 s2, s = s1 +:+ s2 ∧ Py.lower s1 = a ∧ Py.lower s2 = b.
Proof.
  induction s as [|c s IH]; intros a b Hab.
  - destruct a; [|discriminate Hab]. change (Py.lower "" = b) in Hab.
    by exists "", "".
  - destruct a as [|c' a].
    + change (Py.lower (String c s) = b) in Hab. by exists "", (String c s).
    + simpl in Hab. rewrite str_app_cons in Hab. injection Hab as <- Hab.
      destruct (IH _ _ Hab) as (s1 & s2 & -> & <- & <-).
      by exists (String c s1), s2.
Qed.

Lemma blocked_status_spec x :
  Z_in x [403; 429; 503] = true ↔ x = 403 ∨ x = 429 ∨ x = 503.
Proof.
  unfold Z_in. simpl. rewrite !orb_true_iff, !Z.eqb_eq. intuition discriminate.
Qed.

Lemma is_blocked_spec r :
  RBA.is_blocked r = true
  ↔ (status_code r = 403 ∨ status_code r = 429 ∨ status_code r = 503)
    ∨ ∃ l m t, text r = l +:+ m +:+ t ∧ Py.lower m = "captcha".
Proof.
  unfold RBA.is_blocked.
  rewrite orb_true_iff, blocked_status_spec, str_contains_spec.
  split; (intros [Hs|Hc]; [by left|right]).
  - destruct Hc as (l' & t' & Hlow).
    apply str_lower_split in Hlow as (l & mt & -> & _ & Hmt).
    apply str_lower_split in Hmt as (m & t & -> & Hm & _). by exists l, m, t.
  - destruct Hc as (l & m & t & -> & Hm).
    exists (Py.lower l), (Py.lower t). by rewrite !str_lower_app, Hm.
Qed.

(** C5.  [fetch_url] hands back the first answer that is not blocked, a
    response being blocked exactly when its status is 403, 429 or 503 or
    its body holds "captcha" in any mix of cases; it hands back [None]
    exactly when every attempt of the budget is blocked or fails. *)
Theorem fetch_url_first_unblocked env url retries wait w :
  0 ≤ wait →
  (∀ r, RBA.is_blocked r = true
        ↔ (status_code r = 403 ∨ status_code r = 429 ∨ status_code r = 503)
          ∨ ∃ l m t, text r = l +:+ m +:+ t ∧ Py.lower m = "captcha")
  ∧ ∃ res w',
      RBA.fetch_url env url retries wait w = (Ok res, w')
      ∧ (∀ r, res = Some r
              ↔ ∃ k, (k < retries)%nat ∧ attempt env url w k = Responded r
                     ∧ RBA.is_blocked r = false
                     ∧ ∀ j, (j < k)%nat → rejected (attempt env url w j) = true)
      ∧ (res = None
         ↔ ∀ k, (k < retries)%nat → rejected (attempt env url w k) = true).
Proof.
  intros Hwait. split; [apply is_blocked_spec|].
  destruct (fetch_url_run env url retries wait w Hwait)
    as (res & waits & gets & Hrun & _ & _ & Hres).
  exists res, (after_fetch w url gets waits). split; [done|].
  destruct res as [r0|].
  - destruct Hres as (k0 & Hk0 & Hat0 & Hb0 & _ & _ & Hbefore0). split.
    + intros r. split.
      * intros [= <-]. by exists k0.
      * intros (k & Hk & Hat & Hb & Hbefore).
        destruct (Nat.lt_trichotomy k k0) as [Hlt|[->|Hgt]].
        -- specialize (Hbefore0 k Hlt). rewrite Hat in Hbefore0. simpl in Hbefore0.
           congruence.
        -- congruence.
        -- specialize (Hbefore k0 Hgt). rewrite Hat0 in Hbefore. simpl in Hbefore.
           congruence.
    + split; [done|]. intros Hall. specialize (Hall k0 Hk0).
      rewrite Hat0 in Hall. simpl in Hall. congruence.
  - destruct Hres as (Hall & _ & _). split; [|done].
    intros r. split; [done|]. intros (k & Hk & Hat & Hb & _).
    specialize (Hall k Hk). rewrite Hat in Hall. simpl in Hall. congruence.
Qed.

Lemma fetch_url_first_unblocked_witness :
  ∃ res w',
    RBA.fetch_url env_busy RBA.RBA_INTEREST_URL 3 5 world0 = (Ok res, w')
    ∧ (res = None
       ↔ ∀ k, (k < 3)%nat →
              rejected (attempt env_busy RBA.RBA_INTEREST_URL world0 k) = true).
Proof.
  destruct (fetch_url_first_unblocked env_busy RBA.RBA_INTEREST_URL 3 5 world0)
    as (_ & res & w' & Hrun & _ & Hnone); [lia|].
  by exists res, w'.
Defined.

(** C3, as the code has it.  [fetch_url] issues at most [retries] GETs and
    sleeps after every blocked response and after every transport error.
    Only a blocked response doubles the wait: the sleep after attempt
    [k+1] lasts the initial wait times two to the number of blocked
    responses among the first [k] attempts.  Across [retries] blocked
    responses the waits are [w], [2w], [4w], ...; across [retries]
    transport errors every wait is [w]. *)
Theorem fetch_url_backoff env url retries wait w :
  0 ≤ wait →
  ∃ res waits gets,
    ABS.fetch_url env url retries wait w = (Ok res, after_fetch w url gets waits)
    ∧ (gets ≤ retries)%nat
    ∧ length waits = match res with Some _ => (gets - 1)%nat | None => gets end
    ∧ (∀ k v, waits !! k = Some v →
         rejected (attempt env url w k) = true
         ∧ v = wait * 2 ^ Z.of_nat (blocked_before env url w k))
    ∧ ((∀ k, (k < retries)%nat → blocked_outcome (attempt env url w k) = true) →
       waits = (λ k, wait * 2 ^ Z.of_nat k) <$> seq 0 retries)
    ∧ ((∀ k, (k < retries)%nat → attempt env url w k = Failed) →
       waits = replicate retries wait).
Proof.
  intros Hwait.
  destruct (fetch_url_run env url retries wait w Hwait)
    as (res & waits & gets & Hrun & Hgets & Hwaits & Hres).
  exists res, waits, gets.
  assert (ABS.fetch_url = RBA.fetch_url) as -> by apply fetch_url_copies.
  split; [done|]. split; [done|]. split.
  { destruct res; [destruct Hres as (k & _ & _ & _ & <- & -> & _); lia|].
    by destruct Hres as (_ & -> & ->). }
  split; [intros k v Hk; by destruct (Hwaits k v Hk) as (_ & ? & ?)|].
  assert (∀ f : nat → Z,
    (∀ k, (k < retries)%nat → rejected (attempt env url w k) = true) →
    (∀ k, (k < retries)%nat →
          wait * 2 ^ Z.of_nat (blocked_before env url w k) = f k) →
    waits = f <$> seq 0 retries) as Hall.
  { intros f Hrej Hf. destruct res as [r|].
    { destruct Hres as (k & Hk & Hat & Hb & _).
      specialize (Hrej k Hk). rewrite Hat in Hrej. simpl in Hrej. congruence. }
    destruct Hres as (_ & Hlen & _). apply list_eq. intros k.
    rewrite list_lookup_fmap. destruct (decide (k < retries)%nat) as [Hk|Hk].
    - rewrite lookup_seq_lt by done. simpl.
      destruct (lookup_lt_is_Some_2 waits k) as [v Hv]; [lia|].
      rewrite Hv. destruct (Hwaits k v Hv) as (_ & _ & ->). by rewrite Hf.
    - rewrite lookup_seq_ge by lia. apply lookup_ge_None. lia. }
  split.
  - intros Hblocked. apply Hall.
    + intros k Hk. specialize (Hblocked k Hk).
      by destruct (attempt env url w k).
    + intros k Hk. rewrite (blocked_before_all env url w retries); [done..|lia].
  - intros Hfailed.
    rewrite (Hall (λ _, wait)).
    + apply list_eq. intros k. rewrite list_lookup_fmap.
      destruct (decide (k < retries)%nat) as [Hk|Hk].
      * rewrite lookup_seq_lt by done. simpl. symmetry.
        by apply lookup_replicate_2.
      * rewrite lookup_seq_ge by lia. symmetry. apply lookup_ge_None.
        rewrite length_replicate. lia.
    + intros k Hk. by rewrite Hfailed.
    + intros k Hk. rewrite (blocked_before_none env url w retries); [lia|done|lia].
Qed.

Lemma fetch_url_backoff_witness :
  ∃ res waits gets,
    ABS.fetch_url env_busy ABS.ABS_LENDING_URL 3 5 world0
      = (Ok res, after_fetch world0 ABS.ABS_LENDING_URL gets waits)
    ∧ (gets ≤ 3)%nat.
Proof.
  destruct (fetch_url_backoff env_busy ABS.ABS_LENDING_URL 3 5 world0)
    as (res & waits & gets & Hrun & Hgets & _); [lia|].
  by exists res, waits, gets.
Defined.

(** C3 as stated fails on transport errors: three failed attempts made
    with an initial wait of 5 are followed by waits of 5, 5 and 5, where
    the claim asks for a third wait of 5 * 2^(3-1) = 20. *)
Lemma fetch_url_errors_keep_wait :
  ABS.fetch_url env_offline ABS.ABS_LENDING_URL 3 5 world0
  = (Ok None,
     {| requests := replicate 3 ABS.ABS_LENDING_URL; slept := [5; 5; 5]; disk := ∅ |})
  ∧ (∀ k, rejected (attempt env_offline ABS.ABS_LENDING_URL world0 k) = true)
  ∧ slept (ABS.fetch_url env_offline ABS.ABS_LENDING_URL 3 5 world0).2 !! 2%nat
    ≠ Some (5 * 2 ^ (3 - 1)).
Proof. split; [reflexivity|]. split; [done|]. vm_compute. discriminate. Qed.

(** ** Splitting and file names *)

Lemma str_contains_app_l x s t :
  Py.contains x s = true → Py.contains x (s +:+ t) = true.
Proof.
  rewrite !str_contains_spec. intros (l & r & ->). exists l, (r +:+ t).
  by rewrite !str_app_assoc.
Qed.

Lemma str_contains_app_r x s t :
  Py.contains x t = true → Py.contains x (s +:+ t) = true.
Proof.
  rewrite !str_contains_spec. intros (l & r & ->). exists (s +:+ l), r.
  by rewrite !str_app_assoc.
Qed.

Lemma str_contains_char_cons sep c s :
  Py.contains (String sep "") (String c s)
  = Ascii.eqb sep c || Py.contains (String sep "") s.
Proof.
  rewrite str_contains_unfold. simpl. by destruct (Ascii.eqb sep c).
Qed.

Lemma split_nonempty sep s : Py.split sep s ≠ [].
Proof.
  destruct s as [|c s]; simpl; [done|].
  destruct (Ascii.eqb c sep); [done|]. by destruct (Py.split sep s).
Qed.

Lemma split_pieces sep s :
  Forall (λ piece, Py.contains (String sep "") piece = false) (Py.split sep s).
Proof.
  induction s as [|c s IH]; simpl.
  - by repeat constructor.
  - destruct (Ascii.eqb_spec c sep) as [->|Hne]; [by constructor|].
    destruct (Py.split sep s) as [|piece pieces].
    + repeat constructor. rewrite str_contains_char_cons.
      destruct (Ascii.eqb_spec sep c); [congruence|done].
    + inversion IH as [|? ? Hpiece Hpieces]; subst. constructor; [|done].
      rewrite str_contains_char_cons, Hpiece.
      destruct (Ascii.eqb_spec sep c); [congruence|done].
Qed.

Lemma join_cons sep x y l :
  Py.join sep (x :: y :: l) = x +:+ sep +:+ Py.join sep (y :: l).
Proof. reflexivity. Qed.

Lemma join_split sep s : Py.join (String sep "") (Py.split sep s) = s.
Proof.
  induction s as [|c s IH]; simpl; [done|].
  pose proof (split_nonempty sep s) as Hne.
  destruct (Ascii.eqb_spec c sep) as [->|Hc].
  - destruct (Py.split sep s) as [|y l] eqn:Hs; [done|].
    rewrite join_cons, IH. reflexivity.
  - destruct (Py.split sep s) as [|y l] eqn:Hs; [done|].
    destruct l as [|z l]; [simpl in *; by rewrite IH|].
    rewrite join_cons in *. by rewrite str_app_cons, IH.
Qed.

Lemma join_snoc sep l x :
  l ≠ [] → Py.join sep (l ++ [x]) = Py.join sep l +:+ sep +:+ x.
Proof.
  induction l as [|y l IH]; [done|]. intros _. destruct l as [|z l]; [done|].
  change ((y :: z :: l) ++ [x]) with (y :: (z :: l) ++ [x]).
  change ((z :: l) ++ [x]) with (z :: (l ++ [x])) at 1.
  rewrite join_cons. change (z :: (l ++ [x])) with ((z :: l) ++ [x]).
  rewrite IH by done. by rewrite join_cons, !str_app_assoc.
Qed.

Lemma Forall_last {A} (P : A → Prop) (l : list A) d :
  l ≠ [] → Forall P l → P (List.last l d).
Proof.
  induction l as [|x l IH]; [done|]. intros _ Hall.
  apply Forall_cons in Hall as [Hx Hl]. destruct l as [|y l]; [done|].
  by apply IH.
Qed.

(** The last piece of a split holds no separator and is what follows the
    last separator of the string. *)
Lemma split_last sep s :
  Py.contains (String sep "") (Py.last (Py.split sep s)) = false
  ∧ (s = Py.last (Py.split sep s)
     ∨ ∃ pre, s = pre +:+ String sep "" +:+ Py.last (Py.split sep s)).
Proof.
  pose proof (split_nonempty sep s) as Hne.
  pose proof (split_pieces sep s) as Hall.
  pose proof (join_split sep s) as Hjoin.
  unfold Py.last. revert Hne Hall Hjoin. generalize (Py.split sep s) as l.
  intros l Hne Hall Hjoin. split; [by apply Forall_last|].
  rewrite (app_removelast_last "" Hne) in Hjoin.
  destruct (removelast l) as [|y init] eqn:Hinit.
  - left. by rewrite <- Hjoin.
  - right. rewrite join_snoc in Hjoin by done. by eexists.
Qed.

(** The first piece of a split holds no separator and is what precedes
    the first separator of the string. *)
Lemma split_first sep s :
  Py.contains (String sep "") (Py.first (Py.split sep s)) = false
  ∧ (s = Py.first (Py.split sep s)
     ∨ ∃ rest, s = Py.first (Py.split sep s) +:+ String sep "" +:+ rest).
Proof.
  pose proof (split_pieces sep s) as Hall.
  pose proof (join_split sep s) as Hjoin.
  unfold Py.first. destruct (Py.split sep s) as [|x l]; simpl.
  - simpl in Hjoin. subst s. split; [done | by left].
  - apply Forall_cons in Hall as [Hx _]. split; [done|].
    destruct l as [|y l]; [by left|]. right. rewrite join_cons in Hjoin. by eexists.
Qed.

Lemma unquote_other c s :
  Ascii.eqb c "%" = false → Py.unquote (String c s) = String c (Py.unquote s).
Proof. intros Hc. simpl. by rewrite Hc. Qed.

Lemma unquote_escape h l x y s :
  Py.hex_digit h = Some x → Py.hex_digit l = Some y →
  Py.unquote (String "%" (String h (String l s)))
  = String (ascii_of_N (16 * x + y)) (Py.unquote s).
Proof. intros Hh Hl. cbn -[N.mul ascii_of_N]. by rewrite Hh, Hl. Qed.

Lemma unquote_stray_1 h l s :
  Py.hex_digit h = None →
  Py.unquote (String "%" (String h (String l s)))
  = String "%" (Py.unquote (String h (String l s))).
Proof. intros Hh. cbn -[N.mul ascii_of_N]. by rewrite Hh. Qed.

Lemma unquote_stray_2 h l s :
  Py.hex_digit l = None →
  Py.unquote (String "%" (String h (String l s)))
  = String "%" (Py.unquote (String h (String l s))).
Proof.
  intros Hl. cbn -[N.mul ascii_of_N]. rewrite Hl. by destruct (Py.hex_digit h).
Qed.

Lemma unquote_stray_percent t :
  Py.unquote (String "%" (String "%" t)) = String "%" (Py.unquote (String "%" t)).
Proof. destruct t; reflexivity. Qed.

Lemma unquote_stray_short h :
  Py.unquote (String "%" (String h "")) = String "%" (Py.unquote (String h "")).
Proof. reflexivity. Qed.

(** Decoding distributes over a cut placed right before a [%]. *)
Lemma unquote_app_percent : ∀ n a t,
  (String.length a ≤ n)%nat →
  Py.unquote (a +:+ String "%" t) = Py.unquote a +:+ Py.unquote (String "%" t).
Proof.
  induction n as [|n IH]; intros a t Hlen.
  { destruct a; [reflexivity | simpl in Hlen; lia]. }
  destruct a as [|c a]; [reflexivity|]. simpl in Hlen.
  rewrite str_app_cons. destruct (Ascii.eqb_spec c "%") as [->|Hc].
  - destruct a as [|h a].
    + change ("" +:+ String "%" t) with (String "%" t).
      by rewrite unquote_stray_percent.
    + destruct a as [|l a]; simpl in Hlen.
      * change (String h "" +:+ String "%" t) with (String h (String "%" t)).
        rewrite unquote_stray_2 by reflexivity.
        change (String h (String "%" t)) with (String h "" +:+ String "%" t).
        rewrite IH by (simpl; lia). by rewrite unquote_stray_short.
      * rewrite !str_app_cons.
        destruct (Py.hex_digit h) as [x|] eqn:Hh;
          [destruct (Py.hex_digit l) as [y|] eqn:Hl|].
        -- rewrite !(unquote_escape h l x y) by done. rewrite IH by lia.
           by rewrite str_app_cons.
        -- rewrite !unquote_stray_2 by done. rewrite <- !str_app_cons.
           rewrite IH by (simpl; lia). by rewrite !str_app_cons.
        -- rewrite !unquote_stray_1 by done. rewrite <- !str_app_cons.
           rewrite IH by (simpl; lia). by rewrite !str_app_cons.
  - assert (Ascii.eqb c "%" = false) as Hc' by by apply Ascii.eqb_neq.
    rewrite !unquote_other by done. rewrite IH by lia. by rewrite str_app_cons.
Qed.

(** An escaped space is decoded wherever it stands. *)
Lemma unquote_space a b :
  Py.unquote (a +:+ "%20" +:+ b) = Py.unquote a +:+ " " +:+ Py.unquote b.
Proof.
  change ("%20" +:+ b) with (String "%" (String "2" (String "0" b))).
  by rewrite (unquote_app_percent (String.length a)).
Qed.

Lemma str_contains_false_app x s t :
  Py.contains x (s +:+ t) = false →
  Py.contains x s = false ∧ Py.contains x t = false.
Proof.
  intros Hst. split.
  - destruct (Py.contains x s) eqn:Hs; [|done].
    by rewrite (str_contains_app_l _ _ t Hs) in Hst.
  - destruct (Py.contains x t) eqn:Ht; [|done].
    by rewrite (str_contains_app_r _ s _ Ht) in Hst.
Qed.

Lemma download_file_copies :
  APRA.download_file = ABS.download_file ∧ NSW.download_file = ABS.download_file
  ∧ ∀ env file_url save_folder w,
      RBA.download_file env file_url save_folder w
      = (ABS.download_file env file_url save_folder;; mret tt) w.
Proof.
  repeat split. intros env [file_url|] save_folder w; [|done].
  unfold RBA.download_file, ABS.download_file, mbind, M_bind, mret, M_ret.
  destruct (requests_get env file_url w) as [[response|e] w']; [|done].
  destruct (status_code response =? 200); [|done].
  by destruct (write_file _ _ _ w') as [[[]|e] w''].
Qed.

(** The name under which a URL is saved: the text after the last [/],
    cut at its first [?], then percent-decoded. *)
Lemma file_name_parts file_url :
  ∃ seg rest,
    Py.first (Py.split "?" (Py.last (Py.split "/" file_url))) = seg
    ∧ Py.contains "/" seg = false ∧ Py.contains "?" seg = false
    ∧ Py.contains "/" rest = false
    ∧ (rest = "" ∨ ∃ query, rest = "?" +:+ query)
    ∧ (file_url = seg +:+ rest ∨ ∃ pre, file_url = pre +:+ "/" +:+ seg +:+ rest).
Proof.
  destruct (split_last "/" file_url) as [Htail Hurl].
  set (tail := Py.last (Py.split "/" file_url)) in *.
  destruct (split_first "?" tail) as [Hseg Htl].
  set (seg := Py.first (Py.split "?" tail)) in *.
  assert (∃ rest, tail = seg +:+ rest ∧ (rest = "" ∨ ∃ query, rest = "?" +:+ query))
    as (rest & Hrest & Hq).
  { destruct Htl as [Heq|[query Heq]].
    - exists "". rewrite str_app_nil_r. split; [done | by left].
    - exists ("?" +:+ query). split; [done | right; by exists query]. }
  exists seg, rest. split; [done|].
  rewrite Hrest in Htail. apply str_contains_false_app in Htail as [Hs Hr].
  repeat split; [done..|].
  destruct Hurl as [Heq|[pre Heq]]; [left | right; exists pre]; by rewrite <- Hrest.
Qed.



(** ** Dictionaries and the exact-set rule *)

Lemma dict_get_set {V} (d : Py.dict V) k v k' :
  Py.dict_get (Py.dict_set d k v) k'
  = if String.eqb k k' then Some v else Py.dict_get d k'.
Proof.
  induction d as [|[k1 v1] d IH]; simpl.
  - by destruct (String.eqb k k').
  - destruct (String.eqb_spec k1 k) as [->|Hk1]; simpl.
    + by destruct (String.eqb k k').
    + rewrite IH. destruct (String.eqb_spec k1 k') as [->|Hk1'].
      * destruct (String.eqb_spec k k'); [congruence|done].
      * done.
Qed.

Lemma dict_keys_set {V} (d : Py.dict V) k v :
  fst <$> Py.dict_set d k v
  = if Py.dict_has d k then fst <$> d else (fst <$> d) ++ [k].
Proof.
  unfold Py.dict_has. induction d as [|[k1 v1] d IH]; [done|].
  cbn [Py.dict_set Py.dict_get].
  destruct (String.eqb_spec k1 k) as [->|Hk1]; [done|].
  rewrite !fmap_cons, IH. by destruct (Py.dict_get d k).
Qed.

Lemma dict_has_keys {V} (d : Py.dict V) k :
  Py.dict_has d k = true ↔ k ∈ fst <$> d.
Proof.
  unfold Py.dict_has. induction d as [|[k1 v1] d IH].
  - split; [done|]. by intros ?%elem_of_nil.
  - cbn [Py.dict_get]. rewrite fmap_cons, elem_of_cons. cbn [fst].
    destruct (String.eqb_spec k1 k) as [->|Hk1].
    + split; [by left|done].
    + rewrite IH. split; [by right|]. by intros [?|?]; [congruence|].
Qed.

Lemma dict_set_NoDup {V} (d : Py.dict V) k v :
  NoDup (fst <$> d) → NoDup (fst <$> Py.dict_set d k v).
Proof.
  intros Hd. rewrite dict_keys_set. destruct (Py.dict_has d k) eqn:Hk; [done|].
  apply NoDup_app. split; [done|]. split; [|apply NoDup_singleton].
  intros x Hx ->%list_elem_of_singleton. apply dict_has_keys in Hx. congruence.
Qed.

Lemma exact_set_loop_app targets origin hs1 hs2 d :
  exact_set_loop targets origin (hs1 ++ hs2) d
  = exact_set_loop targets origin hs2 (exact_set_loop targets origin hs1 d).
Proof. revert d. induction hs1 as [|h hs1 IH]; intros d; simpl; [done|]. apply IH. Qed.

Lemma exact_set_loop_NoDup targets origin hs : ∀ d,
  NoDup (fst <$> d) → NoDup (fst <$> exact_set_loop targets origin hs d).
Proof.
  induction hs as [|h hs IH]; intros d Hd; simpl; [done|]. apply IH.
  destruct (Py.dict_has targets _); [by apply dict_set_NoDup | done].
Qed.

(** A name that is no target, or the segment of no href, keeps its entry. *)
Lemma exact_set_loop_untouched targets origin hs k : ∀ d,
  Py.dict_has targets k = false ∨ (∀ h, h ∈ hs → stripped_segment h ≠ k) →
  Py.dict_get (exact_set_loop targets origin hs d) k = Py.dict_get d k.
Proof.
  induction hs as [|h hs IH]; intros d Hk; simpl; [done|].
  rewrite IH.
  - destruct (Py.dict_has targets (stripped_segment h)) eqn:Hh; [|done].
    rewrite dict_get_set. destruct (String.eqb_spec (stripped_segment h) k) as [Heq|]; [|done].
    destruct Hk as [Hk|Hk]; [congruence|]. destruct (Hk h); [left|done].
  - destruct Hk as [Hk|Hk]; [by left|right]. intros h' Hh'. apply Hk. by right.
Qed.

(** The last href with a given target segment decides the entry. *)
Lemma exact_set_loop_last targets origin before h after d :
  Py.dict_has targets (stripped_segment h) = true →
  (∀ h', h' ∈ after → stripped_segment h' ≠ stripped_segment h) →
  Py.dict_get (exact_set_loop targets origin (before ++ h :: after) d)
              (stripped_segment h)
  = Some (absolute origin h).
Proof.
  intros Htarget Hafter. rewrite exact_set_loop_app. simpl. rewrite Htarget.
  rewrite exact_set_loop_untouched by by right.
  by rewrite dict_get_set, String.eqb_refl.
Qed.

Lemma last_occurrence {A} (P : A → Prop) `{∀ x, Decision (P x)} (l : list A) :
  Exists P l →
  ∃ before x after, l = before ++ x :: after ∧ P x ∧ ∀ y, y ∈ after → ¬ P y.
Proof.
  induction l as [|x l IH]; intros Hex; [by apply Exists_nil in Hex|].
  destruct (decide (Exists P l)) as [Hl|Hl].
  - destruct (IH Hl) as (before & y & after & -> & Hy & Hafter).
    by exists (x :: before), y, after.
  - apply Exists_cons in Hex as [Hx|Hex]; [|done].
    exists [], x, l. repeat split; [done|]. intros y Hy HPy. apply Hl.
    apply Exists_exists. by exists y.
Qed.

Lemma exact_set_loop_result targets origin hs :
  exact_set_result targets origin hs (exact_set_loop targets origin hs []).
Proof.
  split; [apply exact_set_loop_NoDup; constructor|]. intros k.
  assert (Py.dict_has targets k = true
          ∧ Exists (λ h, stripped_segment h = k) hs
          ∨ Py.dict_get (exact_set_loop targets origin hs []) k = None
            ∧ ¬ (Py.dict_has targets k = true
                 ∧ ∃ href, href ∈ hs ∧ stripped_segment href = k)) as [[Ht Hex]|[Hnone Hno]].
  { destruct (Py.dict_has targets k) eqn:Ht.
    - destruct (decide (Exists (λ h, stripped_segment h = k) hs)) as [Hex|Hex]; [by left|].
      right. split.
      + rewrite exact_set_loop_untouched; [done|]. right. intros h Hh Hseg.
        apply Hex, Exists_exists. by exists h.
      + intros [_ (h & Hh & Hseg)]. apply Hex, Exists_exists. by exists h.
    - right. split; [|by intros [? _]].
      rewrite exact_set_loop_untouched; [done | by left]. }
  - apply last_occurrence in Hex as (before & h & after & -> & <- & Hafter); [|apply _].
    pose proof (exact_set_loop_last targets origin before h after [] Ht Hafter) as Hget.
    split.
    + unfold Py.dict_has at 1. rewrite Hget. split; [|done]. intros _. split; [done|].
      exists h. split; [|done]. apply elem_of_app. right. by left.
    + intros url Hurl. rewrite Hget in Hurl. injection Hurl as <-.
      by exists before, h, after.
  - split.
    + unfold Py.dict_has at 1. rewrite Hnone. split; [done|]. intros Hyes. by destruct Hno.
    + intros url Hurl. congruence.
Qed.

Lemma fetch_url_total env url retries wait w :
  0 ≤ wait → ∃ res w', RBA.fetch_url env url retries wait w = (Ok res, w').
Proof.
  intros Hwait.
  destruct (fetch_url_run env url retries wait w Hwait) as (res & waits & gets & Hrun & _).
  by eexists _, _.
Qed.

Lemma get_abs_lending_files_loop_exact links : ∀ d,
  ABS.get_abs_lending_files_loop links d
  = exact_set_loop ABS.TARGET_ABS_FILES "https://www.abs.gov.au"
      ((λ link, Bs4.subscript link "href") <$> links) d.
Proof. induction links as [|link links IH]; intros d; [done|]. apply IH. Qed.

Lemma get_rba_interest_files_loop_exact links : ∀ d,
  RBA.get_rba_interest_files_loop links d
  = exact_set_loop RBA.TARGET_INTEREST_FILES "https://www.rba.gov.au"
      ((λ link, Bs4.subscript link "href") <$> links) d.
Proof. induction links as [|link links IH]; intros d; [done|]. apply IH. Qed.


(** ** First-hit resolvers *)

Lemma first_match_hit accept origin before href after :
  (∀ h, h ∈ before → accept h = false) → accept href = true →
  first_match accept origin (before ++ href :: after) = Some (absolute origin href).
Proof.
  intros Hbefore Hhref. induction before as [|h before IH]; simpl.
  - by rewrite Hhref.
  - rewrite (Hbefore h) by by left. apply IH. intros h' Hh'. apply Hbefore. by right.
Qed.

Lemma first_match_Some accept origin hs url :
  first_match accept origin hs = Some url →
  ∃ href, href ∈ hs ∧ accept href = true ∧ url = absolute origin href.
Proof.
  induction hs as [|h hs IH]; simpl; [done|].
  destruct (accept h) eqn:Hh.
  - intros [= <-]. exists h. split; [by left|done].
  - intros Hurl. destruct (IH Hurl) as (href & Hin & Hacc & ->).
    exists href. split; [by right|done].
Qed.

Lemma first_match_None accept origin hs :
  first_match accept origin hs = None ↔ ∀ h, h ∈ hs → accept h = false.
Proof.
  induction hs as [|h hs IH]; simpl.
  - split; [|done]. by intros _ h ?%elem_of_nil.
  - destruct (accept h) eqn:Hh.
    + split; [done|]. intros Hall. rewrite (Hall h) in Hh; [done | by left].
    + rewrite IH. split.
      * intros Hall h' [->|Hh']%elem_of_cons; [done | by apply Hall].
      * intros Hall h' Hh'. apply Hall. by right.
Qed.

Lemma get_abs_cpi_monthly_file_loop_first links :
  ABS.get_abs_cpi_monthly_file_loop links
  = first_match (Py.contains "Time-Series-Spreadsheets.zip") "https://www.abs.gov.au"
      ((λ link, Bs4.subscript link "href") <$> links).
Proof. induction links as [|link links IH]; [done|]. simpl. by rewrite IH. Qed.

Lemma get_abs_cpi_quarterly_file_loop_first links :
  ABS.get_abs_cpi_quarterly_file_loop links
  = first_match (λ href, Py.contains "All-Time-Series-Spreadsheets.zip" href
                         || Py.contains "Time-series-spreadsheets-all.zip" href)
      "https://www.abs.gov.au" ((λ link, Bs4.subscript link "href") <$> links).
Proof. induction links as [|link links IH]; [done|]. simpl. by rewrite IH. Qed.

Lemma get_abs_labour_force_file_loop_first links :
  ABS.get_abs_labour_force_file_loop links
  = first_match (λ href, Py.contains ABS.LABOUR_FORCE_FILE_PREFIX href
                         && Py.endswith href ".xlsx")
      "https://www.abs.gov.au" ((λ link, Bs4.subscript link "href") <$> links).
Proof. induction links as [|link links IH]; [done|]. simpl. by rewrite IH. Qed.

Lemma get_abs_retail_trade_file_loop_first links :
  ABS.get_abs_retail_trade_file_loop links
  = first_match (Py.contains ABS.RETAIL_TRADE_FILE) "https://www.abs.gov.au"
      ((λ link, Bs4.subscript link "href") <$> links).
Proof. induction links as [|link links IH]; [done|]. simpl. by rewrite IH. Qed.

Lemma get_nsw_revenue_file_loop_first links :
  NSW.get_nsw_revenue_file_loop links
  = first_match (Py.contains NSW.TARGET_NSW_REVENUE_FILE) "https://www.revenue.nsw.gov.au"
      ((λ link, Bs4.subscript link "href") <$> links).
Proof. induction links as [|link links IH]; [done|]. simpl. by rewrite IH. Qed.

(** C9.  Whatever holds the quarterly file name also holds the monthly
    search text, which is the quarterly name without its first four
    characters; so when no anchor before a quarterly link matches the
    monthly rule, the monthly resolver returns the quarterly link. *)
Theorem cpi_monthly_matches_quarterly :
  fst <$> ABS.CPI_FILES
  = ["Time-Series-Spreadsheets.zip"; "All-" +:+ "Time-Series-Spreadsheets.zip"]
  ∧ (∀ href,
       Py.contains "All-Time-Series-Spreadsheets.zip" href = true →
       Py.contains "Time-Series-Spreadsheets.zip" href = true)
  ∧ ∀ env w response w' before href after,
      ABS.fetch_url env ABS.ABS_CPI_MONTHLY_URL 3 5 w = (Ok (Some response), w') →
      ok response = true →
      hrefs (BeautifulSoup env (text response)) = before ++ href :: after →
      (∀ h, h ∈ before → Py.contains "Time-Series-Spreadsheets.zip" h = false) →
      Py.contains "All-Time-Series-Spreadsheets.zip" href = true →
      ABS.get_abs_cpi_monthly_file env w
      = (Ok (Some (absolute "https://www.abs.gov.au" href)), w').
Proof.
  assert (∀ href,
    Py.contains "All-Time-Series-Spreadsheets.zip" href = true →
    Py.contains "Time-Series-Spreadsheets.zip" href = true) as Hsub.
  { intros href (l & r & ->)%str_contains_spec. apply str_contains_spec.
    exists (l +:+ "All-"), r. by rewrite str_app_assoc. }
  split; [done|]. split; [done|].
  intros env w response w' before href after Hrun Hok Hhrefs Hbefore Hhref.
  unfold ABS.get_abs_cpi_monthly_file, mbind, M_bind, mret, M_ret.
  rewrite Hrun, Hok. simpl. rewrite get_abs_cpi_monthly_file_loop_first.
  fold (hrefs (BeautifulSoup env (text response))). rewrite Hhrefs.
  rewrite first_match_hit; [done..|]. by apply Hsub.
Qed.

Lemma cpi_monthly_matches_quarterly_witness :
  ABS.get_abs_cpi_monthly_file (env_page cpi_page_text cpi_page_tree) world0
  = (Ok (Some "https://www.abs.gov.au/cpi/All-Time-Series-Spreadsheets.zip"),
     {| requests := [ABS.ABS_CPI_MONTHLY_URL]; slept := []; disk := ∅ |}).
Proof.
  destruct cpi_monthly_matches_quarterly as (_ & _ & Hfirst).
  apply (Hfirst (env_page cpi_page_text cpi_page_tree) world0
           (page 200 cpi_page_text) _ []
           "/cpi/All-Time-Series-Spreadsheets.zip"
           ["/cpi/Time-Series-Spreadsheets.zip"]).
  - reflexivity.
  - reflexivity.
  - reflexivity.
  - by intros h ?%elem_of_nil.
  - reflexivity.
Defined.

(** ** Extraction *)

Lemma str_app_eq_app a : ∀ b c d,
  a +:+ b = c +:+ d →
  (∃ m, a = c +:+ m ∧ d = m +:+ b) ∨ (∃ m, c = a +:+ m ∧ b = m +:+ d).
Proof.
  induction a as [|x a IH]; intros b c d Heq.
  - right. by exists c.
  - destruct c as [|y c].
    + left. by exists (String x a).
    + rewrite !str_app_cons in Heq. injection Heq as <- Heq.
      destruct (IH _ _ _ Heq) as [(m & -> & ->)|(m & -> & ->)];
        [left|right]; by exists m.
Qed.

(** Of two suffixes of one string, the shorter is a suffix of the longer. *)
Lemma str_endswith_shorter s u v :
  Py.endswith s u = true → Py.endswith s v = true →
  (String.length u ≤ String.length v)%nat → Py.endswith v u = true.
Proof.
  rewrite !str_endswith_spec. intros [p ->] [q Hq] Hlen.
  destruct (str_app_eq_app _ _ _ _ Hq) as [(m & -> & ->)|(m & -> & ->)].
  - by exists m.
  - rewrite str_length_app in Hlen. destruct m; [by exists ""|simpl in Hlen; lia].
Qed.

Lemma is_spreadsheet_not_dir name :
  is_spreadsheet name = true → Py.endswith name "/" = false.
Proof.
  unfold is_spreadsheet. intros [Hx|Hx]%orb_true_iff;
    destruct (Py.endswith name "/") eqn:Hdir; try done.
  - by pose proof (str_endswith_shorter _ _ _ Hdir Hx ltac:(simpl; lia)).
  - by pose proof (str_endswith_shorter _ _ _ Hdir Hx ltac:(simpl; lia)).
Qed.

Lemma getinfo_namelist zip_ref name :
  name ∈ Zip.namelist zip_ref → is_Some (Zip.getinfo zip_ref name).
Proof.
  unfold Zip.namelist, Zip.getinfo. intros Hname. apply last_is_Some.
  apply list_elem_of_fmap in Hname as (info & -> & Hin).
  intros Hnil. by eapply filter_nil_not_elem_of.
Qed.

(** The last member recorded under a name is the one [getinfo] finds. *)
Lemma getinfo_last before m after :
  (∀ m', m' ∈ after → filename m' ≠ filename m) →
  Zip.getinfo (before ++ m :: after) (filename m) = Some m.
Proof.
  intros Hafter. unfold Zip.getinfo.
  rewrite filter_app, filter_cons_True by done.
  assert (filter (λ info, filename info = filename m) after = []) as ->.
  { induction after as [|m' after IH]; [done|].
    rewrite filter_cons_False; [apply IH|apply Hafter; by left].
    intros m'' Hm''. apply Hafter. by right. }
  by rewrite last_app_cons.
Qed.

Lemma extract_zip_loop_run env zip_ref folder names : ∀ w,
  (∀ name, name ∈ names → is_Some (Zip.getinfo zip_ref name)) →
  (∀ name, name ∈ names → is_spreadsheet name = true →
           writable env (extract_target folder name) = true) →
  ABS.extract_zip_loop env zip_ref names folder w
  = (Ok tt, {| requests := requests w; slept := slept w;
               disk := extracted zip_ref names folder (disk w) |}).
Proof.
  induction names as [|name names IH]; intros w Hinfo Hwritable.
  - by destruct w.
  - destruct (Hinfo name) as [info Hname]; [by left|].
    cbn [ABS.extract_zip_loop extracted].
    unfold mbind, M_bind. destruct (is_spreadsheet name) eqn:Hsheet.
    + pose proof (Hwritable name ltac:(by left) Hsheet) as Hw.
      unfold is_spreadsheet in Hsheet. rewrite Hsheet.
      unfold Zip.extract. rewrite Hname.
      rewrite is_spreadsheet_not_dir by done.
      unfold write_file. fold (extract_target folder name). rewrite Hw.
      rewrite IH; [done| |].
      * intros n Hn. apply Hinfo. by right.
      * intros n Hn. apply Hwritable. by right.
    + unfold is_spreadsheet in Hsheet. rewrite Hsheet.
      unfold mret, M_ret. rewrite IH; [by destruct w| |].
      * intros n Hn. apply Hinfo. by right.
      * intros n Hn. apply Hwritable. by right.
Qed.

(** However the loop ends, the disk it leaves is the one extraction
    produces on some of the names. *)
Lemma extract_zip_loop_disk env zip_ref folder names : ∀ w r w',
  ABS.extract_zip_loop env zip_ref names folder w = (r, w') →
  ∃ names', disk w' = extracted zip_ref names' folder (disk w).
Proof.
  induction names as [|name names IH]; intros w r w'.
  - intros [= _ <-]. by exists [].
  - cbn [ABS.extract_zip_loop]. unfold mbind, M_bind.
    destruct (is_spreadsheet name) eqn:Hsheet.
    + pose proof (is_spreadsheet_not_dir _ Hsheet) as Hdir.
      unfold is_spreadsheet in Hsheet. rewrite Hsheet. unfold Zip.extract.
      destruct (Zip.getinfo zip_ref name) as [info|] eqn:Hinfo;
        [|intros [= _ <-]; by exists []].
      rewrite Hdir. unfold write_file. fold (extract_target folder name).
      destruct (writable env _); [|intros [= _ <-]; by exists []].
      intros (names' & ->)%IH. exists (name :: names'). cbn [extracted disk].
      fold (is_spreadsheet name). unfold is_spreadsheet at 1. by rewrite Hsheet, Hinfo.
    + unfold is_spreadsheet in Hsheet. rewrite Hsheet. unfold mret, M_ret.
      intros (names' & ->)%IH. by exists names'.
Qed.

Lemma extracted_app zip_ref folder names1 names2 d :
  extracted zip_ref (names1 ++ names2) folder d
  = extracted zip_ref names2 folder (extracted zip_ref names1 folder d).
Proof. revert d. induction names1 as [|n names1 IH]; intros d; [done|]. apply IH. Qed.

Lemma extracted_untouched zip_ref folder path names : ∀ d,
  (∀ name, name ∈ names → is_spreadsheet name = true →
           extract_target folder name ≠ path) →
  extracted zip_ref names folder d !! path = d !! path.
Proof.
  induction names as [|name names IH]; intros d Hnames; [done|].
  cbn [extracted]. rewrite IH by (intros n Hn; apply Hnames; by right).
  destruct (is_spreadsheet name) eqn:Hsheet; [|done].
  destruct (Zip.getinfo zip_ref name); [|done].
  apply lookup_insert_ne. apply Hnames; [by left|done].
Qed.

Lemma split_no_sep sep s :
  Py.contains (String sep "") s = false → Py.split sep s = [s].
Proof.
  induction s as [|c s IH]; [done|]. rewrite str_contains_char_cons.
  intros [Hc Hs]%orb_false_iff. simpl. rewrite Ascii.eqb_sym, Hc. by rewrite IH.
Qed.

Lemma arcname_plain name :
  Py.contains "/" name = false → is_spreadsheet name = true → Zip.arcname name = name.
Proof.
  intros Hplain Hsheet. unfold Zip.arcname. rewrite split_no_sep by done.
  cbn [List.filter].
  destruct (String.eqb_spec name "") as [->|_]; [done|].
  destruct (String.eqb_spec name ".") as [->|_]; [done|].
  destruct (String.eqb_spec name "..") as [->|_]; done.
Qed.

Lemma extract_zip_run env zip_path extract_folder w bytes zip_ref :
  zip_path ≠ "" →
  disk w !! zip_path = Some bytes →
  zip_reader env bytes = Some zip_ref →
  (∀ m, m ∈ zip_ref → is_spreadsheet (filename m) = true →
        writable env (extract_target extract_folder (filename m)) = true) →
  ABS.extract_zip env (Some zip_path) extract_folder w
  = (Ok tt, {| requests := requests w; slept := slept w;
               disk := extracted zip_ref (Zip.namelist zip_ref) extract_folder (disk w) |}).
Proof.
  intros Hpath Hdisk Hzip Hwritable. unfold ABS.extract_zip.
  destruct (String.eqb_spec zip_path "") as [|_]; [done|].
  unfold mbind at 1, M_bind, read_file. rewrite Hdisk. simpl. rewrite Hzip.
  apply extract_zip_loop_run; [intros name; apply getinfo_namelist|].
  intros name (m & -> & Hm)%list_elem_of_fmap. by apply Hwritable.
Qed.

(** C4, as the code has it.  On a valid archive, [extract_zip] writes the
    members whose name ends in [.xlsx] or [.xls] and nothing else.  A
    member is written below the destination folder at its own path inside
    the archive (a member without folders lands in the destination folder
    itself), the last writer of a path winning; every other path of the
    disk is left as it was.  The archive is assumed not to be overwritten
    by one of its own members, and the file system to accept the writes.
    From an archive holding [data.xlsx],
    [readme.txt] and [data_old.xls], exactly [data.xlsx] and
    [data_old.xls] are added to the folder. *)
Theorem extract_zip_spreadsheets_only :
  (∀ env zip_path extract_folder w bytes zip_ref,
     zip_path ≠ "" →
     disk w !! zip_path = Some bytes →
     zip_reader env bytes = Some zip_ref →
     (∀ m, m ∈ zip_ref → is_spreadsheet (filename m) = true →
           extract_target extract_folder (filename m) ≠ zip_path) →
     (∀ m, m ∈ zip_ref → is_spreadsheet (filename m) = true →
           writable env (extract_target extract_folder (filename m)) = true) →
     ∃ w',
       ABS.extract_zip env (Some zip_path) extract_folder w = (Ok tt, w')
       ∧ requests w' = requests w ∧ slept w' = slept w
       ∧ (∀ before m after,
            zip_ref = before ++ m :: after →
            is_spreadsheet (filename m) = true →
            (∀ m', m' ∈ after → is_spreadsheet (filename m') = true →
                   extract_target extract_folder (filename m')
                   ≠ extract_target extract_folder (filename m)) →
            disk w' !! extract_target extract_folder (filename m) = Some (data m))
       ∧ (∀ path,
            (∀ m, m ∈ zip_ref → is_spreadsheet (filename m) = true →
                  extract_target extract_folder (filename m) ≠ path) →
            disk w' !! path = disk w !! path)
       ∧ (∀ name,
            Py.contains "/" name = false → is_spreadsheet name = true →
            extract_target extract_folder name = Py.os_path_join extract_folder name))
  ∧ ABS.extract_zip env_zip (Some "out/archive.zip") "out" (world_zip "PK flat")
    = (Ok tt,
       {| requests := []; slept := [];
          disk := {[ "out/archive.zip" := "PK flat";
                     "out/data.xlsx" := "new figures";
                     "out/data_old.xls" := "old figures" ]} |}).
Proof.
  split; [|by vm_compute].
  intros env zip_path extract_folder w bytes zip_ref Hpath Hdisk Hzip _ Hwritable.
  eexists. split; [by eapply extract_zip_run|].
  cbn [requests slept disk]. split; [done|]. split; [done|]. split; [|split].
  - intros before m after -> Hsheet Hafter. unfold Zip.namelist.
    rewrite fmap_app, fmap_cons, extracted_app. cbn [extracted].
    rewrite Hsheet, getinfo_last.
    + rewrite extracted_untouched; [apply lookup_insert_eq|].
      intros name (m' & -> & Hm')%list_elem_of_fmap Hsheet'. by apply Hafter.
    + intros m' Hm' Hname. apply (Hafter m' Hm'); by rewrite Hname.
  - intros path Hnone. apply extracted_untouched.
    intros name (m & -> & Hm)%list_elem_of_fmap Hsheet. by apply Hnone.
  - intros name Hplain Hsheet. unfold extract_target. by rewrite arcname_plain.
Qed.

Lemma extract_zip_spreadsheets_only_witness :
  ∃ w',
    ABS.extract_zip env_zip (Some "out/archive.zip") "out" (world_zip "PK flat") = (Ok tt, w')
    ∧ disk w' !! "out/readme.txt" = None.
Proof.
  destruct extract_zip_spreadsheets_only as [Hgeneral _].
  destruct (Hgeneral env_zip "out/archive.zip" "out"
              (world_zip "PK flat") "PK flat" archive_flat)
    as (w' & Hrun & _ & _ & _ & Hother & _).
  - done.
  - reflexivity.
  - reflexivity.
  - intros m Hm Hsheet. unfold archive_flat in Hm.
    repeat (apply elem_of_cons in Hm as [->|Hm]; [done|]). by apply elem_of_nil in Hm.
  - done.
  - exists w'. split; [done|]. rewrite Hother; [reflexivity|].
    intros m Hm Hsheet. unfold archive_flat in Hm.
    repeat (apply elem_of_cons in Hm as [->|Hm]; [done|]). by apply elem_of_nil in Hm.
Defined.

(** C4 as stated fails on a member that sits in a folder of the archive:
    [tables/data.xlsx] is written to [out/tables/data.xlsx], and nothing
    appears as [out/data.xlsx] directly in the destination folder. *)
Lemma extract_zip_keeps_member_folders :
  ABS.extract_zip env_zip (Some "out/archive.zip") "out" (world_zip "PK nested")
  = (Ok tt,
     {| requests := []; slept := [];
        disk := {[ "out/archive.zip" := "PK nested";
                   "out/tables/data.xlsx" := "figures" ]} |})
  ∧ disk (ABS.extract_zip env_zip (Some "out/archive.zip") "out"
            (world_zip "PK nested")).2 !! "out/data.xlsx" = None.
Proof. split; by vm_compute. Qed.

(** ** Case of the extensions *)

Lemma str_length_lower s : String.length (Py.lower s) = String.length s.
Proof. induction s as [|c s IH]; [done|]. simpl. by rewrite IH. Qed.

Lemma str_app_nil_inv m s : s = m +:+ s → m = "".
Proof.
  intros Heq. apply (f_equal String.length) in Heq.
  rewrite str_length_app in Heq. destruct m; [done | simpl in Heq; lia].
Qed.

(** One spreadsheet extension ends in another only when they are equal. *)
Lemma spreadsheet_suffix_nest x y m :
  x = ".xlsx" ∨ x = ".xls" → y = ".xlsx" ∨ y = ".xls" → x = m +:+ y → m = "".
Proof.
  intros Hx Hy Heq.
  assert (Py.endswith x y = true) as Hends by (apply str_endswith_spec; by exists m).
  destruct Hx as [->| ->], Hy as [->| ->]; try discriminate Hends;
    by apply str_app_nil_inv in Heq.
Qed.

Lemma odd_case_not_suffix name base ext suffix :
  name = base +:+ ext → odd_case_extension ext →
  suffix = ".xlsx" ∨ suffix = ".xls" →
  Py.endswith name suffix = false.
Proof.
  intros -> [Hlow Hodd] Hsuffix.
  destruct (Py.endswith (base +:+ ext) suffix) eqn:Hends; [|done].
  apply str_endswith_spec in Hends as [p Hp].
  assert (Py.lower suffix = suffix) as Hfix by by destruct Hsuffix as [->| ->].
  assert (ext = suffix) as ->.
  { destruct (str_app_eq_app _ _ _ _ Hp) as [(m & _ & Hm)|(m & _ & Hm)].
    - pose proof (f_equal Py.lower Hm) as Hl. rewrite str_lower_app, Hfix in Hl.
      apply spreadsheet_suffix_nest in Hl; [|done..].
      destruct m; [done | discriminate Hl].
    - pose proof (f_equal Py.lower Hm) as Hl. rewrite str_lower_app, Hfix in Hl.
      apply spreadsheet_suffix_nest in Hl; [|done..].
      destruct m; [done | discriminate Hl]. }
  by rewrite Hfix in Hodd.
Qed.

Lemma odd_case_not_spreadsheet name base ext :
  name = base +:+ ext → odd_case_extension ext → is_spreadsheet name = false.
Proof.
  intros Hname Hodd. unfold is_spreadsheet.
  rewrite (odd_case_not_suffix name base ext ".xlsx") by auto.
  by rewrite (odd_case_not_suffix name base ext ".xls") by auto.
Qed.

Lemma str_endswith_trans a b c :
  Py.endswith a b = true → Py.endswith b c = true → Py.endswith a c = true.
Proof.
  rewrite !str_endswith_spec. intros [p ->] [q ->]. exists (p +:+ q).
  by rewrite str_app_assoc.
Qed.

Lemma str_endswith_app p s suffix :
  Py.endswith s suffix = true → Py.endswith (p +:+ s) suffix = true.
Proof.
  rewrite !str_endswith_spec. intros [q ->]. exists (p +:+ q). by rewrite str_app_assoc.
Qed.

Lemma absolute_endswith origin href suffix :
  Py.endswith href suffix = true → Py.endswith (absolute origin href) suffix = true.
Proof.
  intros Hends. unfold absolute. destruct (Py.startswith href "http"); [done|].
  by apply str_endswith_app.
Qed.

Lemma os_path_join_endswith a b suffix :
  Py.endswith b suffix = true → Py.endswith (Py.os_path_join a b) suffix = true.
Proof.
  intros Hends. unfold Py.os_path_join. destruct (Py.startswith b "/"); [done|].
  destruct (_ || _); rewrite ?(str_app_assoc a "/" b); by repeat apply str_endswith_app.
Qed.

(** A suffix free of [/] lies within the last piece of a split at [/]. *)
Lemma split_last_endswith name suffix :
  Py.endswith name suffix = true → Py.contains "/" suffix = false →
  Py.endswith (Py.last (Py.split "/" name)) suffix = true.
Proof.
  intros Hends Hplain. destruct (split_last "/" name) as [_ [Heq|[pre Heq]]].
  - by rewrite <- Heq.
  - set (tail := Py.last (Py.split "/" name)) in *.
    apply str_endswith_spec in Hends as [base Hbase]. rewrite Hbase in Heq.
    apply str_endswith_spec.
    destruct (str_app_eq_app _ _ _ _ Heq) as [(m & _ & Hm)|(m & _ & Hm)].
    + destruct m as [|c m].
      * change ("" +:+ suffix) with suffix in Hm. rewrite <- Hm in Hplain.
        by rewrite str_app_cons, str_contains_char_cons in Hplain.
      * rewrite str_app_cons in Hm. injection Hm as _ Hm. by exists m.
    + assert (Py.contains "/" (String "/" "" +:+ tail) = true) as Hslash.
      { apply str_contains_spec. by exists "", tail. }
      rewrite Hm in Hplain. by rewrite (str_contains_app_r _ m _ Hslash) in Hplain.
Qed.

Lemma join_last_endswith sep l d suffix :
  l ≠ [] → Py.endswith (List.last l d) suffix = true →
  Py.endswith (Py.join sep l) suffix = true.
Proof.
  intros Hne Hends. rewrite (app_removelast_last d Hne).
  destruct (removelast l) as [|x init]; [done|].
  rewrite join_snoc by done. by repeat apply str_endswith_app.
Qed.

Lemma arcname_endswith name suffix :
  Py.endswith name suffix = true → Py.contains "/" suffix = false →
  (2 < String.length suffix)%nat →
  Py.endswith (Zip.arcname name) suffix = true.
Proof.
  intros Hends Hplain Hlen.
  pose proof (split_last_endswith _ _ Hends Hplain) as Htail.
  pose proof (split_nonempty "/" name) as Hne.
  unfold Zip.arcname, Py.last in *. revert Htail Hne.
  generalize (Py.split "/" name) as l. intros l Htail Hne.
  rewrite (app_removelast_last "" Hne), List.filter_app.
  set (tail := List.last l "") in *.
  assert (negb (String.eqb tail "" || String.eqb tail "." || String.eqb tail "..") = true)
    as Hvalid.
  { apply str_endswith_spec in Htail as [q Hq].
    apply (f_equal String.length) in Hq. rewrite str_length_app in Hq.
    destruct (String.eqb_spec tail "") as [Ht|_]; [rewrite Ht in Hq; simpl in Hq; lia|].
    destruct (String.eqb_spec tail ".") as [Ht|_]; [rewrite Ht in Hq; simpl in Hq; lia|].
    destruct (String.eqb_spec tail "..") as [Ht|_]; [rewrite Ht in Hq; simpl in Hq; lia|].
    done. }
  cbn [List.filter]. rewrite Hvalid.
  apply (join_last_endswith _ _ ""); [by destruct (List.filter _ _)|].
  by rewrite last_last.
Qed.

Lemma odd_case_shape ext :
  odd_case_extension ext →
  Py.contains "/" ext = false ∧ (2 < String.length ext)%nat.
Proof.
  intros [Hlow _]. split.
  - destruct (Py.contains "/" ext) eqn:Hslash; [|done].
    apply str_contains_spec in Hslash as (l & r & ->).
    assert (Py.contains "/" (Py.lower (l +:+ "/" +:+ r)) = true) as Hl.
    { rewrite !str_lower_app. apply str_contains_spec. by eexists _, _. }
    by destruct Hlow as [Heq|Heq]; rewrite Heq in Hl.
  - rewrite <- str_length_lower. destruct Hlow as [->| ->]; simpl; lia.
Qed.

Lemma extract_target_spreadsheet folder name :
  is_spreadsheet name = true → is_spreadsheet (extract_target folder name) = true.
Proof.
  unfold is_spreadsheet, extract_target. intros [Hx|Hx]%orb_true_iff.
  - rewrite os_path_join_endswith; [done|]. apply arcname_endswith; [done..|simpl; lia].
  - rewrite (os_path_join_endswith _ _ ".xls"); [by rewrite orb_true_r|].
    apply arcname_endswith; [done..|simpl; lia].
Qed.

Lemma extract_target_odd_case folder name base ext :
  name = base +:+ ext → odd_case_extension ext →
  is_spreadsheet (extract_target folder name) = false.
Proof.
  intros Hname Hodd. destruct (odd_case_shape ext Hodd) as [Hplain Hlen].
  assert (Py.endswith (extract_target folder name) ext = true) as Hends.
  { apply os_path_join_endswith, arcname_endswith; [|done..].
    apply str_endswith_spec. by exists base. }
  apply str_endswith_spec in Hends as [base' Hbase'].
  by eapply odd_case_not_spreadsheet.
Qed.

Lemma extract_zip_disk env zip_path extract_folder w r w' :
  ABS.extract_zip env zip_path extract_folder w = (r, w') →
  disk w' = disk w
  ∨ ∃ zip_ref names, disk w' = extracted zip_ref names extract_folder (disk w).
Proof.
  unfold ABS.extract_zip. destruct zip_path as [path|]; [|intros [= _ <-]; by left].
  destruct (String.eqb path ""); [intros [= _ <-]; by left|].
  unfold mbind at 1, M_bind, read_file.
  destruct (disk w !! path) as [bytes|]; simpl; [|intros [= _ <-]; by left].
  destruct (zip_reader env bytes) as [zip_ref|]; [|intros [= _ <-]; by left].
  intros (names & ->)%extract_zip_loop_disk. right. by exists zip_ref, names.
Qed.

Lemma get_rba_payments_files_loop_suffix section links : ∀ valid_files url,
  url ∈ RBA.get_rba_payments_files_loop section links valid_files →
  url ∈ valid_files ∨ is_spreadsheet url = true.
Proof.
  induction links as [|link links IH]; intros valid_files url; [by left|].
  cbn [RBA.get_rba_payments_files_loop].
  destruct (match section with Some _ => _ | None => _ end); [by left|].
  destruct (Py.contains "/xls-disc/" _); [apply IH|].
  destruct (Py.endswith _ ".xls" || Py.endswith _ ".xlsx") eqn:Hext; [|apply IH].
  intros [Hin|Hin]%IH; [|by right].
  apply elem_of_app in Hin as [Hin | ->%list_elem_of_singleton]; [by left|right].
  fold (absolute "https://www.rba.gov.au" (Bs4.subscript link "href")).
  unfold is_spreadsheet. apply orb_true_iff in Hext as [Hx|Hx].
  - rewrite (absolute_endswith _ _ ".xls") by done. by rewrite orb_true_r.
  - by rewrite (absolute_endswith _ _ ".xlsx").
Qed.

Lemma get_apra_file_loop_suffix links url :
  APRA.get_apra_file_loop links = Some url → Py.endswith url ".xlsx" = true.
Proof.
  induction links as [|link links IH]; [done|]. cbn [APRA.get_apra_file_loop].
  destruct (Py.endswith _ ".xlsx" && _) eqn:Hacc; [|done].
  apply andb_true_iff in Hacc as [Hx _]. intros [= <-].
  by apply (absolute_endswith "https://www.apra.gov.au").
Qed.

Lemma absolute_odd_case origin href base ext :
  href = base +:+ ext → odd_case_extension ext →
  is_spreadsheet (absolute origin href) = false.
Proof.
  intros -> Hodd. unfold absolute. destruct (Py.startswith _ "http").
  - by eapply odd_case_not_spreadsheet.
  - rewrite <- str_app_assoc. by eapply odd_case_not_spreadsheet.
Qed.

(** C10.  A name that ends in a spreadsheet extension written with a
    capital letter fails both extension tests.  [extract_zip] leaves the
    place of such a member untouched, and no URL returned by the payments,
    labour-force or APRA resolver comes from an href with such an ending. *)
Theorem extension_matching_is_case_sensitive name base ext :
  name = base +:+ ext → odd_case_extension ext →
  Py.endswith name ".xlsx" = false ∧ Py.endswith name ".xls" = false
  ∧ (∀ env zip_path extract_folder w r w',
       ABS.extract_zip env zip_path extract_folder w = (r, w') →
       disk w' !! extract_target extract_folder name
       = disk w !! extract_target extract_folder name)
  ∧ (∀ env w urls w',
       RBA.get_rba_payments_files env w = (Ok urls, w') →
       absolute "https://www.rba.gov.au" name ∉ urls)
  ∧ (∀ env w w',
       ABS.get_abs_labour_force_file env w
       ≠ (Ok (Some (absolute "https://www.abs.gov.au" name)), w'))
  ∧ (∀ env w w',
       APRA.get_apra_file env w
       ≠ (Ok (Some (absolute "https://www.apra.gov.au" name)), w')).
Proof.
  intros Hname Hodd.
  pose proof (odd_case_not_spreadsheet _ _ _ Hname Hodd) as Hnot.
  unfold is_spreadsheet in Hnot. apply orb_false_iff in Hnot as [Hx Hs].
  split; [done|]. split; [done|]. split; [|split; [|split]].
  - intros env zip_path extract_folder w r w' Hrun.
    destruct (extract_zip_disk _ _ _ _ _ _ Hrun) as [->|(zip_ref & names & ->)]; [done|].
    apply extracted_untouched. intros n _ Hsheet Heq.
    apply (extract_target_spreadsheet extract_folder) in Hsheet.
    rewrite Heq in Hsheet.
    by rewrite (extract_target_odd_case _ _ _ _ Hname Hodd) in Hsheet.
  - intros env w urls w'. unfold RBA.get_rba_payments_files, mbind, M_bind, mret, M_ret.
    destruct (RBA.fetch_url _ _ _ _ _) as [[[response|]|e] w1];
      [|intros [= <- _]; apply not_elem_of_nil|done].
    destruct (ok response); simpl; [|intros [= <- _]; apply not_elem_of_nil].
    intros [= <- _] Hin.
    apply get_rba_payments_files_loop_suffix in Hin as [Hin|Hsheet];
      [by apply elem_of_nil in Hin|].
    by rewrite (absolute_odd_case _ _ _ _ Hname Hodd) in Hsheet.
  - intros env w w'. unfold ABS.get_abs_labour_force_file, mbind, M_bind, mret, M_ret.
    destruct (ABS.fetch_url _ _ _ _ _) as [[[response|]|e] w1]; [|done..].
    destruct (ok response); simpl; [|done].
    rewrite get_abs_labour_force_file_loop_first. intros [= Hfirst _].
    apply first_match_Some in Hfirst as (href & _ & Hacc & Hurl).
    apply andb_true_iff in Hacc as [_ Hacc].
    apply (absolute_endswith "https://www.abs.gov.au") in Hacc.
    rewrite <- Hurl in Hacc.
    pose proof (absolute_odd_case "https://www.abs.gov.au" _ _ _ Hname Hodd) as Habs.
    unfold is_spreadsheet in Habs. by rewrite Hacc in Habs.
  - intros env w w'. unfold APRA.get_apra_file, mbind, M_bind, mret, M_ret.
    destruct (APRA.fetch_url _ _ _ _ _) as [[[response|]|e] w1]; [|done..].
    destruct (ok response); simpl; [|done].
    intros [= Hfirst _]. apply get_apra_file_loop_suffix in Hfirst.
    pose proof (absolute_odd_case "https://www.apra.gov.au" _ _ _ Hname Hodd) as Habs.
    unfold is_spreadsheet in Habs. by rewrite Hfirst in Habs.
Qed.

Lemma extension_matching_is_case_sensitive_witness :
  Py.endswith "Table 1.XLSX" ".xlsx" = false
  ∧ Py.endswith "Table 1.XLSX" ".xls" = false.
Proof.
  destruct (extension_matching_is_case_sensitive "Table 1.XLSX" "Table 1" ".XLSX")
    as (Hx & Hs & _).
  - reflexivity.
  - split; [by left | discriminate].
  - by split.
Defined.

(** ** Resolvers as functions of the page *)

Ltac page_determined_tac resolver :=
  intros env w1 w2 r1 r2 w1' w2' Hrun1 Hrun2 [Htext Hok];
  unfold resolver, mbind, M_bind, mret, M_ret;
  rewrite Hrun1, Hrun2, Htext, Hok;
  by destruct (ok r2).

(** C8.  Every resolver is decided by the page it fetched: whatever the
    state of the world, two runs that fetch the same page content return
    the same links. *)
Theorem resolvers_page_determined :
  page_determined (λ env, ABS.fetch_url env ABS.ABS_LENDING_URL 3 5)
    ABS.get_abs_lending_files
  ∧ page_determined (λ env, ABS.fetch_url env ABS.ABS_CPI_MONTHLY_URL 3 5)
      ABS.get_abs_cpi_monthly_file
  ∧ page_determined (λ env, ABS.fetch_url env ABS.ABS_CPI_QUARTERLY_URL 3 5)
      ABS.get_abs_cpi_quarterly_file
  ∧ page_determined (λ env, ABS.fetch_url env ABS.ABS_LABOUR_FORCE_URL 3 5)
      ABS.get_abs_labour_force_file
  ∧ page_determined (λ env, ABS.fetch_url env ABS.ABS_RETAIL_TRADE_URL 3 5)
      ABS.get_abs_retail_trade_file
  ∧ page_determined (λ env, RBA.fetch_url env RBA.RBA_PAYMENTS_URL 3 5)
      RBA.get_rba_payments_files
  ∧ page_determined (λ env, RBA.fetch_url env RBA.RBA_INTEREST_URL 3 5)
      RBA.get_rba_interest_files
  ∧ page_determined (λ env, APRA.fetch_url env APRA.APRA_URL 3 5) APRA.get_apra_file
  ∧ page_determined (λ env, NSW.fetch_url env NSW.NSW_REVENUE_URL 3 5)
      NSW.get_nsw_revenue_file.
Proof.
  repeat split.
  - page_determined_tac ABS.get_abs_lending_files.
  - page_determined_tac ABS.get_abs_cpi_monthly_file.
  - page_determined_tac ABS.get_abs_cpi_quarterly_file.
  - page_determined_tac ABS.get_abs_labour_force_file.
  - page_determined_tac ABS.get_abs_retail_trade_file.
  - page_determined_tac RBA.get_rba_payments_files.
  - page_determined_tac RBA.get_rba_interest_files.
  - page_determined_tac APRA.get_apra_file.
  - page_determined_tac NSW.get_nsw_revenue_file.
Qed.

Lemma resolvers_page_determined_witness :
  (RBA.get_rba_payments_files (env_page payments_page_text payments_page_tree) world0).1
  = (RBA.get_rba_payments_files (env_page payments_page_text payments_page_tree)
       world_used).1.
Proof.
  destruct resolvers_page_determined as (_ & _ & _ & _ & _ & Hpayments & _).
  apply (Hpayments (env_page payments_page_text payments_page_tree) world0 world_used
           (page 200 payments_page_text) (page 200 payments_page_text)
           (after_fetch world0 RBA.RBA_PAYMENTS_URL 1 [])
           (after_fetch world_used RBA.RBA_PAYMENTS_URL 1 [])).
  - reflexivity.
  - reflexivity.
  - by split.
Defined.

(** ** The discontinued section of the payments page *)

Lemma node_ind_nested (P : Bs4.node → Prop) :
  (∀ s, P (Bs4.NavigableString s)) →
  (∀ name attrs contents, Forall P contents → P (Bs4.Tag name attrs contents)) →
  ∀ n, P n.
Proof.
  intros Hstring Htag. fix IH 1. intros [s|name attrs contents]; [apply Hstring|].
  apply Htag. induction contents as [|c contents IHc]; constructor; [apply IH | apply IHc].
Qed.

Lemma node_eqb_eq x : ∀ y, Bs4.node_eqb x y = true → x = y.
Proof.
  induction x as [s|name attrs contents IH] using node_ind_nested;
    intros [t|name' attrs' contents']; simpl; try done.
  - by intros ->%String.eqb_eq.
  - intros [[->%String.eqb_eq ->%bool_decide_eq_true]%andb_true_iff Hall]%andb_true_iff.
    f_equal. revert contents' Hall.
    induction IH as [|c contents Hc _ IHcs]; intros [|c' contents'] Hall; try done.
    apply andb_true_iff in Hall as [Hhead Htail].
    f_equal; [by apply Hc | by apply IHcs].
Qed.

Lemma descendants_tag anc name attrs contents :
  Bs4.descendants anc (Bs4.Tag name attrs contents)
  = {| Bs4.element := Bs4.Tag name attrs contents; Bs4.find_parents := anc |}
    :: flat_map (Bs4.descendants (Bs4.Tag name attrs contents :: anc)) contents.
Proof. reflexivity. Qed.

(** The elements met below a node do not depend on what lies above it. *)
Lemma descendants_elements n : ∀ anc anc',
  Bs4.element <$> Bs4.descendants anc n = Bs4.element <$> Bs4.descendants anc' n.
Proof.
  induction n as [s|name attrs contents IH] using node_ind_nested; intros anc anc';
    [done|].
  rewrite !descendants_tag, !fmap_cons. f_equal.
  generalize (Bs4.Tag name attrs contents :: anc) (Bs4.Tag name attrs contents :: anc').
  intros above above'.
  induction IH as [|c contents Hc _ IHcs]; [done|].
  cbn [flat_map]. rewrite !fmap_app. f_equal; [apply Hc | apply IHcs].
Qed.

(** Every ancestor recorded for an element either was given from above or
    has the element strictly below it. *)
Lemma find_parents_inside n : ∀ anc f a,
  f ∈ Bs4.descendants anc n → a ∈ Bs4.find_parents f →
  a ∈ anc ∨ Bs4.element f ∈ Bs4.element <$> tail (Bs4.descendants [] a).
Proof.
  induction n as [s|name attrs contents IH] using node_ind_nested; intros anc f a.
  - intros ->%list_elem_of_singleton. by left.
  - rewrite descendants_tag. intros [->|Hbelow]%elem_of_cons Ha; [by left|].
    set (n := Bs4.Tag name attrs contents) in *.
    assert (∀ anc', Bs4.element f
                    ∈ Bs4.element <$> flat_map (Bs4.descendants anc') contents
            ∧ (a ∈ n :: anc
               ∨ Bs4.element f ∈ Bs4.element <$> tail (Bs4.descendants [] a)))
      as Hin.
    { intros anc'. clearbody n. revert Hbelow.
      induction IH as [|c contents Hc _ IHcs]; [by intros ?%elem_of_nil|].
      cbn [flat_map]. rewrite fmap_app.
      intros [Hhere|Hthere]%elem_of_app.
      - split; [|by apply (Hc _ f a)].
        apply elem_of_app. left. rewrite (descendants_elements c anc' (n :: anc)).
        by apply list_elem_of_fmap_2.
      - destruct (IHcs Hthere) as [Hel Hor]. split; [|done].
        apply elem_of_app. by right. }
    destruct (Hin [n]) as [Hel [[->|Hanc]%elem_of_cons|Hinside]].
    + right. unfold n in *. by rewrite descendants_tag.
    + by left.
    + by right.
Qed.


Lemma heading_without_anchor soup section link :
  Bs4.find_all_a_href section = [] →
  link ∈ Bs4.find_all_a_href soup →
  Bs4.elem_in section (Bs4.find_parents link) = false.
Proof.
  intros Hnone Hlink. unfold Bs4.find_all_a_href in Hlink.
  apply list_elem_of_In, filter_In in Hlink as [Hdesc Hanchor].
  destruct (Bs4.elem_in section (Bs4.find_parents link)) eqn:Hin; [|done].
  apply existsb_exists in Hin as (a & Ha & Heq%node_eqb_eq). subst a.
  assert (link ∈ Bs4.descendants [] soup) as Hbelow.
  { apply list_elem_of_In. destruct (Bs4.descendants [] soup); [done | by right]. }
  destruct (find_parents_inside soup [] link section Hbelow) as [Hroot|Hinside].
  - by apply list_elem_of_In.
  - by apply elem_of_nil in Hroot.
  - apply list_elem_of_fmap in Hinside as (f & Heq & Hf).
    assert (f ∈ Bs4.find_all_a_href section) as Hfound.
    { apply list_elem_of_In, filter_In. split; [by apply list_elem_of_In|].
      by rewrite <- Heq. }
    rewrite Hnone in Hfound. by apply elem_of_nil in Hfound.
Qed.

Lemma get_rba_payments_files_loop_no_stop section links : ∀ valid_files,
  (∀ link, link ∈ links →
           Bs4.elem_in (Bs4.element section) (Bs4.find_parents link) = false) →
  RBA.get_rba_payments_files_loop (Some section) links valid_files
  = valid_files
    ++ (absolute "https://www.rba.gov.au"
        <$> List.filter payments_accepts ((λ link, Bs4.subscript link "href") <$> links)).
Proof.
  induction links as [|link links IH]; intros valid_files Hlinks.
  - by rewrite app_nil_r.
  - cbn [RBA.get_rba_payments_files_loop]. rewrite (Hlinks link) by by left.
    rewrite fmap_cons. cbn [List.filter]. unfold payments_accepts at 1.
    assert (∀ link', link' ∈ links →
      Bs4.elem_in (Bs4.element section) (Bs4.find_parents link') = false) as Hrest
      by (intros link' Hin; apply Hlinks; by right).
    destruct (Bs4.find_parent link); destruct (Py.contains "/xls-disc/" _); simpl;
      try (by apply IH);
      destruct (Py.endswith _ ".xls" || Py.endswith _ ".xlsx"); try (by apply IH);
      rewrite IH by done; by rewrite <- app_assoc.
Qed.

(** C1 fails on the code.  Whenever the paragraph found as the heading of
    the discontinued section holds no anchor of its own, the loop never
    stops: every anchor of the page, before or after the heading, is
    judged by its href alone.  On a page whose heading is followed by the
    list of discontinued tables, the heading is found (fifth element of
    the page), the anchor of the list comes after it (ninth element), and
    its URL is returned. *)
Theorem payments_links_after_heading_are_returned :
  (∀ env w response w' section,
     RBA.fetch_url env RBA.RBA_PAYMENTS_URL 3 5 w = (Ok (Some response), w') →
     ok response = true →
     Bs4.find_p RBA.discontinued_heading (BeautifulSoup env (text response))
     = Some section →
     Bs4.find_all_a_href (Bs4.element section) = [] →
     RBA.get_rba_payments_files env w
     = (Ok (absolute "https://www.rba.gov.au"
            <$> List.filter payments_accepts (hrefs (BeautifulSoup env (text response)))),
        w'))
  ∧ (let env := env_page payments_page_text payments_page_tree in
     let soup := BeautifulSoup env payments_page_text in
     Bs4.element <$> Bs4.find_p RBA.discontinued_heading soup = Some payments_heading
     ∧ Bs4.element <$> tail (Bs4.descendants [] soup) !! 4%nat = Some payments_heading
     ∧ Bs4.element <$> tail (Bs4.descendants [] soup) !! 8%nat
       = Some (anchor "/statistics/tables/xls/c08hist.xls" "C8")
     ∧ RBA.get_rba_payments_files env world0
       = (Ok [ "https://www.rba.gov.au/statistics/tables/xls/c01hist.xlsx";
               "https://www.rba.gov.au/statistics/tables/xls/c08hist.xls" ],
          {| requests := [RBA.RBA_PAYMENTS_URL]; slept := []; disk := ∅ |})).
Proof.
  split; [|repeat split; by vm_compute].
  intros env w response w' section Hrun Hok Hfind Hnone.
  unfold RBA.get_rba_payments_files, mbind, M_bind, mret, M_ret.
  rewrite Hrun, Hok. simpl. rewrite Hfind.
  rewrite get_rba_payments_files_loop_no_stop; [done|].
  intros link Hlink. by eapply heading_without_anchor.
Qed.

Lemma payments_links_after_heading_are_returned_witness :
  RBA.get_rba_payments_files (env_page payments_page_text payments_page_tree) world0
  = (Ok (absolute "https://www.rba.gov.au"
         <$> List.filter payments_accepts
               (hrefs (BeautifulSoup (env_page payments_page_text payments_page_tree)
                         payments_page_text))),
     after_fetch world0 RBA.RBA_PAYMENTS_URL 1 []).
Proof.
  destruct payments_links_after_heading_are_returned as [Hgeneral _].
  apply (Hgeneral (env_page payments_page_text payments_page_tree) world0
           (page 200 payments_page_text) _
           {| Bs4.element := payments_heading;
              Bs4.find_parents :=
                [BeautifulSoup (env_page payments_page_text payments_page_tree)
                   payments_page_text] |}).
  - reflexivity.
  - reflexivity.
  - by vm_compute.
  - reflexivity.
Defined.

(** ** Sources without a link *)

Lemma run_all_survives env w : ∃ w', RunAll.main env w = (Ok tt, w').
Proof.
  unfold RunAll.main, RunAll.main_loop, RunAll.run_script, mbind, M_bind, mret, M_ret,
    time_sleep.
  repeat match goal with
         | |- context [RunAll.python ?e ?script ?w0] =>
             destruct (RunAll.python e script w0) as [? ?]
         end.
  simpl. by eexists.
Qed.

(** C2 fails on the code.  A resolver that matches no anchor does return
    an empty result, and the orchestrator never dies.  But
    [download_file] raises on [None], and the ABS script passes it
    whatever the CPI and labour-force resolvers return, so a resolver that
    finds no link makes the next step raise; when it is the monthly CPI
    resolver, the script dies there.  On a site whose pages hold no anchor
    the script dies after two requests, before the quarterly CPI,
    labour-force and retail pages are fetched, while the orchestrator runs
    the other scripts. *)
Theorem abs_main_dies_without_cpi_link :
  (∀ env w response w',
     ABS.fetch_url env ABS.ABS_CPI_MONTHLY_URL 3 5 w = (Ok (Some response), w') →
     ok response = true →
     (∀ href, href ∈ hrefs (BeautifulSoup env (text response)) →
              Py.contains "Time-Series-Spreadsheets.zip" href = false) →
     ABS.get_abs_cpi_monthly_file env w = (Ok None, w'))
  ∧ (∀ env w, ∃ w', RunAll.main env w = (Ok tt, w'))
  ∧ (∀ env save_folder w,
     ABS.download_file env None save_folder w = (Raise AttributeError, w))
  ∧ (∀ env w w',
       ABS.get_abs_cpi_monthly_file env w = (Ok None, w') →
       (file_url ← ABS.get_abs_cpi_monthly_file env;
        ABS.download_file env file_url (ABS.ABS_FOLDER env)) w
       = (Raise AttributeError, w'))
  ∧ (∀ env w w',
       ABS.get_abs_cpi_quarterly_file env w = (Ok None, w') →
       (file_url ← ABS.get_abs_cpi_quarterly_file env;
        ABS.download_file env file_url (ABS.ABS_FOLDER env)) w
       = (Raise AttributeError, w'))
  ∧ (∀ env w w',
       ABS.get_abs_labour_force_file env w = (Ok None, w') →
       (file_url ← ABS.get_abs_labour_force_file env;
        ABS.download_file env file_url (ABS.ABS_FOLDER env)) w
       = (Raise AttributeError, w'))
  ∧ (∀ env w abs_lending_files w0 w1 w2,
       ABS.get_abs_lending_files env w = (Ok abs_lending_files, w0) →
       ABS.main_lending_loop env (Py.dict_values abs_lending_files) w0 = (Ok tt, w1) →
       ABS.get_abs_cpi_monthly_file env w1 = (Ok None, w2) →
       ABS.main env w = (Raise AttributeError, w2))
  ∧ ABS.get_abs_cpi_monthly_file (env_page empty_page_text empty_page_tree) world0
    = (Ok None, {| requests := [ABS.ABS_CPI_MONTHLY_URL]; slept := []; disk := ∅ |})
  ∧ ABS.main (env_page empty_page_text empty_page_tree) world0
    = (Raise AttributeError,
       {| requests := [ABS.ABS_LENDING_URL; ABS.ABS_CPI_MONTHLY_URL];
          slept := []; disk := ∅ |})
  ∧ RunAll.main (env_page empty_page_text empty_page_tree) world0
    = (Ok tt,
       {| requests := [ABS.ABS_LENDING_URL; ABS.ABS_CPI_MONTHLY_URL; APRA.APRA_URL;
                       NSW.NSW_REVENUE_URL; RBA.RBA_PAYMENTS_URL; RBA.RBA_INTEREST_URL];
          slept := [2]; disk := ∅ |}).
Proof.
  split.
  { intros env w response w' Hrun Hok Hnone.
    unfold ABS.get_abs_cpi_monthly_file, mbind, M_bind, mret, M_ret.
    rewrite Hrun, Hok. simpl. rewrite get_abs_cpi_monthly_file_loop_first.
    by rewrite (proj2 (first_match_None _ _ _)). }
  split; [apply run_all_survives|].
  split; [done|].
  split; [by intros env w w' Hnone; unfold mbind, M_bind; rewrite Hnone|].
  split; [by intros env w w' Hnone; unfold mbind, M_bind; rewrite Hnone|].
  split; [by intros env w w' Hnone; unfold mbind, M_bind; rewrite Hnone|].
  split; [|repeat split; by vm_compute].
  intros env w abs_lending_files w0 w1 w2 Hlending Hloop Hnone.
  unfold ABS.main, mbind, M_bind. by rewrite Hlending, Hloop, Hnone.
Qed.

Lemma abs_main_dies_without_cpi_link_witness :
  ABS.main (env_page empty_page_text empty_page_tree) world0
  = (Raise AttributeError,
     after_fetch (after_fetch world0 ABS.ABS_LENDING_URL 1 []) ABS.ABS_CPI_MONTHLY_URL 1 []).
Proof.
  destruct abs_main_dies_without_cpi_link as (_ & _ & _ & _ & _ & _ & Hmain & _).
  apply (Hmain (env_page empty_page_text empty_page_tree) world0 []
           (after_fetch world0 ABS.ABS_LENDING_URL 1 [])
           (after_fetch world0 ABS.ABS_LENDING_URL 1 [])).
  - reflexivity.
  - reflexivity.
  - reflexivity.
Defined.

(** * Further properties of the scripts *)

(** ** What the scripts leave behind *)

Lemma extends_refl w : extends w w.
Proof. by repeat split. Qed.

Lemma extends_trans w1 w2 w3 : extends w1 w2 → extends w2 w3 → extends w1 w3.
Proof.
  intros (Hr1 & Hs1 & Hd1) (Hr2 & Hs2 & Hd2). repeat split.
  - by etrans.
  - by etrans.
  - intros path Hpath. by apply Hd2, Hd1.
Qed.

Lemma grows_ret {A} (a : A) : grows (mret a).
Proof. intros w r w' [= _ <-]. apply extends_refl. Qed.

Lemma grows_raise {A} e : grows (raise (A := A) e).
Proof. intros w r w' [= _ <-]. apply extends_refl. Qed.

Lemma grows_bind {A B} (m : M A) (f : A → M B) :
  grows m → (∀ a, grows (f a)) → grows (m ≫= f).
Proof.
  intros Hm Hf w r w'. unfold mbind, M_bind.
  destruct (m w) as [[a|e] w1] eqn:Hrun.
  - intros Hrest. eapply extends_trans; [by eapply Hm | by eapply Hf].
  - intros [= _ <-]. by eapply Hm.
Qed.

Lemma grows_try {A} (body handler : M A) :
  grows body → grows handler → grows (try_except_RequestException body handler).
Proof.
  intros Hbody Hhandler w r w'. unfold try_except_RequestException.
  destruct (body w) as [[a|e] w1] eqn:Hrun.
  - intros [= _ <-]. by eapply Hbody.
  - destruct e; try (intros [= _ <-]; by eapply Hbody).
    intros Hrest. eapply extends_trans; [by eapply Hbody | by eapply Hhandler].
Qed.

Lemma grows_requests_get env url : grows (requests_get env url).
Proof.
  intros w r w'. unfold requests_get.
  destruct (network env _ url); intros [= _ <-]; (split; [by eexists | done]).
Qed.

Lemma grows_time_sleep secs : grows (time_sleep secs).
Proof.
  intros w r w'. unfold time_sleep. destruct (secs <? 0); intros [= _ <-].
  - apply extends_refl.
  - split; [done|]. split; [by eexists | done].
Qed.

Lemma grows_write_file env path bytes : grows (write_file env path bytes).
Proof.
  intros w r w'. unfold write_file. destruct (writable env path); intros [= _ <-].
  - repeat split; [done..|]. cbn [disk]. intros p Hp.
    destruct (decide (path = p)) as [->|Hne].
    + rewrite lookup_insert_eq. by eexists.
    + by rewrite lookup_insert_ne.
  - apply extends_refl.
Qed.

Lemma grows_read_file path : grows (read_file path).
Proof. intros w r w' [= _ <-]. apply extends_refl. Qed.

Create HintDb grows.

Ltac split_ands := repeat match goal with |- _ ∧ _ => split end.

Ltac grows_step :=
  lazymatch goal with
  | |- grows (mret _) => apply grows_ret
  | |- grows (raise _) => apply grows_raise
  | |- grows (requests_get _ _) => apply grows_requests_get
  | |- grows (time_sleep _) => apply grows_time_sleep
  | |- grows (write_file _ _ _) => apply grows_write_file
  | |- grows (read_file _) => apply grows_read_file
  | |- grows (try_except_RequestException _ _) => apply grows_try
  | |- grows (_ ≫= _) => apply grows_bind; [|intros ?]
  | |- grows (match ?x with _ => _ end) => destruct x
  | |- grows _ => solve [auto with grows]
  end.

Ltac grows_tac := repeat (cbv zeta; grows_step); try done.

Lemma grows_fetch_url env url retries : ∀ wait, grows (RBA.fetch_url env url retries wait).
Proof.
  unfold RBA.fetch_url. induction retries as [|n IH]; intros wait.
  - apply grows_ret.
  - cbn [RBA.fetch_url_loop]. grows_tac.
Qed.

Lemma grows_fetch_url_ABS env url retries wait :
  grows (ABS.fetch_url env url retries wait).
Proof. exact (grows_fetch_url env url retries wait). Qed.

Lemma grows_fetch_url_APRA env url retries wait :
  grows (APRA.fetch_url env url retries wait).
Proof. exact (grows_fetch_url env url retries wait). Qed.

Lemma grows_fetch_url_NSW env url retries wait :
  grows (NSW.fetch_url env url retries wait).
Proof. exact (grows_fetch_url env url retries wait). Qed.

#[local] Hint Resolve grows_fetch_url grows_fetch_url_ABS grows_fetch_url_APRA
  grows_fetch_url_NSW : grows.

Lemma grows_download_file env file_url save_folder :
  grows (ABS.download_file env file_url save_folder)
  ∧ grows (RBA.download_file env file_url save_folder)
  ∧ grows (APRA.download_file env file_url save_folder)
  ∧ grows (NSW.download_file env file_url save_folder).
Proof.
  split_ands;
    unfold ABS.download_file, RBA.download_file, APRA.download_file, NSW.download_file;
    grows_tac.
Qed.

Lemma grows_download_file_ABS env file_url save_folder :
  grows (ABS.download_file env file_url save_folder).
Proof. apply grows_download_file. Qed.

Lemma grows_download_file_RBA env file_url save_folder :
  grows (RBA.download_file env file_url save_folder).
Proof. apply grows_download_file. Qed.

Lemma grows_download_file_APRA env file_url save_folder :
  grows (APRA.download_file env file_url save_folder).
Proof. apply grows_download_file. Qed.

Lemma grows_download_file_NSW env file_url save_folder :
  grows (NSW.download_file env file_url save_folder).
Proof. apply grows_download_file. Qed.

#[local] Hint Resolve grows_download_file_ABS grows_download_file_RBA
  grows_download_file_APRA grows_download_file_NSW : grows.

Lemma grows_extract_zip env zip_path extract_folder :
  grows (ABS.extract_zip env zip_path extract_folder).
Proof.
  unfold ABS.extract_zip. grows_tac.
  generalize (Zip.namelist l). intros names.
  induction names as [|name names IH]; cbn [ABS.extract_zip_loop]; grows_tac.
  unfold Zip.extract. grows_tac.
Qed.

#[local] Hint Resolve grows_extract_zip : grows.

Lemma grows_resolvers env :
  grows (ABS.get_abs_lending_files env)
  ∧ grows (ABS.get_abs_cpi_monthly_file env)
  ∧ grows (ABS.get_abs_cpi_quarterly_file env)
  ∧ grows (ABS.get_abs_labour_force_file env)
  ∧ grows (ABS.get_abs_retail_trade_file env)
  ∧ grows (RBA.get_rba_payments_files env)
  ∧ grows (RBA.get_rba_interest_files env)
  ∧ grows (APRA.get_apra_file env)
  ∧ grows (NSW.get_nsw_revenue_file env).
Proof.
  split_ands;
    unfold ABS.get_abs_lending_files, ABS.get_abs_cpi_monthly_file,
      ABS.get_abs_cpi_quarterly_file, ABS.get_abs_labour_force_file,
      ABS.get_abs_retail_trade_file, RBA.get_rba_payments_files,
      RBA.get_rba_interest_files, APRA.get_apra_file, NSW.get_nsw_revenue_file;
    grows_tac.
Qed.

Lemma grows_main_lending_loop env file_urls : grows (ABS.main_lending_loop env file_urls).
Proof. induction file_urls as [|u us IH]; cbn [ABS.main_lending_loop]; grows_tac. Qed.

Lemma grows_main_download_loop env file_urls : grows (RBA.main_download_loop env file_urls).
Proof. induction file_urls as [|u us IH]; cbn [RBA.main_download_loop]; grows_tac. Qed.

#[local] Hint Resolve grows_main_lending_loop grows_main_download_loop : grows.

Lemma grows_mains env :
  grows (ABS.main env) ∧ grows (RBA.main env) ∧ grows (APRA.main env)
  ∧ grows (NSW.main env).
Proof.
  pose proof (grows_resolvers env) as (? & ? & ? & ? & ? & ? & ? & ? & ?).
  split_ands; unfold ABS.main, RBA.main, APRA.main, NSW.main; grows_tac.
Qed.

Lemma run_script_grows env script w :
  ∃ w', RunAll.run_script env script w = (Ok tt, w') ∧ extends w w'.
Proof.
  unfold RunAll.run_script. destruct (RunAll.python env script w) as [r w'] eqn:Hrun.
  exists w'. split; [done|]. revert Hrun. generalize w r w'. change (grows (RunAll.python env script)).
  pose proof (grows_mains env) as (? & ? & ? & ?).
  unfold RunAll.python. grows_tac.
Qed.

Lemma run_all_loop_grows env scripts : ∀ w,
  ∃ w', RunAll.main_loop env scripts w = (Ok tt, w') ∧ extends w w'.
Proof.
  induction scripts as [|script scripts IH]; intros w.
  - exists w. split; [done | apply extends_refl].
  - cbn [RunAll.main_loop]. unfold mbind, M_bind.
    destruct (run_script_grows env script w) as (w1 & -> & Hw1).
    destruct (IH w1) as (w2 & -> & Hw2). exists w2. split; [done|].
    by eapply extends_trans.
Qed.

(** X1.  Every script, and the orchestrator, only adds to the world: the
    requests and sleeps made so far stay at the head of the record, and no
    file that exists is ever removed, whether the run ends normally or in
    an exception. *)
Theorem scripts_only_add env :
  grows (ABS.main env) ∧ grows (RBA.main env) ∧ grows (APRA.main env)
  ∧ grows (NSW.main env) ∧ grows (RunAll.main env).
Proof.
  pose proof (grows_mains env) as (? & ? & ? & ?). split_ands; [done..|].
  intros w r w'. unfold RunAll.main, mbind, M_bind.
  destruct (run_all_loop_grows env
              ["ABS_downloader.py"; "APRA_downloader.py"; "NSW_Revenue_downloader.py";
               "RBA_downloader.py"] w) as (w1 & -> & Hw1).
  intros Hsleep. eapply extends_trans; [done|]. by eapply grows_time_sleep.
Qed.

Lemma scripts_only_add_witness :
  extends world_used (ABS.main (env_page empty_page_text empty_page_tree) world_used).2.
Proof.
  destruct (scripts_only_add (env_page empty_page_text empty_page_tree)) as [Habs _].
  apply (Habs world_used
           (ABS.main (env_page empty_page_text empty_page_tree) world_used).1).
  by destruct (ABS.main _ _).
Defined.


(** ** The time spent waiting *)

Lemma fetch_trace_total_sleep outs : ∀ wait res sl g,
  0 ≤ wait →
  fetch_trace outs wait = (res, sl, g) →
  0 ≤ total_sleep sl ≤ wait * (2 ^ Z.of_nat (length outs) - 1).
Proof.
  induction outs as [|o outs IH]; intros wait res sl g Hwait Htrace.
  - injection Htrace as <- <- <-. simpl. lia.
  - assert (1 ≤ 2 ^ Z.of_nat (length outs)) as Hpow by (apply Z.pow_le_mono_r with (b := 0); lia).
    cbn [length]. rewrite Nat2Z.inj_succ, Z.pow_succ_r by lia.
    simpl in Htrace. destruct o as [r|].
    + destruct (RBA.is_blocked r).
      * destruct (fetch_trace outs (wait * 2)) as [[res' sl'] g'] eqn:Ht.
        injection Htrace as <- <- <-. cbn [total_sleep foldr].
        assert (0 ≤ wait * 2) as Hwait' by lia.
        destruct (IH _ _ _ _ Hwait' Ht) as [Hlo Hhi].
        fold (total_sleep sl') in *. nia.
      * injection Htrace as <- <- <-. simpl. nia.
    + destruct (fetch_trace outs wait) as [[res' sl'] g'] eqn:Ht.
      injection Htrace as <- <- <-. cbn [total_sleep foldr].
      destruct (IH _ _ _ _ Hwait Ht) as [Hlo Hhi].
      fold (total_sleep sl') in *. nia.
Qed.

Lemma fetch_trace_all_blocked outs : ∀ wait res sl g,
  Forall (λ o, blocked_outcome o = true) outs →
  fetch_trace outs wait = (res, sl, g) →
  total_sleep sl = wait * (2 ^ Z.of_nat (length outs) - 1).
Proof.
  induction outs as [|o outs IH]; intros wait res sl g Hall Htrace.
  - injection Htrace as <- <- <-. simpl. lia.
  - apply Forall_cons in Hall as [Ho Hall].
    cbn [length]. rewrite Nat2Z.inj_succ, Z.pow_succ_r by lia.
    simpl in Htrace. destruct o as [r|]; [|done]. simpl in Ho. rewrite Ho in Htrace.
    destruct (fetch_trace outs (wait * 2)) as [[res' sl'] g'] eqn:Ht.
    injection Htrace as <- <- <-. cbn [total_sleep foldr].
    fold (total_sleep sl'). rewrite (IH _ _ _ _ Hall Ht). lia.
Qed.

(** X3.  A call of [fetch_url] sends its requests to the given URL only,
    leaves the disk alone and never raises; the time it spends sleeping is
    at most the initial wait times [2^retries - 1], a bound reached when
    every attempt is blocked.  With the arguments the scripts use, that is
    35 seconds. *)
Theorem fetch_url_sleep_budget env url retries wait w :
  0 ≤ wait →
  ∃ res waits gets,
    ABS.fetch_url env url retries wait w = (Ok res, after_fetch w url gets waits)
    ∧ (gets ≤ retries)%nat
    ∧ 0 ≤ total_sleep waits ≤ wait * (2 ^ Z.of_nat retries - 1)
    ∧ ((∀ k, (k < retries)%nat → blocked_outcome (attempt env url w k) = true) →
       total_sleep waits = wait * (2 ^ Z.of_nat retries - 1)).
Proof.
  intros Hwait.
  destruct (fetch_trace (attempt env url w <$> seq 0 retries) wait)
    as [[res waits] gets] eqn:Ht.
  exists res, waits, gets.
  pose proof (fetch_trace_total_sleep _ _ _ _ _ Hwait Ht) as Hsum.
  destruct (fetch_trace_facts _ _ _ _ _ Ht) as (Hg & _ & _).
  rewrite length_fmap, length_seq in Hsum, Hg.
  split; [by apply (fetch_url_loop_trace env url retries wait w)|].
  split; [done|]. split; [done|].
  intros Hall.
  assert (Forall (λ o, blocked_outcome o = true) (attempt env url w <$> seq 0 retries))
    as Hblocked.
  { apply Forall_forall. intros o (k & -> & Hk)%list_elem_of_fmap.
    apply Hall. apply elem_of_seq in Hk. lia. }
  rewrite (fetch_trace_all_blocked _ _ _ _ _ Hblocked Ht).
  by rewrite length_fmap, length_seq.
Qed.

Lemma fetch_url_sleep_budget_witness :
  ∃ res waits gets,
    ABS.fetch_url env_busy ABS.ABS_LENDING_URL 3 5 world0
    = (Ok res, after_fetch world0 ABS.ABS_LENDING_URL gets waits)
    ∧ total_sleep waits ≤ 35.
Proof.
  destruct (fetch_url_sleep_budget env_busy ABS.ABS_LENDING_URL 3 5 world0)
    as (res & waits & gets & Hrun & _ & [_ Hsum] & _); [lia|].
  by exists res, waits, gets.
Defined.

(** ** Downloads *)

Lemma world_eta w : {| requests := requests w; slept := slept w; disk := disk w |} = w.
Proof. by destruct w. Qed.

Lemma download_file_cases env file_url save_folder w :
  ABS.download_file env (Some file_url) save_folder w
  = match attempt env file_url w 0 with
    | Failed => (Raise RequestException, asked w file_url)
    | Responded response =>
        if status_code response =? 200 then
          if writable env (file_path_of save_folder file_url)
          then (Ok (Some (file_path_of save_folder file_url)),
                {| requests := requests w ++ [file_url]; slept := slept w;
                   disk := <[file_path_of save_folder file_url := content response]>
                             (disk w) |})
          else (Raise OSError, asked w file_url)
        else (Ok None, asked w file_url)
    end.
Proof.
  unfold ABS.download_file, attempt, file_path_of, stripped_segment, asked.
  unfold mbind, M_bind, requests_get. rewrite Nat.add_0_r.
  destruct (network env (length (requests w)) file_url) as [response|]; [|done].
  destruct (status_code response =? 200); [|done].
  unfold write_file. cbn [requests slept disk].
  by destruct (writable env _).
Qed.



Lemma os_path_join_absolute a b :
  Py.startswith b "/" = true → Py.os_path_join a b = b.
Proof. unfold Py.os_path_join. by intros ->. Qed.

(** X5.  When the decoded last segment of the URL begins with a slash,
    which an encoded [%2F] produces, the folder is dropped from the path:
    the body is written at the decoded segment itself, outside the folder
    the caller named. *)
Theorem download_file_encoded_slash env file_url save_folder w response :
  Py.startswith (Py.unquote (stripped_segment file_url)) "/" = true →
  attempt env file_url w 0 = Responded response →
  status_code response = 200 →
  writable env (Py.unquote (stripped_segment file_url)) = true →
  ABS.download_file env (Some file_url) save_folder w
  = (Ok (Some (Py.unquote (stripped_segment file_url))),
     {| requests := requests w ++ [file_url]; slept := slept w;
        disk := <[Py.unquote (stripped_segment file_url) := content response]>
                  (disk w) |}).
Proof.
  intros Habs Hnet Hstatus Hwr. rewrite download_file_cases, Hnet.
  unfold file_path_of. rewrite (os_path_join_absolute _ _ Habs), Hwr.
  apply Z.eqb_eq in Hstatus. by rewrite Hstatus.
Qed.

Lemma download_file_encoded_slash_witness :
  ABS.download_file env_files (Some escaping_url) "/home/user/Desktop" world0
  = (Ok (Some "/tmp/Business-Finance.zip"),
     {| requests := [escaping_url]; slept := [];
        disk := {["/tmp/Business-Finance.zip" := "data"]} |}).
Proof.
  by rewrite (download_file_encoded_slash env_files escaping_url "/home/user/Desktop"
                world0 (page 200 "data")).
Defined.

(** X6.  Two downloads into one folder whose URLs end in the same decoded
    file name share one path: when both succeed, the second body replaces
    the first, and only one file is left. *)
Theorem download_same_name_overwrites env url1 url2 save_folder w r1 r2 :
  Py.unquote (stripped_segment url1) = Py.unquote (stripped_segment url2) →
  attempt env url1 w 0 = Responded r1 → status_code r1 = 200 →
  attempt env url2 w 1 = Responded r2 → status_code r2 = 200 →
  writable env (file_path_of save_folder url1) = true →
  (ABS.download_file env (Some url1) save_folder;;
   ABS.download_file env (Some url2) save_folder) w
  = (Ok (Some (file_path_of save_folder url1)),
     {| requests := requests w ++ [url1; url2]; slept := slept w;
        disk := <[file_path_of save_folder url1 := content r2]> (disk w) |}).
Proof.
  intros Hname Hnet1 Hs1 Hnet2 Hs2 Hwr.
  assert (file_path_of save_folder url2 = file_path_of save_folder url1) as Hpath.
  { unfold file_path_of. by rewrite Hname. }
  unfold mbind at 1. unfold M_bind. rewrite download_file_cases, Hnet1.
  apply Z.eqb_eq in Hs1, Hs2. rewrite Hs1, Hwr.
  rewrite download_file_cases. unfold attempt in *. cbn [requests slept disk].
  rewrite length_app. cbn [length]. rewrite Nat.add_0_r, Hnet2, Hs2, Hpath, Hwr.
  by rewrite insert_insert_eq, <- app_assoc.
Qed.

Lemma download_same_name_overwrites_witness :
  (ABS.download_file env_two_archives
     (Some "https://www.abs.gov.au/cpi/All-Time-Series-Spreadsheets.zip") "out";;
   ABS.download_file env_two_archives
     (Some "https://www.abs.gov.au/retail/All-Time-Series-Spreadsheets.zip") "out") world0
  = (Ok (Some "out/All-Time-Series-Spreadsheets.zip"),
     {| requests := [ "https://www.abs.gov.au/cpi/All-Time-Series-Spreadsheets.zip";
                      "https://www.abs.gov.au/retail/All-Time-Series-Spreadsheets.zip" ];
        slept := [];
        disk := {["out/All-Time-Series-Spreadsheets.zip" := "retail trade"]} |}).
Proof.
  by rewrite (download_same_name_overwrites env_two_archives
                "https://www.abs.gov.au/cpi/All-Time-Series-Spreadsheets.zip"
                "https://www.abs.gov.au/retail/All-Time-Series-Spreadsheets.zip"
                "out" world0 (page 200 "quarterly CPI") (page 200 "retail trade")).
Defined.

(** ** Extraction *)

Lemma extract_zip_loop_frame env zip_ref folder names : ∀ w r w',
  (∀ name, name ∈ names → is_Some (Zip.getinfo zip_ref name)) →
  ABS.extract_zip_loop env zip_ref names folder w = (r, w') →
  requests w' = requests w ∧ slept w' = slept w ∧ (r = Ok tt ∨ r = Raise OSError).
Proof.
  induction names as [|name names IH]; intros w r w' Hinfo.
  - intros [= <- <-]. by split_ands; [..|left].
  - cbn [ABS.extract_zip_loop]. unfold mbind, M_bind.
    destruct (Hinfo name) as [info Hname]; [by left|].
    assert (∀ n, n ∈ names → is_Some (Zip.getinfo zip_ref n)) as Hinfo'.
    { intros n Hn. apply Hinfo. by right. }
    destruct (Py.endswith name ".xlsx" || Py.endswith name ".xls").
    + unfold Zip.extract. rewrite Hname.
      destruct (Py.endswith name "/").
      * apply (IH _ _ _ Hinfo').
      * unfold write_file. destruct (writable env _).
        -- intros Hrest. by destruct (IH _ _ _ Hinfo' Hrest) as (-> & -> & ?).
        -- intros [= <- <-]. by split_ands; [..|right].
    + apply (IH _ _ _ Hinfo').
Qed.

Lemma extracted_frame zip_ref folder names d path :
  is_spreadsheet path = false →
  extracted zip_ref names folder d !! path = d !! path.
Proof.
  intros Hpath. apply extracted_untouched. intros name _ Hname <-.
  by rewrite (extract_target_spreadsheet _ _ Hname) in Hpath.
Qed.

Lemma extract_zip_effects env zip_path extract_folder w r w' :
  ABS.extract_zip env zip_path extract_folder w = (r, w') →
  requests w' = requests w ∧ slept w' = slept w
  ∧ (r = Ok tt ∨ r = Raise OSError)
  ∧ ∀ path, is_spreadsheet path = false → disk w' !! path = disk w !! path.
Proof.
  intros Hrun.
  destruct (extract_zip_disk _ _ _ _ _ _ Hrun) as [Hd|(zr & names & Hd)].
  2: pose proof (λ path Hp, extracted_frame zr extract_folder names (disk w) path Hp)
       as Hfr.
  all: revert Hrun; unfold ABS.extract_zip.
  all: destruct zip_path as [path|]; [|by intros [= <- <-]; split_ands; [..|left|]].
  all: destruct (String.eqb path ""); [by intros [= <- <-]; split_ands; [..|left|]|].
  all: unfold mbind at 1; unfold M_bind, read_file.
  all: destruct (disk w !! path ≫= zip_reader env) as [zip_ref|];
         [|by intros [= <- <-]; split_ands; [..|left|]].
  all: intros Hloop.
  all: destruct (extract_zip_loop_frame env zip_ref extract_folder _ _ _ _
                   (λ name Hn, getinfo_namelist zip_ref name Hn) Hloop)
         as (Hreq & Hsl & Hres).
  all: split_ands; try done.
  - intros path' _. by rewrite Hd.
  - intros path' Hp. by rewrite Hd, Hfr.
Qed.



(** ** What the resolvers return *)

Lemma absolute_http origin href :
  Py.startswith origin "http" = true →
  Py.startswith (absolute origin href) "http" = true.
Proof.
  intros [r ->]%str_startswith_spec. unfold absolute.
  destruct (Py.startswith href "http") eqn:Hhref; [done|].
  apply str_startswith_spec. exists (r +:+ href). by rewrite str_app_assoc.
Qed.

Lemma get_rba_payments_files_loop_cut section before link after : ∀ valid_files,
  (∀ l, l ∈ before → in_section section l = false) →
  in_section section link = true →
  RBA.get_rba_payments_files_loop section (before ++ link :: after) valid_files
  = valid_files
    ++ (absolute "https://www.rba.gov.au"
        <$> List.filter payments_accepts ((λ l, Bs4.subscript l "href") <$> before)).
Proof.
  induction before as [|l before IH]; intros valid_files Hbefore Hlink.
  - cbn [app RBA.get_rba_payments_files_loop]. fold (in_section section link).
    rewrite Hlink. by rewrite app_nil_r.
  - cbn [app RBA.get_rba_payments_files_loop]. fold (in_section section l).
    rewrite (Hbefore l) by by left.
    rewrite fmap_cons. cbn [List.filter]. unfold payments_accepts at 1.
    assert (∀ l', l' ∈ before → in_section section l' = false) as Hrest
      by (intros l' Hin; apply Hbefore; by right).
    destruct (Py.contains "/xls-disc/" _); simpl; [by apply IH|].
    destruct (Py.endswith _ ".xls" || Py.endswith _ ".xlsx"); [|by apply IH].
    rewrite IH by done. by rewrite <- app_assoc.
Qed.

Lemma get_rba_payments_files_loop_all section links : ∀ valid_files,
  (∀ l, l ∈ links → in_section section l = false) →
  RBA.get_rba_payments_files_loop section links valid_files
  = valid_files
    ++ (absolute "https://www.rba.gov.au"
        <$> List.filter payments_accepts ((λ l, Bs4.subscript l "href") <$> links)).
Proof.
  induction links as [|l links IH]; intros valid_files Hlinks.
  - by rewrite app_nil_r.
  - cbn [RBA.get_rba_payments_files_loop]. fold (in_section section l).
    rewrite (Hlinks l) by by left.
    rewrite fmap_cons. cbn [List.filter]. unfold payments_accepts at 1.
    assert (∀ l', l' ∈ links → in_section section l' = false) as Hrest
      by (intros l' Hin; apply Hlinks; by right).
    destruct (Py.contains "/xls-disc/" _); simpl; [by apply IH|].
    destruct (Py.endswith _ ".xls" || Py.endswith _ ".xlsx"); [|by apply IH].
    rewrite IH by done. by rewrite <- app_assoc.
Qed.

(** X8.  The payments resolver goes through the anchors of the page in
    document order and stops for good at the first anchor that lies inside
    the paragraph found as the heading of the discontinued section: it
    returns the accepted links met before that anchor and nothing after
    it.  When no anchor lies inside such a paragraph, or no such paragraph
    exists, every accepted link of the page is returned. *)
Theorem payments_stops_inside_heading env w response w' :
  RBA.fetch_url env RBA.RBA_PAYMENTS_URL 3 5 w = (Ok (Some response), w') →
  ok response = true →
  let soup := BeautifulSoup env (text response) in
  let section := Bs4.find_p RBA.discontinued_heading soup in
  (∀ before link after,
     Bs4.find_all_a_href soup = before ++ link :: after →
     (∀ l, l ∈ before → in_section section l = false) →
     in_section section link = true →
     RBA.get_rba_payments_files env w
     = (Ok (absolute "https://www.rba.gov.au"
            <$> List.filter payments_accepts
                  ((λ l, Bs4.subscript l "href") <$> before)), w'))
  ∧ ((∀ l, l ∈ Bs4.find_all_a_href soup → in_section section l = false) →
     RBA.get_rba_payments_files env w
     = (Ok (absolute "https://www.rba.gov.au"
            <$> List.filter payments_accepts (hrefs soup)), w')).
Proof.
  intros Hrun Hok soup section.
  unfold RBA.get_rba_payments_files, mbind, M_bind, mret, M_ret.
  rewrite Hrun, Hok. cbn [negb]. fold soup. fold section. split.
  - intros before link after -> Hbefore Hlink.
    by rewrite (get_rba_payments_files_loop_cut section before link after []).
  - intros Hnone. by rewrite (get_rba_payments_files_loop_all section _ []).
Qed.

Lemma payments_stops_inside_heading_witness :
  RBA.get_rba_payments_files (env_page linked_heading_text linked_heading_tree) world0
  = (Ok ["https://www.rba.gov.au/xls/c01hist.xlsx"],
     {| requests := [RBA.RBA_PAYMENTS_URL]; slept := []; disk := ∅ |}).
Proof.
  pose (env := env_page linked_heading_text linked_heading_tree).
  destruct (payments_stops_inside_heading env world0 (page 200 linked_heading_text)
              {| requests := [RBA.RBA_PAYMENTS_URL]; slept := []; disk := ∅ |})
    as [Hcut _]; [reflexivity | reflexivity |].
  apply (Hcut
           [ {| Bs4.element := anchor "/xls/c01hist.xlsx" "C1";
                Bs4.find_parents := [BeautifulSoup env linked_heading_text] |} ]
           {| Bs4.element :=
                anchor "/discontinued.html" "Discontinued payments statistical tables";
              Bs4.find_parents :=
                [ Bs4.Tag "p" ∅
                    [ anchor "/discontinued.html"
                        "Discontinued payments statistical tables" ];
                  BeautifulSoup env linked_heading_text ] |}
           [ {| Bs4.element := anchor "/xls/c08hist.xls" "C8";
                Bs4.find_parents := [BeautifulSoup env linked_heading_text] |} ]).
  - reflexivity.
  - intros l ->%list_elem_of_singleton. by vm_compute.
  - by vm_compute.
Defined.

Lemma get_rba_payments_files_loop_elem section links : ∀ valid_files url,
  url ∈ RBA.get_rba_payments_files_loop section links valid_files →
  url ∈ valid_files
  ∨ ∃ link, link ∈ links
            ∧ payments_accepts (Bs4.subscript link "href") = true
            ∧ url = absolute "https://www.rba.gov.au" (Bs4.subscript link "href").
Proof.
  induction links as [|link links IH]; intros valid_files url; [by left|].
  cbn [RBA.get_rba_payments_files_loop]. fold (in_section section link).
  assert (∀ v, url ∈ RBA.get_rba_payments_files_loop section links v →
               url ∈ v
               ∨ ∃ l, l ∈ link :: links
                      ∧ payments_accepts (Bs4.subscript l "href") = true
                      ∧ url = absolute "https://www.rba.gov.au" (Bs4.subscript l "href"))
    as IH'.
  { intros v [Hin|(l & Hl & Hacc)]%IH; [by left|]. right. exists l. split; [by right|done]. }
  destruct (in_section section link); [by left|].
  destruct (Py.contains "/xls-disc/" _) eqn:Hdisc; [by apply IH'|].
  destruct (Py.endswith _ ".xls" || Py.endswith _ ".xlsx") eqn:Hext; [|by apply IH'].
  intros [[Hin | ->%list_elem_of_singleton]%elem_of_app|Hl]%IH'; [by left| |by right].
  right. exists link. split; [by left|]. unfold payments_accepts. by rewrite Hdisc, Hext.
Qed.

Lemma rba_origin_not_discontinued href :
  Py.contains "/xls-disc/" href = false →
  Py.contains "/xls-disc/" (absolute "https://www.rba.gov.au" href) = false.
Proof.
  intros Hhref. unfold absolute. destruct (Py.startswith href "http"); [done|].
  rewrite !str_app_cons. change ("" +:+ href) with href.
  do 22 (rewrite str_contains_unfold; cbn [Py.startswith Ascii.eqb Bool.eqb]).
  done.
Qed.

Ltac resolver_run resolver env url w :=
  let res := fresh "res" in
  let w' := fresh "w'" in
  let Hrun := fresh "Hrun" in
  let Habs := fresh "Habs" in
  let Hapra := fresh "Hapra" in
  let Hnsw := fresh "Hnsw" in
  destruct (fetch_url_total env url 3 5 w) as (res & w' & Hrun); [lia|];
  pose proof fetch_url_copies as (Habs & Hapra & Hnsw);
  unfold resolver, mbind, M_bind, mret, M_ret;
  rewrite ?Habs, ?Hapra, ?Hnsw, Hrun; clear Habs Hapra Hnsw;
  destruct res as [response|];
    [destruct (ok response) eqn:Hok; cbn [negb]|].

(** X9.  The payments resolver never raises, and every URL it returns
    ends in [.xls] or [.xlsx], starts with [http] and is free of
    [/xls-disc/], the folder of the discontinued tables. *)
Theorem payments_never_returns_discontinued env w :
  ∃ urls w',
    RBA.get_rba_payments_files env w = (Ok urls, w')
    ∧ ∀ url, url ∈ urls →
        Py.contains "/xls-disc/" url = false
        ∧ (Py.endswith url ".xls" = true ∨ Py.endswith url ".xlsx" = true)
        ∧ Py.startswith url "http" = true.
Proof.
  resolver_run RBA.get_rba_payments_files env RBA.RBA_PAYMENTS_URL w.
  2, 3: by exists [], w'; split; [|intros url ?%elem_of_nil].
  eexists _, w'. split; [done|]. intros url Hurl.
  apply get_rba_payments_files_loop_elem in Hurl
    as [?%elem_of_nil|(link & _ & Hacc & ->)]; [done|].
  unfold payments_accepts in Hacc.
  apply andb_true_iff in Hacc as [Hdisc%negb_true_iff Hext%orb_true_iff].
  split; [by apply rba_origin_not_discontinued|].
  split; [|by apply absolute_http].
  destruct Hext as [Hext|Hext]; [left|right]; by apply absolute_endswith.
Qed.

Lemma first_match_result accept origin hs :
  first_hit_result accept origin hs (first_match accept origin hs).
Proof.
  induction hs as [|h hs IH]; cbn [first_match].
  - by intros h ?%elem_of_nil.
  - destruct (accept h) eqn:Hacc.
    + exists [], h, hs. split_ands; try done. by intros h' ?%elem_of_nil.
    + destruct (first_match accept origin hs) as [url|].
      * destruct IH as (before & href & after & -> & Hbefore & Hhref & ->).
        exists (h :: before), href, after. split_ands; try done.
        intros h' [->|Hin]%elem_of_cons; [done|by apply Hbefore].
      * intros h' [->|Hin]%elem_of_cons; [done|by apply IH].
Qed.

Ltac first_hit_tac resolver url loop_first :=
  intros env w; resolver_run resolver env url w;
  [ match goal with
    | Hok : ok ?r = true |- _ =>
        eexists (Some r), _, _; split; [done|]; split; [done|];
        rewrite Hok, loop_first; apply first_match_result
    end
  | match goal with
    | Hok : ok ?r = false |- _ =>
        eexists (Some r), _, None; split; [done|]; split; [done|]; by rewrite Hok
    end
  | eexists None, _, None; split; [done|]; by split ].

(** X10.  Each of the four single-file resolvers of the ABS script
    returns the first anchor of its page, in document order, whose href
    passes its test, made absolute; it returns [None] exactly when no href
    passes, the page could not be fetched or the answer was an error page.
    The tests: the monthly CPI name occurs; one of the two quarterly CPI
    names occurs; the labour force prefix occurs and the href ends in
    [.xlsx]; the retail trade name occurs. *)
Theorem abs_single_file_resolvers :
  first_hit_resolver ABS.fetch_url ABS.ABS_CPI_MONTHLY_URL ABS.get_abs_cpi_monthly_file
    (Py.contains "Time-Series-Spreadsheets.zip") "https://www.abs.gov.au"
  ∧ first_hit_resolver ABS.fetch_url ABS.ABS_CPI_QUARTERLY_URL
      ABS.get_abs_cpi_quarterly_file
      (λ href, Py.contains "All-Time-Series-Spreadsheets.zip" href
               || Py.contains "Time-series-spreadsheets-all.zip" href)
      "https://www.abs.gov.au"
  ∧ first_hit_resolver ABS.fetch_url ABS.ABS_LABOUR_FORCE_URL
      ABS.get_abs_labour_force_file
      (λ href, Py.contains "6202001" href && Py.endswith href ".xlsx")
      "https://www.abs.gov.au"
  ∧ first_hit_resolver ABS.fetch_url ABS.ABS_RETAIL_TRADE_URL
      ABS.get_abs_retail_trade_file
      (Py.contains "All-Time-Series-Spreadsheets.zip") "https://www.abs.gov.au".
Proof.
  split_ands.
  - first_hit_tac ABS.get_abs_cpi_monthly_file ABS.ABS_CPI_MONTHLY_URL
      get_abs_cpi_monthly_file_loop_first.
  - first_hit_tac ABS.get_abs_cpi_quarterly_file ABS.ABS_CPI_QUARTERLY_URL
      get_abs_cpi_quarterly_file_loop_first.
  - first_hit_tac ABS.get_abs_labour_force_file ABS.ABS_LABOUR_FORCE_URL
      get_abs_labour_force_file_loop_first.
  - first_hit_tac ABS.get_abs_retail_trade_file ABS.ABS_RETAIL_TRADE_URL
      get_abs_retail_trade_file_loop_first.
Qed.

(** X11.  The NSW Revenue resolver returns the first anchor of the page
    whose href contains the target file name, made absolute, and [None]
    exactly when there is none, the page could not be fetched or the
    answer was an error page. *)
Theorem nsw_revenue_resolver :
  first_hit_resolver NSW.fetch_url NSW.NSW_REVENUE_URL NSW.get_nsw_revenue_file
    (Py.contains "transfer-duty-land-related-dsd-001.xlsx")
    "https://www.revenue.nsw.gov.au".
Proof.
  first_hit_tac NSW.get_nsw_revenue_file NSW.NSW_REVENUE_URL
    get_nsw_revenue_file_loop_first.
Qed.

(** ** The link text test of the APRA resolver *)

Lemma lstrip_keeps l c t :
  Py.isspace c = false → ∃ l', Py.lstrip (l +:+ String c t) = l' +:+ String c t.
Proof.
  intros Hc. induction l as [|a l IH].
  - exists "". change ("" +:+ String c t) with (String c t). cbn [Py.lstrip].
    by rewrite Hc.
  - rewrite str_app_cons. cbn [Py.lstrip]. destruct (Py.isspace a); [done|].
    exists (String a l). by rewrite str_app_cons.
Qed.

Lemma rstrip_cons_nonspace c r :
  Py.isspace c = false → Py.rstrip (String c r) = String c (Py.rstrip r).
Proof. intros Hc. cbn [Py.rstrip]. destruct (Py.rstrip r); by rewrite ?Hc. Qed.

Lemma rstrip_keeps t c r :
  Py.isspace c = false →
  Py.rstrip (t +:+ String c r) = t +:+ String c (Py.rstrip r).
Proof.
  intros Hc. induction t as [|a t IH].
  - change ("" +:+ ?s) with s. by apply rstrip_cons_nonspace.
  - rewrite !str_app_cons. cbn [Py.rstrip]. rewrite IH.
    destruct t as [|b t]; [change ("" +:+ ?s) with s | rewrite str_app_cons]; done.
Qed.

Lemma lstrip_suffix s : ∃ a, s = a +:+ Py.lstrip s.
Proof.
  induction s as [|c s [a IH]]; [by exists ""|].
  cbn [Py.lstrip]. destruct (Py.isspace c); [|by exists ""].
  exists (String c a). by rewrite str_app_cons, <- IH.
Qed.

Lemma rstrip_prefix s : ∃ b, s = Py.rstrip s +:+ b.
Proof.
  induction s as [|c s [b IH]]; [by exists ""|].
  cbn [Py.rstrip]. destruct (Py.rstrip s) as [|d t] eqn:Hr.
  - change ("" +:+ b) with b in IH. subst b. destruct (Py.isspace c).
    + by exists (String c s).
    + exists s. by rewrite str_app_cons.
  - exists b. by rewrite str_app_cons, <- IH.
Qed.

Lemma strip_keeps l r c1 m1 c2 :
  Py.isspace c1 = false → Py.isspace c2 = false →
  ∃ l' r', Py.strip (l +:+ (String c1 m1 +:+ String c2 "") +:+ r)
           = l' +:+ (String c1 m1 +:+ String c2 "") +:+ r'.
Proof.
  intros H1 H2. unfold Py.strip.
  rewrite str_app_assoc, str_app_cons.
  destruct (lstrip_keeps l c1 (m1 +:+ String c2 "" +:+ r) H1) as [l' ->].
  exists l', (Py.rstrip r).
  rewrite (str_app_assoc (String c1 m1)), (str_app_cons c1).
  change (String c2 "" +:+ ?s) with (String c2 s).
  rewrite <- (str_app_cons c1), <- !str_app_assoc.
  rewrite (rstrip_keeps _ _ _ H2). by rewrite !str_app_assoc, !str_app_cons.
Qed.

Lemma lower_ascii_nonspace c d :
  Py.lower_ascii c = d → Py.isspace d = false → Py.isspace c = false.
Proof.
  intros <-. destruct c as [[] [] [] [] [] [] [] []]; vm_compute; congruence.
Qed.

Lemma back_series_spec s :
  Py.contains "back-series" (Py.lower (Py.strip s)) = true
  ↔ ∃ l m r, s = l +:+ m +:+ r ∧ Py.lower m = "back-series".
Proof.
  split.
  - intros (l' & r' & Hlow)%str_contains_spec.
    apply str_lower_split in Hlow as (s1 & s2 & Hs & _ & Hlow).
    apply str_lower_split in Hlow as (m & s3 & -> & Hm & _).
    destruct (lstrip_suffix s) as [a Ha]. destruct (rstrip_prefix (Py.lstrip s)) as [b Hb].
    fold (Py.strip s) in Hb. rewrite Hs in Hb.
    exists (a +:+ s1), m, (s3 +:+ b). split; [|done].
    by rewrite Ha, Hb, !str_app_assoc.
  - intros (l & m & r & -> & Hm).
    assert (Py.lower m = "back-serie" +:+ "s") as Hsplit by done.
    apply str_lower_split in Hsplit as (ma & mb & -> & Ha & Hb).
    destruct ma as [|c1 m1]; [done|]. destruct mb as [|c2 [|]]; [done| |done].
    cbn [Py.lower] in Ha, Hb. injection Ha as Hc1 _. injection Hb as Hc2.
    destruct (strip_keeps l r c1 m1 c2) as (l' & r' & ->).
    { by apply (lower_ascii_nonspace _ _ Hc1). }
    { by apply (lower_ascii_nonspace _ _ Hc2). }
    apply str_contains_spec. exists (Py.lower l'), (Py.lower r').
    by rewrite (str_lower_app l'), (str_lower_app _ r'), Hm.
Qed.

Lemma get_apra_file_loop_result links :
  apra_result links (APRA.get_apra_file_loop links).
Proof.
  induction links as [|link links IH]; cbn [APRA.get_apra_file_loop].
  - by intros l ?%elem_of_nil.
  - fold (apra_accepts link). destruct (apra_accepts link) eqn:Hacc.
    + exists [], link, links. split_ands; try done. by intros l ?%elem_of_nil.
    + destruct (APRA.get_apra_file_loop links) as [url|].
      * destruct IH as (before & l & after & -> & Hbefore & Hl & ->).
        exists (link :: before), l, after. split_ands; try done.
        intros l' [->|Hin]%elem_of_cons; [done|by apply Hbefore].
      * intros l' [->|Hin]%elem_of_cons; [done|by apply IH].
Qed.


(** ** The resolvers and the world *)

Lemma dict_set_values {V} (d : Py.dict V) k v v' :
  v' ∈ Py.dict_values (Py.dict_set d k v) → v' = v ∨ v' ∈ Py.dict_values d.
Proof.
  unfold Py.dict_values. induction d as [|[k0 v0] d IH]; cbn [Py.dict_set map snd].
  - intros ->%list_elem_of_singleton. by left.
  - destruct (String.eqb k0 k); cbn [map snd].
    + intros [->|Hin]%elem_of_cons; [by left|]. right. by right.
    + intros [->|Hin]%elem_of_cons; [right; by left|].
      destruct (IH Hin) as [->|Hd]; [by left|]. right. by right.
Qed.

Lemma exact_set_loop_values targets origin hs : ∀ d url,
  url ∈ Py.dict_values (exact_set_loop targets origin hs d) →
  url ∈ Py.dict_values d ∨ ∃ href, href ∈ hs ∧ url = absolute origin href.
Proof.
  induction hs as [|h hs IH]; intros d url; [by left|].
  cbn [exact_set_loop]. intros [Hin|(href & Hin & ->)]%IH.
  - destruct (Py.dict_has targets (stripped_segment h)); [|by left].
    apply dict_set_values in Hin as [->|Hin]; [|by left].
    right. exists h. split; [by left|done].
  - right. exists href. split; [by right|done].
Qed.

Ltac resolves_tac resolver url :=
  let env := fresh "env" in
  let w := fresh "w" in
  let res := fresh "res" in
  let waits := fresh "waits" in
  let gets := fresh "gets" in
  let Hrun := fresh "Hrun" in
  let Hgets := fresh "Hgets" in
  let Habs := fresh "Habs" in
  let Hapra := fresh "Hapra" in
  let Hnsw := fresh "Hnsw" in
  intros env w;
  destruct (fetch_url_run env url 3 5 w) as (res & waits & gets & Hrun & Hgets & _);
    [lia|];
  pose proof fetch_url_copies as (Habs & Hapra & Hnsw);
  unfold resolver, mbind, M_bind, mret, M_ret;
  rewrite ?Habs, ?Hapra, ?Hnsw, Hrun; clear Habs Hapra Hnsw;
  destruct res as [response|]; [destruct (ok response)|]; cbn [negb];
  eexists _, gets, waits;
  (split; [reflexivity|]); (split; [done|]);
  try (by intros u ?%elem_of_nil).

Lemma first_match_http accept origin hs u :
  Py.startswith origin "http" = true →
  u ∈ option_list (first_match accept origin hs) → Py.startswith u "http" = true.
Proof.
  intros Horigin. destruct (first_match accept origin hs) as [url|] eqn:Hfirst.
  - intros ->%list_elem_of_singleton.
    apply first_match_Some in Hfirst as (href & _ & _ & ->). by apply absolute_http.
  - by intros ?%elem_of_nil.
Qed.

(** X13.  No resolver ever raises.  Each sends at most three requests,
    all of them to its own page, and leaves the disk alone; every URL it
    returns starts with [http]. *)
Theorem resolvers_stay_on_their_page :
  resolves ABS.get_abs_lending_files ABS.ABS_LENDING_URL Py.dict_values
  ∧ resolves ABS.get_abs_cpi_monthly_file ABS.ABS_CPI_MONTHLY_URL option_list
  ∧ resolves ABS.get_abs_cpi_quarterly_file ABS.ABS_CPI_QUARTERLY_URL option_list
  ∧ resolves ABS.get_abs_labour_force_file ABS.ABS_LABOUR_FORCE_URL option_list
  ∧ resolves ABS.get_abs_retail_trade_file ABS.ABS_RETAIL_TRADE_URL option_list
  ∧ resolves RBA.get_rba_payments_files RBA.RBA_PAYMENTS_URL id
  ∧ resolves RBA.get_rba_interest_files RBA.RBA_INTEREST_URL Py.dict_values
  ∧ resolves APRA.get_apra_file APRA.APRA_URL option_list
  ∧ resolves NSW.get_nsw_revenue_file NSW.NSW_REVENUE_URL option_list.
Proof.
  split_ands.
  - resolves_tac ABS.get_abs_lending_files ABS.ABS_LENDING_URL.
    rewrite get_abs_lending_files_loop_exact.
    intros u [?%elem_of_nil|(href & _ & ->)]%exact_set_loop_values; [done|].
    by apply absolute_http.
  - resolves_tac ABS.get_abs_cpi_monthly_file ABS.ABS_CPI_MONTHLY_URL.
    rewrite get_abs_cpi_monthly_file_loop_first. intros u. by apply first_match_http.
  - resolves_tac ABS.get_abs_cpi_quarterly_file ABS.ABS_CPI_QUARTERLY_URL.
    rewrite get_abs_cpi_quarterly_file_loop_first. intros u. by apply first_match_http.
  - resolves_tac ABS.get_abs_labour_force_file ABS.ABS_LABOUR_FORCE_URL.
    rewrite get_abs_labour_force_file_loop_first. intros u. by apply first_match_http.
  - resolves_tac ABS.get_abs_retail_trade_file ABS.ABS_RETAIL_TRADE_URL.
    rewrite get_abs_retail_trade_file_loop_first. intros u. by apply first_match_http.
  - resolves_tac RBA.get_rba_payments_files RBA.RBA_PAYMENTS_URL.
    intros u [?%elem_of_nil|(link & _ & _ & ->)]%get_rba_payments_files_loop_elem;
      [done|].
    by apply absolute_http.
  - resolves_tac RBA.get_rba_interest_files RBA.RBA_INTEREST_URL.
    rewrite get_rba_interest_files_loop_exact.
    intros u [?%elem_of_nil|(href & _ & ->)]%exact_set_loop_values; [done|].
    by apply absolute_http.
  - resolves_tac APRA.get_apra_file APRA.APRA_URL.
    intros u. pose proof (get_apra_file_loop_result
                            (Bs4.find_all_a_href (BeautifulSoup env (text response))))
      as Hres.
    destruct (APRA.get_apra_file_loop _) as [url|]; [|by intros ?%elem_of_nil].
    intros ->%list_elem_of_singleton.
    destruct Hres as (_ & link & _ & _ & _ & _ & ->). by apply absolute_http.
  - resolves_tac NSW.get_nsw_revenue_file NSW.NSW_REVENUE_URL.
    rewrite get_nsw_revenue_file_loop_first. intros u. by apply first_match_http.
Qed.

(** ** The files of the exact-set resolvers *)

Lemma split_two sep s :
  Py.contains (String sep "") s = true → ∃ p q qs, Py.split sep s = p :: q :: qs.
Proof.
  induction s as [|c s IH]; [done|].
  rewrite str_contains_char_cons. cbn [Py.split]. rewrite (Ascii.eqb_sym c sep).
  destruct (Ascii.eqb sep c); cbn [orb].
  - intros _. destruct (Py.split sep s) as [|q qs] eqn:Hs; [by apply split_nonempty in Hs|].
    by eexists _, _, _.
  - intros (p & q & qs & ->)%IH. by eexists _, _, _.
Qed.

Lemma split_app_last sep a b :
  Py.contains (String sep "") b = true →
  Py.last (Py.split sep (a +:+ b)) = Py.last (Py.split sep b).
Proof.
  intros Hb. induction a as [|c a IH]; [done|].
  rewrite str_app_cons. cbn [Py.split].
  destruct (split_two sep (a +:+ b)) as (p & q & qs & Hs);
    [by apply str_contains_app_r|].
  rewrite <- IH, Hs. by destruct (Ascii.eqb c sep).
Qed.

Lemma stripped_segment_absolute origin href :
  Py.startswith href "http" = true ∨ Py.contains "/" href = true →
  stripped_segment (absolute origin href) = stripped_segment href.
Proof.
  unfold absolute, stripped_segment.
  destruct (Py.startswith href "http"); [done|]. intros [?|Hslash]; [done|].
  by rewrite (split_app_last "/" origin href Hslash).
Qed.

Lemma dict_get_elem {V} (d : Py.dict V) k v :
  NoDup (fst <$> d) → (k, v) ∈ d → Py.dict_get d k = Some v.
Proof.
  induction d as [|[k0 v0] d IH]; [by intros _ ?%elem_of_nil|].
  rewrite fmap_cons. intros [Hk0 Hnd]%NoDup_cons [[= -> ->]|Hin]%elem_of_cons;
    cbn [Py.dict_get fst].
  - by rewrite String.eqb_refl.
  - destruct (String.eqb k0 k) eqn:Heq; [|by apply IH].
    apply str_eqb_true in Heq as ->. destruct Hk0.
    apply list_elem_of_fmap. by exists (k, v).
Qed.

Lemma exact_set_result_size targets origin hs d :
  exact_set_result targets origin hs d → (length d ≤ length targets)%nat.
Proof.
  intros [Hnd Hkeys].
  rewrite <- (length_fmap fst d), <- (length_fmap fst targets).
  apply submseteq_length, NoDup_submseteq; [done|].
  intros k Hk. apply dict_has_keys. apply dict_has_keys in Hk.
  by apply (Hkeys k) in Hk as [Hk _].
Qed.

Lemma exact_set_result_names targets origin hs d save_folder :
  exact_set_result targets origin hs d →
  (∀ href, href ∈ hs →
           Py.startswith href "http" = true ∨ Py.contains "/" href = true) →
  (∀ name, Py.dict_has targets name = true → Py.unquote name = name) →
  ∀ name url, (name, url) ∈ d →
    Py.dict_has targets name = true
    ∧ file_path_of save_folder url = Py.os_path_join save_folder name.
Proof.
  intros [Hnd Hkeys] Hhrefs Hplain name url Hin.
  assert (Py.dict_has targets name = true) as Htarget.
  { apply (Hkeys name). apply dict_has_keys, list_elem_of_fmap. by exists (name, url). }
  split; [done|].
  destruct (Hkeys name) as [_ Hurl].
  destruct (Hurl url (dict_get_elem d name url Hnd Hin))
    as (before & href & after & -> & Hseg & _ & ->).
  unfold file_path_of. rewrite stripped_segment_absolute, Hseg, Hplain; [done..|].
  apply Hhrefs. apply elem_of_app. right. by left.
Qed.

Lemma lending_targets_plain name :
  Py.dict_has ABS.TARGET_ABS_FILES name = true → Py.unquote name = name.
Proof.
  intros Hname%dict_has_keys. cbn in Hname.
  repeat (apply elem_of_cons in Hname as [->|Hname]; [by vm_compute|]).
  by apply elem_of_nil in Hname.
Qed.

Lemma interest_targets_plain name :
  Py.dict_has RBA.TARGET_INTEREST_FILES name = true → Py.unquote name = name.
Proof.
  intros Hname%dict_has_keys. cbn in Hname.
  repeat (apply elem_of_cons in Hname as [->|Hname]; [by vm_compute|]).
  by apply elem_of_nil in Hname.
Qed.



(** ** The download loops *)

Lemma lending_step env file_url w r w' :
  (zip_path ← ABS.download_file env (Some file_url) (ABS.ABS_FOLDER env);
   if truthy zip_path then ABS.extract_zip env zip_path (ABS.ABS_FOLDER env)
   else mret tt) w = (r, w') →
  requests w' = requests w ++ [file_url] ∧ slept w' = slept w
  ∧ (r = Ok tt ∨ r = Raise RequestException ∨ r = Raise OSError).
Proof.
  unfold mbind, M_bind. rewrite download_file_cases.
  destruct (attempt env file_url w 0) as [response|];
    [|by intros [= <- <-]; split_ands; [..|right; left]].
  destruct (status_code response =? 200);
    [|by intros [= <- <-]; split_ands; [..|left]].
  destruct (writable env _); [|by intros [= <- <-]; split_ands; [..|right; right]].
  destruct (truthy _); [|by intros [= <- <-]; split_ands; [..|left]].
  intros (-> & -> & Hres & _)%extract_zip_effects. split_ands; try done.
  destruct Hres as [-> | ->]; auto.
Qed.

Lemma rba_download_step env file_url save_folder w r w' :
  RBA.download_file env (Some file_url) save_folder w = (r, w') →
  requests w' = requests w ++ [file_url] ∧ slept w' = slept w
  ∧ (r = Ok tt ∨ r = Raise RequestException ∨ r = Raise OSError).
Proof.
  destruct download_file_copies as (_ & _ & Hrba). rewrite Hrba.
  unfold mbind, M_bind. rewrite download_file_cases.
  destruct (attempt env file_url w 0) as [response|];
    [|by intros [= <- <-]; split_ands; [..|right; left]].
  destruct (status_code response =? 200);
    [|by intros [= <- <-]; split_ands; [..|left]].
  destruct (writable env _); [|by intros [= <- <-]; split_ands; [..|right; right]].
  by intros [= <- <-]; split_ands; [..|left].
Qed.

Lemma bind_assoc {A B C} (m : M A) (f : A → M B) (g : B → M C) w :
  (m ≫= λ a, f a ≫= g) w = ((m ≫= f) ≫= g) w.
Proof. unfold mbind, M_bind. by destruct (m w) as [[a|e] w1]. Qed.

Lemma in_order_cons file_url file_urls w w1 r w' :
  requests w1 = requests w ++ [file_url] → slept w1 = slept w →
  in_order file_urls w1 r w' → in_order (file_url :: file_urls) w r w'.
Proof.
  intros Hreq Hsl (Hsl' & fetched & rest & -> & Hreq' & Hres).
  split; [congruence|]. exists (file_url :: fetched), rest.
  split; [done|]. split; [by rewrite Hreq', Hreq, <- app_assoc|].
  destruct Hres as [?|[? _]]; [by left|by right].
Qed.

Lemma in_order_raise file_url file_urls w r w' :
  requests w' = requests w ++ [file_url] → slept w' = slept w →
  r = Raise RequestException ∨ r = Raise OSError →
  in_order (file_url :: file_urls) w r w'.
Proof.
  intros Hreq Hsl Hr. split; [done|]. exists [file_url], file_urls.
  split; [done|]. split; [done|]. by right.
Qed.

Lemma main_lending_loop_order env file_urls : ∀ w r w',
  ABS.main_lending_loop env file_urls w = (r, w') → in_order file_urls w r w'.
Proof.
  induction file_urls as [|file_url file_urls IH]; intros w r w'.
  - intros [= <- <-]. split; [done|]. exists [], [].
    split_ands; [done|by rewrite app_nil_r|by left].
  - cbn [ABS.main_lending_loop]. rewrite bind_assoc.
    unfold mbind at 1. unfold M_bind at 1.
    destruct ((ABS.download_file env (Some file_url) (ABS.ABS_FOLDER env) ≫= _) w)
      as [r1 w1] eqn:Hstep.
    apply lending_step in Hstep as (Hreq & Hsl & Hres).
    destruct Hres as [-> | Hraise].
    + intros Hrest%IH. by eapply in_order_cons.
    + destruct Hraise as [-> | ->]; intros [= <- <-]; apply in_order_raise; auto.
Qed.

Lemma main_download_loop_order env file_urls : ∀ w r w',
  RBA.main_download_loop env file_urls w = (r, w') → in_order file_urls w r w'.
Proof.
  induction file_urls as [|file_url file_urls IH]; intros w r w'.
  - intros [= <- <-]. split; [done|]. exists [], [].
    split_ands; [done|by rewrite app_nil_r|by left].
  - cbn [RBA.main_download_loop].
    unfold mbind at 1. unfold M_bind at 1.
    destruct (RBA.download_file env (Some file_url) (RBA.RBA_FOLDER env) w)
      as [r1 w1] eqn:Hstep.
    apply rba_download_step in Hstep as (Hreq & Hsl & Hres).
    destruct Hres as [-> | Hraise].
    + intros Hrest%IH. by eapply in_order_cons.
    + destruct Hraise as [-> | ->]; intros [= <- <-]; apply in_order_raise; auto.
Qed.



Lemma extract_zip_accepted env zip_path extract_folder w :
  (∀ path, writable env path = true) →
  ∃ w', ABS.extract_zip env zip_path extract_folder w = (Ok tt, w').
Proof.
  intros Hwr. unfold ABS.extract_zip.
  destruct zip_path as [path|]; [|by exists w].
  destruct (String.eqb path ""); [by exists w|].
  unfold mbind at 1. unfold M_bind, read_file.
  destruct (disk w !! path ≫= zip_reader env) as [zip_ref|]; [|by exists w].
  rewrite extract_zip_loop_run; [by eexists|by apply getinfo_namelist|done].
Qed.

Lemma in_order_complete file_urls w r w' :
  in_order file_urls w r w' → (∀ e, r ≠ Raise e) →
  r = Ok tt ∧ requests w' = requests w ++ file_urls ∧ slept w' = slept w.
Proof.
  intros (Hsl & fetched & rest & -> & Hreq & [[-> ->]|[[-> | ->] _]]) Hok.
  - by rewrite app_nil_r.
  - by destruct (Hok RequestException).
  - by destruct (Hok OSError).
Qed.

Lemma main_lending_loop_accepted env file_urls : ∀ w,
  (∀ n url, network env n url ≠ Failed) →
  (∀ path, writable env path = true) →
  ∃ w', ABS.main_lending_loop env file_urls w = (Ok tt, w').
Proof.
  intros w Hnet Hwr. revert w.
  induction file_urls as [|file_url file_urls IH]; intros w; [by exists w|].
  cbn [ABS.main_lending_loop]. unfold mbind at 1. unfold M_bind at 1.
  rewrite download_file_cases. unfold attempt.
  destruct (network env _ file_url) as [response|] eqn:Hget; [|by apply Hnet in Hget].
  destruct (status_code response =? 200).
  - rewrite Hwr. unfold mbind at 1. unfold M_bind at 1.
    destruct (truthy _); [|apply IH].
    destruct (extract_zip_accepted env
                (Some (file_path_of (ABS.ABS_FOLDER env) file_url)) (ABS.ABS_FOLDER env)
                {| requests := requests w ++ [file_url]; slept := slept w;
                   disk := <[file_path_of (ABS.ABS_FOLDER env) file_url
                             := content response]> (disk w) |} Hwr) as [w1 ->].
    apply IH.
  - cbn [truthy]. unfold mbind at 1. unfold M_bind at 1. cbn. apply IH.
Qed.

Lemma main_download_loop_accepted env file_urls : ∀ w,
  (∀ n url, network env n url ≠ Failed) →
  (∀ path, writable env path = true) →
  ∃ w', RBA.main_download_loop env file_urls w = (Ok tt, w').
Proof.
  intros w Hnet Hwr. revert w.
  induction file_urls as [|file_url file_urls IH]; intros w; [by exists w|].
  cbn [RBA.main_download_loop]. unfold mbind at 1. unfold M_bind at 1.
  destruct download_file_copies as (_ & _ & Hrba). rewrite Hrba.
  unfold mbind at 1. unfold M_bind at 1.
  rewrite download_file_cases. unfold attempt.
  destruct (network env _ file_url) as [response|] eqn:Hget; [|by apply Hnet in Hget].
  destruct (status_code response =? 200); [rewrite Hwr|]; apply IH.
Qed.



(** ** The exceptions that end a script *)

Lemma raises_only_ret {A} allowed (a : A) : raises_only allowed (mret a).
Proof. by intros w e w'. Qed.

Lemma raises_only_bind {A B} allowed (m : M A) (f : A → M B) :
  raises_only allowed m → (∀ a, raises_only allowed (f a)) →
  raises_only allowed (m ≫= f).
Proof.
  intros Hm Hf w e w'. unfold mbind, M_bind.
  destruct (m w) as [[a|e1] w1] eqn:Hrun.
  - apply Hf.
  - intros [= <- <-]. by eapply Hm.
Qed.

Lemma raises_only_raise {A} allowed e :
  e ∈ allowed → raises_only allowed (raise (A := A) e).
Proof. by intros He w e' w' [= <- _]. Qed.

Lemma raises_only_mono {A} allowed allowed' (m : M A) :
  allowed ⊆ allowed' → raises_only allowed m → raises_only allowed' m.
Proof. intros Hsub Hm w e w' Hrun. apply Hsub. by eapply Hm. Qed.

Lemma raises_only_total {A} (m : M A) :
  (∀ w, ∃ a w', m w = (Ok a, w')) → raises_only [] m.
Proof. intros Hm w e w' Hrun. by destruct (Hm w) as (a & w1 & Heq); rewrite Heq in Hrun. Qed.

Ltac in_list := solve [repeat first [by left | right]].

Ltac sub_list :=
  let x := fresh "x" in
  let Hx := fresh "Hx" in
  intros x Hx;
  repeat (apply elem_of_cons in Hx as [->|Hx]; [in_list|]);
  by apply elem_of_nil in Hx.

Lemma raises_only_download env file_url save_folder :
  raises_only [RequestException; OSError]
    (ABS.download_file env (Some file_url) save_folder).
Proof.
  intros w e w'. rewrite download_file_cases.
  destruct (attempt env file_url w 0) as [response|]; [|intros [= <- _]; in_list].
  destruct (status_code response =? 200); [|done].
  destruct (writable env _); [done|]. intros [= <- _]. in_list.
Qed.

Lemma raises_only_extract_zip env zip_path extract_folder :
  raises_only [RequestException; OSError] (ABS.extract_zip env zip_path extract_folder).
Proof.
  intros w e w' (_ & _ & [?| [= ->]] & _)%extract_zip_effects; [done|]. in_list.
Qed.

Lemma raises_only_lending_loop env file_urls :
  raises_only [RequestException; OSError] (ABS.main_lending_loop env file_urls).
Proof.
  intros w e w' (_ & _ & _ & _ & _ & [[? _]|[[[= ->]|[= ->]] _]])%main_lending_loop_order;
    [done|in_list..].
Qed.

Lemma raises_only_download_loop env file_urls :
  raises_only [RequestException; OSError] (RBA.main_download_loop env file_urls).
Proof.
  intros w e w' (_ & _ & _ & _ & _ & [[? _]|[[[= ->]|[= ->]] _]])%main_download_loop_order;
    [done|in_list..].
Qed.

Ltac total_tac resolver url :=
  apply raises_only_total; intros w;
  let res := fresh "res" in
  let w' := fresh "w'" in
  let Hrun := fresh "Hrun" in
  let Habs := fresh "Habs" in
  let Hapra := fresh "Hapra" in
  let Hnsw := fresh "Hnsw" in
  match goal with
  | |- ∃ a w1, resolver ?env w = _ =>
      destruct (fetch_url_total env url 3 5 w) as (res & w' & Hrun); [lia|];
      pose proof fetch_url_copies as (Habs & Hapra & Hnsw);
      unfold resolver, mbind, M_bind, mret, M_ret;
      rewrite ?Habs, ?Hapra, ?Hnsw, Hrun;
      destruct res as [response|]; [destruct (ok response)|]; by eexists _, _
  end.

Lemma raises_only_resolvers env :
  raises_only [] (ABS.get_abs_lending_files env)
  ∧ raises_only [] (ABS.get_abs_cpi_monthly_file env)
  ∧ raises_only [] (ABS.get_abs_cpi_quarterly_file env)
  ∧ raises_only [] (ABS.get_abs_labour_force_file env)
  ∧ raises_only [] (ABS.get_abs_retail_trade_file env)
  ∧ raises_only [] (RBA.get_rba_payments_files env)
  ∧ raises_only [] (RBA.get_rba_interest_files env)
  ∧ raises_only [] (APRA.get_apra_file env)
  ∧ raises_only [] (NSW.get_nsw_revenue_file env).
Proof.
  split_ands.
  - total_tac ABS.get_abs_lending_files ABS.ABS_LENDING_URL.
  - total_tac ABS.get_abs_cpi_monthly_file ABS.ABS_CPI_MONTHLY_URL.
  - total_tac ABS.get_abs_cpi_quarterly_file ABS.ABS_CPI_QUARTERLY_URL.
  - total_tac ABS.get_abs_labour_force_file ABS.ABS_LABOUR_FORCE_URL.
  - total_tac ABS.get_abs_retail_trade_file ABS.ABS_RETAIL_TRADE_URL.
  - total_tac RBA.get_rba_payments_files RBA.RBA_PAYMENTS_URL.
  - total_tac RBA.get_rba_interest_files RBA.RBA_INTEREST_URL.
  - total_tac APRA.get_apra_file APRA.APRA_URL.
  - total_tac NSW.get_nsw_revenue_file NSW.NSW_REVENUE_URL.
Qed.

Ltac raises_step :=
  lazymatch goal with
  | |- raises_only _ (mret _) => apply raises_only_ret
  | |- raises_only _ (ABS.download_file _ (Some _) _) =>
      eapply raises_only_mono; [|apply raises_only_download];
      sub_list
  | |- raises_only _ (APRA.download_file _ (Some _) _) =>
      eapply raises_only_mono; [|apply raises_only_download];
      sub_list
  | |- raises_only _ (NSW.download_file _ (Some _) _) =>
      eapply raises_only_mono; [|apply raises_only_download];
      sub_list
  | |- raises_only _ (ABS.download_file _ None _) =>
      apply (raises_only_raise _ AttributeError); in_list
  | |- raises_only _ (ABS.download_file _ ?x _) => destruct x
  | |- raises_only _ (ABS.extract_zip _ _ _) =>
      eapply raises_only_mono; [|apply raises_only_extract_zip];
      sub_list
  | |- raises_only _ (ABS.main_lending_loop _ _) =>
      eapply raises_only_mono; [|apply raises_only_lending_loop];
      sub_list
  | |- raises_only _ (RBA.main_download_loop _ _) =>
      eapply raises_only_mono; [|apply raises_only_download_loop];
      sub_list
  | |- raises_only _ (_ ≫= _) => apply raises_only_bind; [|intros ?]
  | |- raises_only _ (if truthy ?x then _ else _) => destruct x as [?|]; cbn [truthy]
  | |- raises_only _ (if ?b then _ else _) => destruct b
  | |- raises_only _ (match ?x with _ => _ end) => destruct x
  | |- raises_only _ _ =>
      eapply raises_only_mono; [|eauto];
      sub_list
  end.



(** ** The cost of a run *)

Lemma total_sleep_app a b : total_sleep (a ++ b) = total_sleep a + total_sleep b.
Proof. unfold total_sleep. induction a as [|x a IH]; cbn [app foldr]; lia. Qed.

Lemma budget_ret {A} (a : A) : budget 0 0 (mret a).
Proof.
  intros w r w' [= <- <-]. exists [], []. rewrite !app_nil_r. by cbn.
Qed.

Lemma budget_raise {A} e : budget 0 0 (raise (A := A) e).
Proof.
  intros w r w' [= <- <-]. exists [], []. rewrite !app_nil_r. by cbn.
Qed.

Lemma budget_mono {A} n s n' s' (m : M A) :
  (n ≤ n')%nat → s ≤ s' → budget n s m → budget n' s' m.
Proof.
  intros Hn Hs Hm w r w' Hrun.
  destruct (Hm w r w' Hrun) as (sent & waits & ? & ? & ? & ?).
  exists sent, waits. split_ands; [done|done|lia|lia|lia].
Qed.

Lemma budget_bind_post {A B} (P : A → Prop) n1 s1 n2 s2 (m : M A) (f : A → M B) :
  0 ≤ s2 →
  budget n1 s1 m →
  (∀ w a w', m w = (Ok a, w') → P a) →
  (∀ a, P a → budget n2 s2 (f a)) →
  budget (n1 + n2) (s1 + s2) (m ≫= f).
Proof.
  intros Hs2 Hm Hpost Hf w r w'. unfold mbind, M_bind.
  destruct (m w) as [[a|e] w1] eqn:Hrun.
  - intros Hrest.
    destruct (Hm _ _ _ Hrun) as (sent1 & waits1 & Hr1 & Hs1 & Hn1 & Ht1).
    destruct (Hf a (Hpost _ _ _ Hrun) _ _ _ Hrest)
      as (sent2 & waits2 & Hr2 & Hsl2 & Hn2 & Ht2).
    exists (sent1 ++ sent2), (waits1 ++ waits2).
    rewrite Hr2, Hr1, Hsl2, Hs1, <- !app_assoc, length_app, total_sleep_app.
    split_ands; [done|done|lia|lia|lia].
  - intros [= <- <-].
    destruct (Hm _ _ _ Hrun) as (sent1 & waits1 & Hr1 & Hs1 & Hn1 & Ht1).
    exists sent1, waits1. split_ands; [done|done|lia|lia|lia].
Qed.

Lemma budget_bind {A B} n1 s1 n2 s2 (m : M A) (f : A → M B) :
  0 ≤ s2 → budget n1 s1 m → (∀ a, budget n2 s2 (f a)) →
  budget (n1 + n2) (s1 + s2) (m ≫= f).
Proof.
  intros Hs2 Hm Hf. by apply (budget_bind_post (λ _, True)).
Qed.

Lemma budget_fetch_url env url : budget 3 35 (RBA.fetch_url env url 3 5).
Proof.
  intros w r w' Hrun.
  destruct (fetch_trace (attempt env url w <$> seq 0 3) 5) as [[res waits] gets] eqn:Ht.
  assert (0 ≤ 5) as Hwait by lia.
  pose proof (fetch_trace_total_sleep _ _ _ _ _ Hwait Ht) as Hsum.
  destruct (fetch_trace_facts _ _ _ _ _ Ht) as (Hg & _ & _).
  rewrite length_fmap, length_seq in Hsum, Hg.
  pose proof (fetch_url_loop_trace env url 3 5 w res waits gets Hwait Ht) as Heq.
  unfold RBA.fetch_url in Hrun. rewrite Heq in Hrun. injection Hrun as <- <-.
  exists (replicate gets url), waits. cbn [after_fetch requests slept].
  rewrite length_replicate. split_ands; [done|done|lia|lia|].
  change (2 ^ Z.of_nat 3) with 8 in Hsum. lia.
Qed.

Lemma budget_download env file_url save_folder :
  budget 1 0 (ABS.download_file env file_url save_folder).
Proof.
  destruct file_url as [file_url|];
    [|apply (budget_mono 0 0); [lia|lia|apply budget_raise]].
  intros w r w'. rewrite download_file_cases. intros Hrun.
  exists [file_url], []. rewrite app_nil_r.
  destruct (attempt env file_url w 0) as [response|];
    [destruct (status_code response =? 200); [destruct (writable env _)|]|];
    injection Hrun as <- <-; by cbn.
Qed.

Lemma budget_extract_zip env zip_path extract_folder :
  budget 0 0 (ABS.extract_zip env zip_path extract_folder).
Proof.
  intros w r w' (-> & -> & _)%extract_zip_effects.
  exists [], []. rewrite !app_nil_r. by cbn.
Qed.

Lemma budget_lending_loop env file_urls :
  budget (length file_urls) 0 (ABS.main_lending_loop env file_urls).
Proof.
  intros w r w' (Hsl & fetched & rest & -> & Hreq & _)%main_lending_loop_order.
  exists fetched, []. rewrite app_nil_r, length_app. split_ands; [done|done|lia|by cbn..].
Qed.

Ltac budget_resolver resolver :=
  let Habs := fresh "Habs" in
  let Hapra := fresh "Hapra" in
  let Hnsw := fresh "Hnsw" in
  pose proof fetch_url_copies as (Habs & Hapra & Hnsw);
  unfold resolver; rewrite ?Habs, ?Hapra, ?Hnsw;
  apply (budget_bind 3 35 0 0); [lia|apply budget_fetch_url|];
  intros [response|]; [destruct (negb (ok response))|]; apply budget_ret.

Lemma budget_resolvers env :
  budget 3 35 (ABS.get_abs_lending_files env)
  ∧ budget 3 35 (ABS.get_abs_cpi_monthly_file env)
  ∧ budget 3 35 (ABS.get_abs_cpi_quarterly_file env)
  ∧ budget 3 35 (ABS.get_abs_labour_force_file env)
  ∧ budget 3 35 (ABS.get_abs_retail_trade_file env)
  ∧ budget 3 35 (APRA.get_apra_file env)
  ∧ budget 3 35 (NSW.get_nsw_revenue_file env).
Proof.
  split_ands.
  - budget_resolver ABS.get_abs_lending_files.
  - budget_resolver ABS.get_abs_cpi_monthly_file.
  - budget_resolver ABS.get_abs_cpi_quarterly_file.
  - budget_resolver ABS.get_abs_labour_force_file.
  - budget_resolver ABS.get_abs_retail_trade_file.
  - budget_resolver APRA.get_apra_file.
  - budget_resolver NSW.get_nsw_revenue_file.
Qed.

Lemma get_abs_lending_files_size env w valid_files w' :
  ABS.get_abs_lending_files env w = (Ok valid_files, w') →
  (length (Py.dict_values valid_files) ≤ 5)%nat.
Proof.
  destruct (fetch_url_total env ABS.ABS_LENDING_URL 3 5 w) as (res & w1 & Hrun); [lia|].
  assert (ABS.fetch_url = RBA.fetch_url) as Hcopy by apply fetch_url_copies.
  unfold ABS.get_abs_lending_files, mbind, M_bind, mret, M_ret.
  rewrite Hcopy, Hrun.
  destruct res as [response|]; [destruct (ok response)|]; cbn [negb];
    intros [= <- _]; cbn; try lia.
  rewrite get_abs_lending_files_loop_exact. unfold Py.dict_values. rewrite length_map.
  apply (exact_set_result_size ABS.TARGET_ABS_FILES "https://www.abs.gov.au"
           (hrefs (BeautifulSoup env (text response)))).
  apply exact_set_loop_result.
Qed.

Lemma budget_single_download env (resolver : M (option string)) save_folder :
  budget 3 35 resolver →
  budget 4 35 (file_url ← resolver; ABS.download_file env file_url save_folder).
Proof.
  intros Hres. apply (budget_bind 3 35 1 0); [lia|done|].
  intros file_url. apply budget_download.
Qed.

(** X18.  A run of the ABS script sends at most 24 requests and sleeps
    at most 175 seconds in all, however it ends; a run of the APRA or of
    the NSW Revenue script sends at most 4 requests and sleeps at most 35
    seconds. *)
Theorem script_budgets env :
  budget 24 175 (ABS.main env)
  ∧ budget 4 35 (APRA.main env)
  ∧ budget 4 35 (NSW.main env).
Proof.
  pose proof (budget_resolvers env) as (Hl & Hm & Hq & Hf & Hr & Ha & Hn).
  destruct download_file_copies as (Hapra & Hnsw & _).
  split_ands.
  - unfold ABS.main.
    apply (budget_bind_post (λ d, (length (Py.dict_values d) ≤ 5)%nat) 3 35 21 140);
      [lia|done|apply get_abs_lending_files_size|].
    intros d Hd.
    apply (budget_bind 5 0 16 140);
      [lia|by apply (budget_mono (length (Py.dict_values d)) 0);
             [lia|lia|apply budget_lending_loop]|].
    intros _.
    apply (budget_bind 4 35 12 105); [lia|by apply budget_single_download|]. intros _.
    apply (budget_bind 4 35 8 70); [lia|by apply budget_single_download|]. intros _.
    apply (budget_bind 4 35 4 35); [lia|by apply budget_single_download|]. intros _.
    apply (budget_bind 3 35 1 0); [lia|done|]. intros retail_trade_file.
    destruct (truthy retail_trade_file); [|apply (budget_mono 0 0); [lia|lia|apply budget_ret]].
    apply (budget_bind 1 0 0 0); [lia|apply budget_download|]. intros zip_path.
    destruct (truthy zip_path); [apply budget_extract_zip|apply budget_ret].
  - unfold APRA.main. rewrite Hapra.
    apply (budget_bind 3 35 1 0); [lia|done|]. intros file_url.
    destruct (truthy file_url); [|apply (budget_mono 0 0); [lia|lia|apply budget_ret]].
    apply (budget_bind 1 0 0 0); [lia|apply budget_download|]. intros _. apply budget_ret.
  - unfold NSW.main. rewrite Hnsw.
    apply (budget_bind 3 35 1 0); [lia|done|]. intros file_url.
    destruct (truthy file_url); [|apply (budget_mono 0 0); [lia|lia|apply budget_ret]].
    apply (budget_bind 1 0 0 0); [lia|apply budget_download|]. intros _. apply budget_ret.
Qed.

Lemma script_budgets_witness :
  ∃ sent waits,
    requests (ABS.main env_busy world0).2 = requests world0 ++ sent
    ∧ slept (ABS.main env_busy world0).2 = slept world0 ++ waits
    ∧ (length sent ≤ 24)%nat ∧ 0 ≤ total_sleep waits ≤ 175.
Proof.
  destruct (script_budgets env_busy) as (Habs & _).
  apply (Habs world0 (ABS.main env_busy world0).1). by destruct (ABS.main _ _).
Defined.

(** ** Runs on a network that answers *)

Lemma served_download env file_url save_folder :
  (∀ n url, network env n url ≠ Failed) →
  (∀ path, writable env path = true) →
  raises_only [AttributeError] (ABS.download_file env file_url save_folder).
Proof.
  intros Hnet Hwr.
  destruct file_url as [file_url|]; [|apply raises_only_raise; in_list].
  intros w e w'. rewrite download_file_cases. unfold attempt.
  destruct (network env _ file_url) as [response|] eqn:Hget; [|by apply Hnet in Hget].
  destruct (status_code response =? 200); [|done]. by rewrite Hwr.
Qed.

Lemma served_download_some env file_url save_folder :
  (∀ n url, network env n url ≠ Failed) →
  (∀ path, writable env path = true) →
  raises_only [] (ABS.download_file env (Some file_url) save_folder).
Proof.
  intros Hnet Hwr.
  intros w e w'. rewrite download_file_cases. unfold attempt.
  destruct (network env _ file_url) as [response|] eqn:Hget; [|by apply Hnet in Hget].
  destruct (status_code response =? 200); [|done]. by rewrite Hwr.
Qed.

Lemma served_extract_zip env zip_path extract_folder :
  (∀ path, writable env path = true) →
  raises_only [] (ABS.extract_zip env zip_path extract_folder).
Proof.
  intros Hwr.
  apply raises_only_total. intros w.
  destruct (extract_zip_accepted env zip_path extract_folder w Hwr) as [w' Hrun].
  by exists tt, w'.
Qed.

Lemma served_lending_loop env file_urls :
  (∀ n url, network env n url ≠ Failed) →
  (∀ path, writable env path = true) →
  raises_only [] (ABS.main_lending_loop env file_urls).
Proof.
  intros Hnet Hwr.
  apply raises_only_total. intros w.
  destruct (main_lending_loop_accepted env file_urls w Hnet Hwr) as [w' Hrun].
  by exists tt, w'.
Qed.

Lemma served_download_loop env file_urls :
  (∀ n url, network env n url ≠ Failed) →
  (∀ path, writable env path = true) →
  raises_only [] (RBA.main_download_loop env file_urls).
Proof.
  intros Hnet Hwr.
  apply raises_only_total. intros w.
  destruct (main_download_loop_accepted env file_urls w Hnet Hwr) as [w' Hrun].
  by exists tt, w'.
Qed.

Ltac served_step :=
  lazymatch goal with
  | |- raises_only _ (mret _) => apply raises_only_ret
  | |- raises_only _ (_ ≫= _) => apply raises_only_bind; [|intros ?]
  | |- raises_only _ (if truthy ?x then _ else _) => destruct x as [?|]; cbn [truthy]
  | |- raises_only _ (if ?b then _ else _) => destruct b
  | |- raises_only _ (match ?x with _ => _ end) => destruct x
  | |- raises_only _ _ =>
      first [ solve [eauto] | eapply raises_only_mono; [|eauto]; sub_list ]
  end.

Lemma raises_only_nil (m : M unit) w :
  raises_only [] m → ∃ w', m w = (Ok tt, w').
Proof.
  intros Hm. destruct (m w) as [[[]|e] w'] eqn:Hrun; [by exists w'|].
  by apply Hm, elem_of_nil in Hrun.
Qed.



(** ** Extracting twice *)

Lemma extracted_lookup_cases zip_ref folder path names :
  (∀ d, extracted zip_ref names folder d !! path = d !! path)
  ∨ (∃ v, ∀ d, extracted zip_ref names folder d !! path = Some v).
Proof.
  induction names as [|name names IH]; [by left|].
  cbn [extracted]. destruct IH as [Hid|[v Hconst]]; [|right; by exists v].
  destruct (is_spreadsheet name); [|by left].
  destruct (Zip.getinfo zip_ref name) as [info|]; [|by left].
  destruct (decide (extract_target folder name = path)) as [<-|Hne].
  - right. exists (data info). intros d. by rewrite Hid, lookup_insert_eq.
  - left. intros d. by rewrite Hid, lookup_insert_ne.
Qed.

Lemma extracted_idempotent zip_ref folder names d :
  extracted zip_ref names folder (extracted zip_ref names folder d)
  = extracted zip_ref names folder d.
Proof.
  apply map_eq. intros path.
  destruct (extracted_lookup_cases zip_ref folder path names) as [Hid|[v Hconst]].
  - by rewrite Hid.
  - by rewrite !Hconst.
Qed.

Lemma extract_zip_loop_done env zip_ref folder names : ∀ w w',
  (∀ name, name ∈ names → is_Some (Zip.getinfo zip_ref name)) →
  ABS.extract_zip_loop env zip_ref names folder w = (Ok tt, w') →
  ∀ name, name ∈ names → is_spreadsheet name = true →
          writable env (extract_target folder name) = true.
Proof.
  induction names as [|name names IH]; intros w w' Hinfo Hrun n Hn Hsheet;
    [by apply elem_of_nil in Hn|].
  revert Hrun. cbn [ABS.extract_zip_loop]. unfold mbind, M_bind.
  destruct (Hinfo name) as [info Hname]; [by left|].
  assert (∀ n', n' ∈ names → is_Some (Zip.getinfo zip_ref n')) as Hinfo'.
  { intros n' Hn'. apply Hinfo. by right. }
  fold (is_spreadsheet name).
  destruct (is_spreadsheet name) eqn:Hext.
  - unfold Zip.extract. rewrite Hname, (is_spreadsheet_not_dir _ Hext).
    unfold write_file. fold (extract_target folder name).
    destruct (writable env (extract_target folder name)) eqn:Hwr; [|done].
    intros Hrest. apply elem_of_cons in Hn as [->|Hn]; [done|].
    by apply (IH _ _ Hinfo' Hrest).
  - intros Hrest. apply elem_of_cons in Hn as [->|Hn]; [congruence|].
    by apply (IH _ _ Hinfo' Hrest).
Qed.

(** X20.  Extracting the same archive a second time changes nothing:
    for an archive whose own path does not end in [.xlsx] or [.xls], two
    calls of [extract_zip] in a row end exactly as one does, with the same
    result and the same files. *)
Theorem extract_zip_twice env zip_path extract_folder w :
  is_spreadsheet zip_path = false →
  (ABS.extract_zip env (Some zip_path) extract_folder;;
   ABS.extract_zip env (Some zip_path) extract_folder) w
  = ABS.extract_zip env (Some zip_path) extract_folder w.
Proof.
  intros Hzip. unfold mbind at 1. unfold M_bind at 1.
  destruct (ABS.extract_zip env (Some zip_path) extract_folder w) as [[[]|e] w1] eqn:Hrun;
    [|done].
  revert Hrun. unfold ABS.extract_zip.
  destruct (String.eqb zip_path "") eqn:Hempty; [by intros [= <-]|].
  unfold mbind at 1 3. unfold M_bind at 1 2. unfold read_file.
  destruct (disk w !! zip_path) as [bytes|] eqn:Hfile; cbn [mbind option_bind];
    [|intros [= <-]; by rewrite Hfile].
  destruct (zip_reader env bytes) as [zip_ref|] eqn:Hread;
    [|intros [= <-]; by rewrite Hfile; cbn; rewrite Hread].
  intros Hloop.
  assert (∀ name, name ∈ Zip.namelist zip_ref → is_Some (Zip.getinfo zip_ref name))
    as Hinfo by apply getinfo_namelist.
  pose proof (extract_zip_loop_done _ _ _ _ _ _ Hinfo Hloop) as Hwr.
  rewrite (extract_zip_loop_run _ _ _ _ _ Hinfo Hwr) in Hloop. injection Hloop as <-.
  cbn [disk]. rewrite extracted_frame, Hfile by done. cbn [mbind option_bind].
  rewrite Hread, (extract_zip_loop_run _ _ _ _ _ Hinfo Hwr). cbn [requests slept disk].
  by rewrite extracted_idempotent.
Qed.

Lemma extract_zip_twice_witness :
  (ABS.extract_zip env_zip (Some "out/archive.zip") "out";;
   ABS.extract_zip env_zip (Some "out/archive.zip") "out") (world_zip "PK flat")
  = ABS.extract_zip env_zip (Some "out/archive.zip") "out" (world_zip "PK flat").
Proof.
  by apply extract_zip_twice.
Defined.

(** ** From the page to the file *)

Lemma absolute_truthy origin href :
  Py.startswith origin "http" = true → truthy (Some (absolute origin href)) = true.
Proof.
  intros Horigin. pose proof (absolute_http origin href Horigin) as Hhttp.
  cbn [truthy]. by destruct (absolute origin href).
Qed.

Lemma get_apra_file_loop_hit before link after :
  (∀ l, l ∈ before → apra_accepts l = false) → apra_accepts link = true →
  APRA.get_apra_file_loop (before ++ link :: after)
  = Some (absolute "https://www.apra.gov.au" (Bs4.subscript link "href")).
Proof.
  intros Hbefore Hlink. induction before as [|l before IH];
    cbn [app APRA.get_apra_file_loop].
  - fold (apra_accepts link). by rewrite Hlink.
  - fold (apra_accepts l). rewrite (Hbefore l) by by left.
    apply IH. intros l' Hl'. apply Hbefore. by right.
Qed.

(** X21.  From the page to the file.  When the APRA page is fetched and
    its first accepted anchor is [link], and the download of that link is
    answered 200, the APRA script ends normally with the body saved in
    the APRA folder under the decoded last segment of the URL, after
    exactly one more request.  The same holds for the NSW Revenue script
    and the first href that contains its target name. *)
Theorem single_file_scripts_save :
  (∀ env w response w1 before link after file,
     APRA.fetch_url env APRA.APRA_URL 3 5 w = (Ok (Some response), w1) →
     ok response = true →
     Bs4.find_all_a_href (BeautifulSoup env (text response)) = before ++ link :: after →
     (∀ l, l ∈ before → apra_accepts l = false) →
     apra_accepts link = true →
     let url := absolute "https://www.apra.gov.au" (Bs4.subscript link "href") in
     attempt env url w1 0 = Responded file →
     status_code file = 200 →
     writable env (file_path_of (APRA.APRA_FOLDER env) url) = true →
     APRA.main env w
     = (Ok tt, {| requests := requests w1 ++ [url]; slept := slept w1;
                  disk := <[file_path_of (APRA.APRA_FOLDER env) url := content file]>
                            (disk w1) |}))
  ∧ (∀ env w response w1 before href after file,
       NSW.fetch_url env NSW.NSW_REVENUE_URL 3 5 w = (Ok (Some response), w1) →
       ok response = true →
       hrefs (BeautifulSoup env (text response)) = before ++ href :: after →
       (∀ h, h ∈ before → Py.contains NSW.TARGET_NSW_REVENUE_FILE h = false) →
       Py.contains NSW.TARGET_NSW_REVENUE_FILE href = true →
       let url := absolute "https://www.revenue.nsw.gov.au" href in
       attempt env url w1 0 = Responded file →
       status_code file = 200 →
       writable env (file_path_of (NSW.NSW_REVENUE_FOLDER env) url) = true →
       NSW.main env w
       = (Ok tt, {| requests := requests w1 ++ [url]; slept := slept w1;
                    disk := <[file_path_of (NSW.NSW_REVENUE_FOLDER env) url
                              := content file]> (disk w1) |})).
Proof.
  destruct download_file_copies as (Hapra & Hnsw & _). split.
  - intros env w response w1 before link after file Hrun Hok Hlinks Hbefore Hlink url
      Hget Hstatus Hwr.
    unfold APRA.main, APRA.get_apra_file. rewrite Hapra.
    unfold mbind, M_bind, mret, M_ret. rewrite Hrun, Hok. cbn [negb].
    rewrite Hlinks, (get_apra_file_loop_hit _ _ _ Hbefore Hlink). fold url.
    unfold url at 1. rewrite absolute_truthy by done. fold url.
    rewrite download_file_cases, Hget. apply Z.eqb_eq in Hstatus.
    by rewrite Hstatus, Hwr.
  - intros env w response w1 before href after file Hrun Hok Hlinks Hbefore Hhref url
      Hget Hstatus Hwr.
    unfold NSW.main, NSW.get_nsw_revenue_file. rewrite Hnsw.
    unfold mbind, M_bind, mret, M_ret. rewrite Hrun, Hok. cbn [negb].
    rewrite get_nsw_revenue_file_loop_first. fold (hrefs (BeautifulSoup env (text response))).
    rewrite Hlinks, (first_match_hit _ _ _ _ _ Hbefore Hhref). fold url.
    unfold url at 1. rewrite absolute_truthy by done. fold url.
    rewrite download_file_cases, Hget. apply Z.eqb_eq in Hstatus.
    by rewrite Hstatus, Hwr.
Qed.

Lemma single_file_scripts_save_witness :
  APRA.main (env_page apra_page_text apra_page_tree) world0
  = (Ok tt,
     {| requests := [ APRA.APRA_URL;
                      "https://www.apra.gov.au/sites/default/files/madis-back.xlsx" ];
        slept := [];
        disk := {[ "/home/user/Desktop/Banking Statistics Update/APRA Data/madis-back.xlsx"
                   := apra_page_text ]} |}).
Proof.
  pose (env := env_page apra_page_text apra_page_tree).
  destruct single_file_scripts_save as [Hapra _].
  apply (Hapra env world0 (page 200 apra_page_text)
           {| requests := [APRA.APRA_URL]; slept := []; disk := ∅ |}
           [ {| Bs4.element := anchor "/sites/default/files/madis.xlsx" "Current";
                Bs4.find_parents := [BeautifulSoup env apra_page_text] |} ]
           {| Bs4.element :=
                anchor "/sites/default/files/madis-back.xlsx"
                  "  Monthly statistics Back-Series ";
              Bs4.find_parents := [BeautifulSoup env apra_page_text] |}
           []
           (page 200 apra_page_text)).
  - reflexivity.
  - reflexivity.
  - reflexivity.
  - intros l ->%list_elem_of_singleton. by vm_compute.
  - by vm_compute.
  - reflexivity.
  - reflexivity.
  - reflexivity.
Defined.

(** ** Saving and unpacking in the ABS script *)

Ltac keeps_disk_tac resolver url :=
  let env := fresh "env" in
  let w := fresh "w" in
  let r := fresh "r" in
  let w' := fresh "w'" in
  let res := fresh "res" in
  let waits := fresh "waits" in
  let gets := fresh "gets" in
  let Hrun := fresh "Hrun" in
  let Habs := fresh "Habs" in
  intros env w r w';
  destruct (fetch_url_run env url 3 5 w) as (res & waits & gets & Hrun & _); [lia|];
  pose proof fetch_url_copies as (Habs & _);
  unfold resolver, mbind, M_bind, mret, M_ret;
  rewrite ?Habs, Hrun;
  destruct res as [response|]; [destruct (ok response)|]; cbn [negb];
  by intros [= <- <-].

Lemma download_step_disk env resolver w r w' :
  (∀ env w r w', resolver env w = (r, w') → disk w' = disk w) →
  download_step env resolver w = (r, w') →
  disk w' = disk w
  ∨ ∃ url body,
      r = Ok (Some (file_path_of (ABS.ABS_FOLDER env) url))
      ∧ disk w' = <[file_path_of (ABS.ABS_FOLDER env) url := body]> (disk w).
Proof.
  intros Hres. unfold download_step, mbind, M_bind.
  destruct (resolver env w) as [[file_url|e] w1] eqn:Hrun;
    [|intros [= <- <-]; left; by eapply Hres].
  apply Hres in Hrun. destruct file_url as [url|];
    [|intros [= <- <-]; by left].
  rewrite download_file_cases.
  destruct (attempt env url w1 0) as [response|]; [|intros [= <- <-]; by left].
  destruct (status_code response =? 200); [|intros [= <- <-]; by left].
  destruct (writable env _); [|intros [= <- <-]; by left].
  intros [= <- <-]. right. exists url, (content response). by rewrite <- Hrun.
Qed.



Lemma os_path_join_nonempty a b : b ≠ "" → Py.os_path_join a b ≠ "".
Proof.
  intros Hb. unfold Py.os_path_join. destruct (Py.startswith b "/"); [done|].
  destruct (String.eqb a "" || Py.endswith a "/").
  - destruct a as [|c a]; [done|]. by rewrite str_app_cons.
  - destruct a as [|c a]; [done|]. by rewrite str_app_cons.
Qed.

Lemma abs_file_path_truthy env file_url :
  truthy (Some (file_path_of (ABS.ABS_FOLDER env) file_url)) = true.
Proof.
  cbn [truthy]. apply negb_true_iff, not_true_iff_false. intros Heq%str_eqb_true.
  revert Heq. unfold file_path_of, Py.os_path_join at 1.
  destruct (Py.startswith (Py.unquote _) "/") eqn:Hslash.
  - intros Heq. by rewrite Heq in Hslash.
  - assert (ABS.ABS_FOLDER env ≠ "") as Hfolder by by apply os_path_join_nonempty.
    destruct (ABS.ABS_FOLDER env) as [|c a]; [done|].
    destruct (String.eqb _ "" || Py.endswith _ "/"); by rewrite str_app_cons.
Qed.

(** X23.  In the lending loop a download that is answered 200 with the
    bytes of a ZIP archive is saved in the ABS folder and at once read
    back and unpacked there: the loop over that one URL ends with the
    archive stored and every spreadsheet member extracted next to it. *)
Theorem lending_step_saves_and_extracts env file_url w response zip_ref :
  attempt env file_url w 0 = Responded response →
  status_code response = 200 →
  zip_reader env (content response) = Some zip_ref →
  (∀ path, writable env path = true) →
  ABS.main_lending_loop env [file_url] w
  = (Ok tt,
     {| requests := requests w ++ [file_url]; slept := slept w;
        disk := extracted zip_ref (Zip.namelist zip_ref) (ABS.ABS_FOLDER env)
                  (<[file_path_of (ABS.ABS_FOLDER env) file_url := content response]>
                     (disk w)) |}).
Proof.
  intros Hget Hstatus Hread Hwr.
  cbn [ABS.main_lending_loop]. unfold mbind at 1. unfold M_bind at 1.
  rewrite download_file_cases, Hget. apply Z.eqb_eq in Hstatus.
  rewrite Hstatus, Hwr, abs_file_path_truthy.
  unfold mbind at 1. unfold M_bind at 1.
  rewrite (extract_zip_run env _ _ _ (content response) zip_ref); [done| | |done|done].
  - intros Heq. pose proof (abs_file_path_truthy env file_url) as Htruthy.
    cbn [truthy] in Htruthy. by rewrite Heq in Htruthy.
  - cbn [disk]. by rewrite lookup_insert_eq.
Qed.

Lemma lending_step_saves_and_extracts_witness :
  ABS.main_lending_loop env_archive ["https://www.abs.gov.au/Business-Finance.zip"] world0
  = (Ok tt,
     {| requests := ["https://www.abs.gov.au/Business-Finance.zip"]; slept := [];
        disk := {[ "/home/user/Desktop/Banking Statistics Update/ABS Data/Business-Finance.zip"
                     := "PK flat";
                   "/home/user/Desktop/Banking Statistics Update/ABS Data/data.xlsx"
                     := "new figures";
                   "/home/user/Desktop/Banking Statistics Update/ABS Data/data_old.xls"
                     := "old figures" ]} |}).
Proof.
  rewrite (lending_step_saves_and_extracts env_archive
             "https://www.abs.gov.au/Business-Finance.zip" world0 (page 200 "PK flat")
             archive_flat); done.
Defined.
